(** * ResumePilot: the LaTeX compilation pipeline of [api/compile/route.ts]

    A shallow embedding of the compile endpoint: the markup validator, the
    compatibility simplifier, the remote typesetting client, the
    orchestrator, the universal resume parser and the jsPDF fallback
    renderer, with the [POST] handler in front of them and the compile
    handler of the editor component that calls it.

    Two revisions of the endpoint are in the repository.  The richer one
    (five remote methods, parser and fallback renderer) is embedded at top
    level; the definitions in which the slimmer revision
    [src/app/api/compile/route.ts] differs are in [Module RouteTs].
    The validator [validateLatex] of [src/lib/templates.ts], which the
    endpoint does not call, is in [Module Templates].

    Conventions of the embedding.
    - A JavaScript string is a [string] of 8-bit characters; white space and
      case mapping are the ones JavaScript gives to these characters.
    - A regular expression literal is transcribed constructor by
      constructor into [re] and run by a backtracking matcher with the
      priority order of the JavaScript one.
      A comment that quotes a pattern of the source puts a blank between
      a star and the closing parenthesis of a group.
    - [fetch] is an oracle of the environment; every call is logged.
    - jsPDF is an interface ([PdfLib]): the text operations are recorded,
      font metrics and the byte serialisation belong to the library. *)

From Stdlib Require Import String Ascii List Bool Arith PeanoNat NArith ZArith
  Lia.
From Stdlib Require Import Sorting.Permutation.
From Stdlib Require Import Numbers.DecimalString.
Import ListNotations.

Local Open Scope list_scope.
Local Open Scope string_scope.
Local Open Scope nat_scope.

(* ================================================================== *)
(** ** JavaScript string primitives *)

Module Js.

(** The line feed, written ['\n'] in the source. *)
Definition nl : string := String (ascii_of_nat 10) EmptyString.

Definition code (c : ascii) : nat := nat_of_ascii c.

Definition in_range (lo hi : nat) (c : ascii) : bool :=
  (lo <=? code c) && (code c <=? hi).

(** [\s]: tab, line feed, vertical tab, form feed, carriage return, space
    and the no-break space. *)
Definition is_space (c : ascii) : bool :=
  in_range 9 13 c || (code c =? 32) || (code c =? 160).

Definition is_digit (c : ascii) : bool := in_range 48 57 c.
Definition is_upper (c : ascii) : bool := in_range 65 90 c.
Definition is_lower (c : ascii) : bool := in_range 97 122 c.
Definition is_alpha (c : ascii) : bool := is_upper c || is_lower c.

Definition lower_char (c : ascii) : ascii :=
  if is_upper c || in_range 192 214 c || in_range 216 222 c
  then ascii_of_nat (code c + 32) else c.

(** Upper case of a character whose upper case is again a single 8-bit
    character. *)
Definition upper_char (c : ascii) : ascii :=
  if is_lower c || in_range 224 246 c || in_range 248 254 c
  then ascii_of_nat (code c - 32) else c.

Fixpoint map_chars (f : ascii -> ascii) (s : string) : string :=
  match s with
  | EmptyString => EmptyString
  | String c s' => String (f c) (map_chars f s')
  end.

Definition toLowerCase : string -> string := map_chars lower_char.

(** [s.toUpperCase()].  The sharp s (223) becomes [SS].  The capitals of
    the micro sign (181) and of the y with diaeresis (255) are not 8-bit
    characters; these two characters are left as they are here, and a
    statement on capitals excludes them ([capitals_in_alphabet]). *)
Fixpoint toUpperCase (s : string) : string :=
  match s with
  | EmptyString => EmptyString
  | String c s' =>
      if code c =? 223 then String "S" (String "S" (toUpperCase s'))
      else String (upper_char c) (toUpperCase s')
  end.

Fixpoint startsWith (p s : string) : bool :=
  match p, s with
  | EmptyString, _ => true
  | String a p', String b s' => Ascii.eqb a b && startsWith p' s'
  | String _ _, EmptyString => false
  end.

(** [s.includes(p)] *)
Fixpoint includes (s p : string) : bool :=
  startsWith p s ||
  match s with
  | EmptyString => false
  | String _ s' => includes s' p
  end.

Fixpoint drop (n : nat) (s : string) : string :=
  match n, s with
  | S n', String _ s' => drop n' s'
  | _, _ => s
  end.

Fixpoint take (n : nat) (s : string) : string :=
  match n, s with
  | S n', String c s' => String c (take n' s')
  | _, _ => EmptyString
  end.

(** [s.substring(0, n)] *)
Definition substring0 (n : nat) (s : string) : string := take n s.

Fixpoint trimStart (s : string) : string :=
  match s with
  | String c s' => if is_space c then trimStart s' else s
  | EmptyString => EmptyString
  end.

Fixpoint trimEnd (s : string) : string :=
  match s with
  | EmptyString => EmptyString
  | String c s' =>
      match trimEnd s' with
      | EmptyString => if is_space c then EmptyString else String c EmptyString
      | t => String c t
      end
  end.

Definition trim (s : string) : string := trimEnd (trimStart s).

(** [s.split(sep)] for a one-character separator: never the empty list. *)
Fixpoint split (sep : ascii) (s : string) : list string :=
  match s with
  | EmptyString => [EmptyString]
  | String c s' =>
      if Ascii.eqb c sep then EmptyString :: split sep s'
      else match split sep s' with
           | l :: ls => String c l :: ls
           | [] => [String c EmptyString]
           end
  end.

(** [xs.join(sep)] *)
Fixpoint join (sep : string) (xs : list string) : string :=
  match xs with
  | [] => EmptyString
  | [x] => x
  | x :: rest => x ++ sep ++ join sep rest
  end.

(** [s.replace(pat, by)] with a string pattern: the first occurrence only. *)
Fixpoint replaceFirst (pat by_ s : string) : string :=
  if startsWith pat s then by_ ++ drop (String.length pat) s
  else match s with
       | EmptyString => EmptyString
       | String c s' => String c (replaceFirst pat by_ s')
       end.

(** [s.match(/c/g).length], the number of occurrences of one character. *)
Fixpoint count_char (c : ascii) (s : string) : nat :=
  match s with
  | EmptyString => 0
  | String a s' => (if Ascii.eqb a c then 1 else 0) + count_char c s'
  end.

(** A number inside a template literal. *)
Definition string_of_nat (n : nat) : string :=
  NilEmpty.string_of_uint (Nat.to_uint n).

(** Truthiness of a string: [''] is falsy. *)
Definition truthy (s : string) : bool :=
  match s with EmptyString => false | _ => true end.

(** [a || b] on strings. *)
Definition or_else (a b : string) : string := if truthy a then a else b.

(** [a || b] where [a] may be [undefined]. *)
Definition opt_or (a : option string) (b : string) : string :=
  match a with Some s => or_else s b | None => b end.

Definition opt_truthy (a : option string) : bool :=
  match a with Some s => truthy s | None => false end.

(** The characters that [encodeURIComponent] leaves as they are: letters,
    digits and the marks [- _ . ! ~ * ' ( )]. *)
Definition unreserved (c : ascii) : bool :=
  is_alpha c || is_digit c
  || existsb (Ascii.eqb c) (list_ascii_of_string "-_.!~*'()").

Definition hex_digit (n : nat) : ascii :=
  nth n (list_ascii_of_string "0123456789ABCDEF") "0"%char.

(** One escaped byte: [%XX]. *)
Definition percent (n : nat) : string :=
  String "%" (String (hex_digit (n / 16))
                     (String (hex_digit (n mod 16)) EmptyString)).

(** The escapes of the UTF-8 bytes of every character that is not
    unreserved; a character from 128 on has two bytes. *)
Fixpoint escape (s : string) : string :=
  match s with
  | EmptyString => EmptyString
  | String c s' =>
      (if unreserved c then String c EmptyString
       else if code c <? 128 then percent (code c)
       else percent (192 + code c / 64) ++ percent (128 + code c mod 64))
      ++ escape s'
  end.

(** [encodeURIComponent(s)]: the escaped text, or [None] for the URIError
    that a lone surrogate raises.  A string of 8-bit characters holds no
    surrogate. *)
Definition encodeURIComponent (s : string) : option string :=
  Some (escape s).

End Js.

(* ================================================================== *)
(** ** Regular expressions

    The fragment of the JavaScript regular expressions that the endpoint
    uses, with a backtracking matcher in continuation-passing style.  The
    alternatives are tried in the order of the JavaScript matcher: left
    alternative first, a greedy star tries one more iteration before it
    stops, a lazy star stops before it tries one more. *)

Module Regex.

Inductive re : Type :=
| Eps                                   (* the empty pattern *)
| Chr (p : ascii -> bool)               (* one character of a class *)
| Seq (r1 r2 : re)                      (* r1 r2 *)
| Alt (r1 r2 : re)                      (* r1|r2 *)
| Star (greedy : bool) (r : re)         (* r* and r*? *)
| Grp (i : nat) (r : re)                (* capture group number i *)
| Ahead (r : re)                        (* (?=r) *)
| Bol                                   (* ^ without the m flag *)
| Eol.                                  (* $ without the m flag *)

(** A matcher state: whether the position is the start of the input, the
    input that is left, and the groups captured so far. *)
Record mstate : Type := MState {
  at0 : bool;
  rest : string;
  caps : list (nat * string)
}.

Definition set_cap (i : nat) (v : string) (cs : list (nat * string))
  : list (nat * string) :=
  (i, v) :: filter (fun e => negb (fst e =? i)) cs.

Fixpoint get_cap (i : nat) (cs : list (nat * string)) : option string :=
  match cs with
  | [] => None
  | (j, v) :: cs' => if j =? i then Some v else get_cap i cs'
  end.

(** The text consumed between two states of one run. *)
Definition consumed (st st' : mstate) : string :=
  Js.take (String.length (rest st) - String.length (rest st')) (rest st).

Definition advanced (st st' : mstate) : bool :=
  String.length (rest st') <? String.length (rest st).

(** The iterations of a star.  [step] matches the body once; an iteration
    that consumes nothing is refused; [n] bounds the iterations and is the
    length of the input left when the star starts, which no run can
    exhaust ([star_loop_bound_enough]). *)
Fixpoint star_loop (greedy : bool)
  (step : (mstate -> option mstate) -> mstate -> option mstate)
  (k : mstate -> option mstate) (n : nat) (st : mstate) {struct n}
  : option mstate :=
  match n with
  | O => k st
  | S n' =>
      if greedy then
        match step (fun st' => if advanced st st'
                               then star_loop greedy step k n' st'
                               else None) st with
        | Some x => Some x
        | None => k st
        end
      else
        match k st with
        | Some x => Some x
        | None => step (fun st' => if advanced st st'
                                   then star_loop greedy step k n' st'
                                   else None) st
        end
  end.

Fixpoint mt (r : re) (k : mstate -> option mstate) (st : mstate)
  {struct r} : option mstate :=
  match r with
  | Eps => k st
  | Chr p =>
      match rest st with
      | String c s' => if p c then k (MState false s' (caps st)) else None
      | EmptyString => None
      end
  | Seq r1 r2 => mt r1 (mt r2 k) st
  | Alt r1 r2 =>
      match mt r1 k st with
      | Some x => Some x
      | None => mt r2 k st
      end
  | Star greedy r1 =>
      star_loop greedy (mt r1) k (String.length (rest st)) st
  | Grp i r1 =>
      mt r1 (fun st' => k (MState (at0 st') (rest st')
                             (set_cap i (consumed st st') (caps st')))) st
  | Ahead r1 =>
      match mt r1 Some st with
      | Some st' => k (MState (at0 st) (rest st) (caps st'))
      | None => None
      end
  | Bol => if at0 st then k st else None
  | Eol => match rest st with EmptyString => k st | _ => None end
  end.

(** A match at the current position: the state at its end. *)
Definition match_here (r : re) (start : bool) (s : string) : option mstate :=
  mt r Some (MState start s []).

(** The result object of [exec] and [match]: [m[0]], the groups, and the
    input after the match. *)
Record rmatch : Type := RMatch {
  m_index : nat;
  m_text : string;
  m_caps : list (nat * string);
  m_after : string
}.

Definition mk_match (idx : nat) (s : string) (st' : mstate) : rmatch :=
  RMatch idx (Js.take (String.length s - String.length (rest st')) s)
         (caps st') (rest st').

(** [m[i]] *)
Definition group (m : rmatch) (i : nat) : option string :=
  match i with
  | O => Some (m_text m)
  | _ => get_cap i (m_caps m)
  end.

(** [m[i]] for a group that takes part in every match of its pattern. *)
Definition group_str (m : rmatch) (i : nat) : string :=
  match group m i with Some s => s | None => EmptyString end.

(** The leftmost match at or after the current position. *)
Fixpoint search_from (r : re) (start : bool) (idx : nat) (s : string)
  : option rmatch :=
  match match_here r start s with
  | Some st' => Some (mk_match idx s st')
  | None =>
      match s with
      | String _ s' => search_from r false (S idx) s'
      | EmptyString => None
      end
  end.

(** [s.match(r)] for a pattern without the g flag. *)
Definition search (r : re) (s : string) : option rmatch :=
  search_from r true 0 s.

(** [r.test(s)] *)
Definition test (r : re) (s : string) : bool :=
  match search r s with Some _ => true | None => false end.

(** The successive results of [r.exec(s)] for a pattern with the g flag,
    as in [while ((m = r.exec(s)) !== null)].  [skip] characters are still
    inside the previous match.  Every pattern that the endpoint runs in
    such a loop begins with a literal backslash, so that no match is empty
    and [lastIndex] moves on ([loop_patterns_never_empty]). *)
Fixpoint exec_from (r : re) (skip : nat) (start : bool) (idx : nat)
  (s : string) : list rmatch :=
  match skip with
  | S k =>
      match s with
      | String _ s' => exec_from r k false (S idx) s'
      | EmptyString => []
      end
  | O =>
      match s with
      | EmptyString =>
          match match_here r start s with
          | Some st' => [mk_match idx s st']
          | None => []
          end
      | String _ s' =>
          match match_here r start s with
          | Some st' =>
              mk_match idx s st'
                :: exec_from r
                     (String.length s - String.length (rest st') - 1)
                     false (S idx) s'
          | None => exec_from r 0 false (S idx) s'
          end
      end
  end.

Definition exec_all (r : re) (s : string) : list rmatch :=
  exec_from r 0 true 0 s.

(** [s.replace(r, by)] for a pattern with the g flag; [by_] computes the
    replacement text from the match (a constant function for a replacement
    string without [$]). *)
Fixpoint replace_from (r : re) (by_ : rmatch -> string) (skip : nat)
  (start : bool) (idx : nat) (s : string) : string :=
  match skip with
  | S k =>
      match s with
      | String _ s' => replace_from r by_ k false (S idx) s'
      | EmptyString => EmptyString
      end
  | O =>
      match s with
      | EmptyString =>
          match match_here r start s with
          | Some st' => by_ (mk_match idx s st')
          | None => EmptyString
          end
      | String c s' =>
          match match_here r start s with
          | Some st' =>
              let n := String.length s - String.length (rest st') in
              match n with
              | O => by_ (mk_match idx s st')
                     ++ String c (replace_from r by_ 0 false (S idx) s')
              | S k => by_ (mk_match idx s st')
                       ++ replace_from r by_ k false (S idx) s'
              end
          | None => String c (replace_from r by_ 0 false (S idx) s')
          end
      end
  end.

Definition replace_all (r : re) (by_ : rmatch -> string) (s : string)
  : string :=
  replace_from r by_ 0 true 0 s.

(** [s.replace(r, 'text')] *)
Definition replace_with (r : re) (by_ : string) (s : string) : string :=
  replace_all r (fun _ => by_) s.

(** *** Pattern combinators *)

Definition chr (c : ascii) : re := Chr (Ascii.eqb c).

(** A character under the i flag. *)
Definition chr_i (c : ascii) : re :=
  Chr (fun x => Ascii.eqb (Js.lower_char x) (Js.lower_char c)).

Fixpoint lit (s : string) : re :=
  match s with
  | EmptyString => Eps
  | String c EmptyString => chr c
  | String c s' => Seq (chr c) (lit s')
  end.

Fixpoint lit_i (s : string) : re :=
  match s with
  | EmptyString => Eps
  | String c EmptyString => chr_i c
  | String c s' => Seq (chr_i c) (lit_i s')
  end.

Fixpoint seqs (rs : list re) : re :=
  match rs with
  | [] => Eps
  | [r] => r
  | r :: rs' => Seq r (seqs rs')
  end.

Fixpoint alts (rs : list re) : re :=
  match rs with
  | [] => Eps
  | [r] => r
  | r :: rs' => Alt r (alts rs')
  end.

Definition star (r : re) : re := Star true r.          (* r*  *)
Definition lazy (r : re) : re := Star false r.         (* r*? *)
Definition plus (r : re) : re := Seq r (Star true r).  (* r+  *)
Definition opt (r : re) : re := Alt r Eps.             (* r?  *)

Fixpoint times (n : nat) (r : re) : re :=              (* r{n} *)
  match n with
  | O => Eps
  | 1 => r
  | S n' => Seq r (times n' r)
  end.

Definition at_least (n : nat) (r : re) : re :=         (* r{n,} *)
  Seq (times n r) (Star true r).

(** Character classes. *)
Fixpoint one_of (set : string) (c : ascii) : bool :=
  match set with
  | EmptyString => false
  | String a set' => Ascii.eqb a c || one_of set' c
  end.

Definition none_of (set : string) (c : ascii) : bool := negb (one_of set c).
Definition any_char (c : ascii) : bool := true.        (* [\s\S] *)

Definition space : re := Chr Js.is_space.              (* \s *)
Definition digit : re := Chr Js.is_digit.              (* \d, [0-9] *)

End Regex.

Import Js Regex.

(* ================================================================== *)
(** ** Compatibility simplifier *)

(** [[^}]] *)
Definition not_close : re := Chr (none_of "}").

(** The chain of [simplified = simplified.replace(/.../g, '...')]
    statements of [simplifyLatexForOnlineServices], in source order: the
    pattern and the replacement string of each. *)
Definition simplify_rules : list (re * string) :=
  [ (* "/\\usepackage\{fontawesome5\}/g" *)
    (lit "\usepackage{fontawesome5}", "% fontawesome5 not available");
    (lit "\faPhone", "Tel:");
    (lit "\faEnvelope", "Email:");
    (lit "\faLinkedin", "LinkedIn:");
    (lit "\faGithub", "GitHub:");
    (* "/\\raisebox\{[^}]*\}/g" *)
    (seqs [lit "\raisebox{"; star not_close; lit "}"], "");
    (lit "\usepackage{marvosym}", "% marvosym not available");
    (lit "\usepackage{multicol}", "% multicol simplified");
    (lit "\input{glyphtounicode}", "% glyphtounicode not available");
    (* "/\\addtolength\{\\oddsidemargin\}\{[^}]*\}/g" and its four siblings *)
    (seqs [lit "\addtolength{\oddsidemargin}{"; star not_close; lit "}"], "");
    (seqs [lit "\addtolength{\evensidemargin}{"; star not_close; lit "}"], "");
    (seqs [lit "\addtolength{\textwidth}{"; star not_close; lit "}"], "");
    (seqs [lit "\addtolength{\topmargin}{"; star not_close; lit "}"], "");
    (seqs [lit "\addtolength{\textheight}{"; star not_close; lit "}"], "");
    (lit "\pagestyle{fancy}", "\pagestyle{empty}");
    (lit "\fancyhf{}", "");
    (lit "\fancyfoot{}", "");
    (* "/\\renewcommand\\labelitemi\{[^}]*\}/g" *)
    (seqs [lit "\renewcommand\labelitemi{"; star not_close; lit "}"], "");
    (seqs [lit "\renewcommand\labelitemii{"; star not_close; lit "}"], "") ].

Definition apply_rule (s : string) (rule : re * string) : string :=
  replace_with (fst rule) (snd rule) s.

Definition apply_rules (rules : list (re * string)) (s : string) : string :=
  fold_left apply_rule rules s.

Definition article_class : string :=
  "\documentclass[letterpaper,11pt]{article}".

Definition geometry_line : string := "\usepackage[margin=0.75in]{geometry}".

(** The last statement of the simplifier: the baseline margin package is
    added after the document class unless [\usepackage{geometry}] occurs. *)
Definition ensure_geometry (simplified : string) : string :=
  if negb (includes simplified "\usepackage{geometry}")
  then replaceFirst article_class (article_class ++ nl ++ geometry_line)
         simplified
  else simplified.

Definition simplifyLatexForOnlineServices (latex : string) : string :=
  ensure_geometry (apply_rules simplify_rules latex).

(* ================================================================== *)
(** ** The network and the remote typesetting client *)

Module Net.

Inductive verb : Type := GET | POST.

(** What a [fetch] call sends: the URL without its query, the method, the
    [Accept] and [Content-Type] headers, and the form or query fields. *)
Record request : Type := Request {
  url : string;
  method : verb;
  accept : option string;
  content_type_sent : option string;
  fields : list (string * string)
}.

(** What the code reads of a response: [ok], the [content-type] header and
    the bytes of the body. *)
Record response : Type := Response {
  ok : bool;
  content_type : option string;
  body : list Byte.byte
}.

(** A [fetch] promise is rejected (transport error, abort) or resolved. *)
Inductive outcome : Type :=
| Rejected
| Resolved (r : response).

(** The environment: the outcome of a request, given the requests made
    before it, and whether a timer of [ms] milliseconds started after
    these requests fires before the attempt it is raced against settles. *)
Record env : Type := Env {
  respond : list request -> request -> outcome;
  timer_first : N -> list request -> bool
}.

(** Computations that log their requests. *)
Definition M (A : Type) : Type := list request -> A * list request.

Definition ret {A : Type} (a : A) : M A := fun log => (a, log).

Definition bind {A B : Type} (m : M A) (f : A -> M B) : M B :=
  fun log => let (a, log') := m log in f a log'.

Definition fetch (e : env) (rq : request) : M outcome :=
  fun log => (respond e log rq, log ++ [rq])%list.

(** [Promise.race([attempt, timer]).catch(() => null)]: the attempt runs
    and its requests are made; its result is dropped when the timer fires
    first. *)
Definition race (e : env) (ms : N) {A : Type} (attempt : M (option A))
  : M (option A) :=
  fun log =>
    let (r, log') := attempt log in
    (if timer_first e ms log then None else r, log').

End Net.

Notation "x <- m ;; k" := (Net.bind m (fun x => k))
  (at level 61, m at next level, right associativity).

Import Net.

Definition bytes : Type := list Byte.byte.

(** [headers.get('content-type')?.includes('pdf')] *)
Definition says_pdf (r : response) : bool :=
  match content_type r with
  | Some t => includes t "pdf"
  | None => false
  end.

(** [byteLength > 1000] *)
Definition above_floor (b : bytes) : bool := 1000 <? List.length b.

(** The acceptance test of methods 1, 2, 3 and 5. *)
Definition accept_pdf (o : outcome) : option bytes :=
  match o with
  | Resolved r =>
      if ok r && says_pdf r && above_floor (body r) then Some (body r)
      else None
  | Rejected => None
  end.

(** The acceptance test of method 4, the alternative service. *)
Definition accept_alt (o : outcome) : option bytes :=
  match o with
  | Resolved r => if ok r && above_floor (body r) then Some (body r) else None
  | Rejected => None
  end.

Definition form : option string := Some "application/x-www-form-urlencoded".
Definition pdf_type : option string := Some "application/pdf".

Definition direct_request (latexContent : string) : request :=
  Request "https://latexonline.cc/compile" GET pdf_type None
          [("text", latexContent); ("command", "pdflatex")].

Definition post_request (latexContent command : string) : request :=
  Request "https://latexonline.cc/compile" POST pdf_type form
          [("text", latexContent); ("command", command)].

Definition alt_request (latexContent : string) : request :=
  Request "https://latex.aslushnikov.com/compile" POST None form
          [("text", latexContent)].

Section Client.

Variable e : env.

(** [tryLatexOnline].  The query of the first URL is escaped under the
    outer [try] only, so a URIError ends the function with [null] before
    any request.  Methods 1, 3, 4 and 5 have a [try] block of their own,
    so a rejected [fetch] moves on to the next method; the [fetch] of
    method 2 is guarded by the outer [try] only, so its rejection ends the
    function with [null].  The requests keep their fields as they are
    before escaping. *)
Definition tryLatexOnline (latexContent : string) : M (option bytes) :=
  match encodeURIComponent latexContent with
  | None => ret None
  | Some _ =>
  directResponse <- fetch e (direct_request latexContent) ;;
  match accept_pdf directResponse with
  | Some pdf => ret (Some pdf)
  | None =>
  response <- fetch e (post_request latexContent "pdflatex") ;;
  match response with
  | Rejected => ret None
  | Resolved _ =>
  match accept_pdf response with
  | Some pdf => ret (Some pdf)
  | None =>
  xelatexResponse <- fetch e (post_request latexContent "xelatex") ;;
  match accept_pdf xelatexResponse with
  | Some pdf => ret (Some pdf)
  | None =>
  altResponse <- fetch e (alt_request latexContent) ;;
  match accept_alt altResponse with
  | Some pdf => ret (Some pdf)
  | None =>
  lualatexResponse <- fetch e (post_request latexContent "lualatex") ;;
  ret (accept_pdf lualatexResponse)
  end end end end end end.

(** [compileLatexToPDF]: the original markup under a 30 s timer, then the
    simplified markup, when it differs, under a 25 s timer. *)
Definition compileLatexToPDF (latexContent : string) : M (option bytes) :=
  originalResult <- race e 30000%N (tryLatexOnline latexContent) ;;
  match originalResult with
  | Some pdf => ret (Some pdf)
  | None =>
      let simplifiedLatex := simplifyLatexForOnlineServices latexContent in
      if negb (String.eqb simplifiedLatex latexContent) then
        simplifiedResult <- race e 25000%N (tryLatexOnline simplifiedLatex) ;;
        ret simplifiedResult
      else ret None
  end.

End Client.

(* ================================================================== *)
(** ** Universal resume parser *)

(** [[^\\]] *)
Definition not_bslash : re := Chr (none_of "\").
Definition upper : re := Chr is_upper.                 (* [A-Z] *)
Definition lower : re := Chr is_lower.                 (* [a-z] *)
Definition alpha : re := Chr is_alpha.                 (* [a-zA-Z] *)
Definition any : re := Chr any_char.                   (* [\s\S] *)

(** [\macro\{([^}]+)\}] *)
Definition braced1 (macro : string) : re :=
  seqs [lit macro; lit "{"; Grp 1 (plus not_close); lit "}"].

(** The pattern array of [extractName], in source order. *)
Definition name_patterns : list re :=
  [ braced1 "\name";                       (* "/\\name\{([^}]+)\}/" *)
    braced1 "\author";                     (* "/\\author\{([^}]+)\}/" *)
    (* "/\{\\LARGE\\textbf\{([^}]+)\}\}/" *)
    seqs [lit "{\LARGE\textbf{"; Grp 1 (plus not_close); lit "}}"];
    (* "/\\LARGE\\textbf\{([^}]+)\}/" *)
    seqs [lit "\LARGE\textbf{"; Grp 1 (plus not_close); lit "}"];
    (* "/\\centerline\{\\huge\s*\\bfseries\s*([^}]+)\}/" *)
    seqs [lit "\centerline{\huge"; star space; lit "\bfseries"; star space;
          Grp 1 (plus not_close); lit "}"];
    (* "/\\centerline\{\\huge\s*\\scshape\s*([^}]+)\}/" *)
    seqs [lit "\centerline{\huge"; star space; lit "\scshape"; star space;
          Grp 1 (plus not_close); lit "}"];
    (* "/\\begin\{center\}[\s\S]*?\{\\Huge\s*\\scshape\s*([^}]+)\}/" *)
    seqs [lit "\begin{center}"; lazy any; lit "{\Huge"; star space;
          lit "\scshape"; star space; Grp 1 (plus not_close); lit "}"];
    (* "/\\begin\{center\}[\s\S]*?\{\\huge\s*\\bfseries\s*([^}]+)\}/" *)
    seqs [lit "\begin{center}"; lazy any; lit "{\huge"; star space;
          lit "\bfseries"; star space; Grp 1 (plus not_close); lit "}"];
    (* "/\\textbf\{([^}]*(?:John|Jane|Mr\.|Ms\.|Dr\.)[^}]* )\}/i" *)
    seqs [lit_i "\textbf{";
          Grp 1 (seqs [star not_close;
                       alts [lit_i "John"; lit_i "Jane"; lit_i "Mr.";
                             lit_i "Ms."; lit_i "Dr."];
                       star not_close]);
          lit "}"];
    (* "/\\large\s*\\textbf\{([^}]+)\}/" *)
    seqs [lit "\large"; star space; lit "\textbf{"; Grp 1 (plus not_close);
          lit "}"];
    (* "/\\LARGE\s*([^\\]+)/" *)
    seqs [lit "\LARGE"; star space; Grp 1 (plus not_bslash)];
    (* "/\\huge\s*([^\\]+)/" *)
    seqs [lit "\huge"; star space; Grp 1 (plus not_bslash)];
    (* "/\\Huge\s*\\scshape\s*([^\\]+)/" *)
    seqs [lit "\Huge"; star space; lit "\scshape"; star space;
          Grp 1 (plus not_bslash)];
    (* "/\\huge\s*\\bfseries\s*([^\\]+)/" *)
    seqs [lit "\huge"; star space; lit "\bfseries"; star space;
          Grp 1 (plus not_bslash)] ].

(** [for (const pattern of patterns) { const match = latex.match(pattern);
    if (match && match[1].trim().length > 0) return match[1].trim() }] *)
Fixpoint first_nonblank (patterns : list re) (latex : string)
  : option string :=
  match patterns with
  | [] => None
  | pattern :: others =>
      match search pattern latex with
      | Some m =>
          if 0 <? String.length (trim (group_str m 1))
          then Some (trim (group_str m 1))
          else first_nonblank others latex
      | None => first_nonblank others latex
      end
  end.

(** "/\\begin\{center\}([\s\S]*?)\\end\{center\}/" *)
Definition center_env : re :=
  seqs [lit "\begin{center}"; Grp 1 (lazy any); lit "\end{center}"].

(** "/\{\\(?:Huge|huge|LARGE|Large)\s*(?:\\scshape|\\bfseries)?\s*([^}]+)\}/" *)
Definition name_in_center : re :=
  seqs [lit "{\"; alts [lit "Huge"; lit "huge"; lit "LARGE"; lit "Large"];
        star space; opt (alts [lit "\scshape"; lit "\bfseries"]);
        star space; Grp 1 (plus not_close); lit "}"].

(** "/\\centerline\{[^}]*?([A-Z][a-z]+\s+[A-Z][a-z]+)[^}]*\}/" *)
Definition centerline_name : re :=
  seqs [lit "\centerline{"; lazy not_close;
        Grp 1 (seqs [upper; plus lower; plus space; upper; plus lower]);
        star not_close; lit "}"].

(** "/\\[a-zA-Z]+\*?\{?/g", the macro heads that the line heuristics drop *)
Definition macro_head : re :=
  seqs [lit "\"; plus alpha; opt (chr "*"); opt (chr "{")].

(** "/\\[a-zA-Z]+\{?/g", the variant without the star *)
Definition macro_head_nostar : re :=
  seqs [lit "\"; plus alpha; opt (chr "{")].

(** [line.replace(/\\[a-zA-Z]+\*?\{?/g, '').replace(/\}/g, '').trim()] *)
Definition clean_line (line : string) : string :=
  trim (replace_with (lit "}") "" (replace_with macro_head "" line)).

(** [s.replace(/\\[a-zA-Z]+\{?/g, '').replace(/\}/g, '').trim()] *)
Definition clean_nostar (s : string) : string :=
  trim (replace_with (lit "}") "" (replace_with macro_head_nostar "" s)).

(** "/^[A-Z][a-z]+ [A-Z][a-z]+/" *)
Definition two_capitalised : re :=
  seqs [Bol; upper; plus lower; lit " "; upper; plus lower].

(** The last resort of [extractName] over [lines.slice(0, 15)]. *)
Fixpoint name_from_lines (lines : list string) : option string :=
  match lines with
  | [] => None
  | line :: others =>
      let cleanLine := clean_line line in
      if test two_capitalised cleanLine
      then Some (join " " (firstn 2 (split " " cleanLine)))
      else name_from_lines others
  end.

Definition placeholder_name : string := "Resume Preview".

Definition extractName (latex : string) : string :=
  match first_nonblank name_patterns latex with
  | Some name => name
  | None =>
  match
    match search center_env latex with
    | Some centerMatch =>
        match search name_in_center (group_str centerMatch 1) with
        | Some nameInCenter => Some (trim (group_str nameInCenter 1))
        | None => None
        end
    | None => None
    end
  with
  | Some name => name
  | None =>
  match search centerline_name latex with
  | Some centerlineMatch => trim (group_str centerlineMatch 1)
  | None =>
  match name_from_lines (firstn 15 (split (ascii_of_nat 10) latex)) with
  | Some name => name
  | None => placeholder_name
  end end end end.

(** "/\\macro\{([^}]*(?:Engineer|Developer|Manager|Analyst|Designer)[^}]* )\}/i" *)
Definition braced_role (macro : string) : re :=
  seqs [lit_i macro; lit "{";
        Grp 1 (seqs [star not_close;
                     alts [lit_i "Engineer"; lit_i "Developer";
                           lit_i "Manager"; lit_i "Analyst";
                           lit_i "Designer"];
                     star not_close]);
        lit "}"].

Definition title_patterns : list re :=
  [ braced1 "\title"; braced1 "\subtitle";
    braced_role "\textit"; braced_role "\emph" ].

Definition extractTitle (latex : string) : string :=
  match first_nonblank title_patterns latex with
  | Some title => title
  | None => EmptyString
  end.

(** The [contact] object; an absent property is [None]. *)
Record Contact : Type := MkContact {
  email : option string;
  phone : option string;
  address : option string;
  linkedin : option string;
  github : option string
}.

(** [for (const pattern of patterns) { const match = latex.match(pattern);
    if (match) { field = match[1]; break } }] *)
Fixpoint first_match (patterns : list re) (latex : string) : option string :=
  match patterns with
  | [] => None
  | pattern :: others =>
      match search pattern latex with
      | Some m => Some (group_str m 1)
      | None => first_match others latex
      end
  end.

(** [[a-zA-Z0-9._%+-]] and [[a-zA-Z0-9.-]] *)
Definition mail_user (c : ascii) : bool :=
  is_alpha c || is_digit c || one_of "._%+-" c.
Definition mail_host (c : ascii) : bool :=
  is_alpha c || is_digit c || one_of ".-" c.

(** "([a-zA-Z0-9._%+-]+@[a-zA-Z0-9.-]+\.[a-zA-Z]{2,})" *)
Definition mail_address : re :=
  Grp 1 (seqs [plus (Chr mail_user); lit "@"; plus (Chr mail_host); lit ".";
               at_least 2 alpha]).

Definition emailPatterns : list re :=
  [ braced1 "\email";
    (* "/\\href\{mailto:([^}]+)\}/" *)
    seqs [lit "\href{mailto:"; Grp 1 (plus not_close); lit "}"];
    (* "/\\faEnvelope\\?\s*\\underline\{([^}]+)\}/" *)
    seqs [lit "\faEnvelope"; opt (chr "\"); star space; lit "\underline{";
          Grp 1 (plus not_close); lit "}"];
    (* "/Email:\s*\\href\{mailto:([^}]+)\}/" *)
    seqs [lit "Email:"; star space; lit "\href{mailto:";
          Grp 1 (plus not_close); lit "}"];
    seqs [lit "Email:"; star space; mail_address];
    mail_address ].

(** [[+\d\s\-()]] *)
Definition phone_char (c : ascii) : bool :=
  is_digit c || is_space c || one_of "+-()" c.

(** [[-.\s]] *)
Definition phone_sep (c : ascii) : bool := is_space c || one_of "-." c.

Definition phonePatterns : list re :=
  [ braced1 "\phone";
    (* "/\\phone\[[^\]]*\]\{([^}]+)\}/" *)
    seqs [lit "\phone["; star (Chr (none_of "]")); lit "]{";
          Grp 1 (plus not_close); lit "}"];
    (* "/\\faPhone\\?\s*([+\d\s\-()]+)/" *)
    seqs [lit "\faPhone"; opt (chr "\"); star space;
          Grp 1 (plus (Chr phone_char))];
    (* "/\\raisebox\{[^}]*\}\\faPhone\\?\s*([+\d\s\-()]+)/" *)
    seqs [lit "\raisebox{"; star not_close; lit "}\faPhone"; opt (chr "\");
          star space; Grp 1 (plus (Chr phone_char))];
    (* "/(\+91\s*\d{5}\s*\d{5})/" *)
    Grp 1 (seqs [lit "+91"; star space; times 5 digit; star space;
                 times 5 digit]);
    (* "/(\+?1?[-.\s]?\(?[0-9]{3}\)?[-.\s]?[0-9]{3}[-.\s]?[0-9]{4})/" *)
    Grp 1 (seqs [opt (chr "+"); opt (chr "1"); opt (Chr phone_sep);
                 opt (chr "("); times 3 digit; opt (chr ")");
                 opt (Chr phone_sep); times 3 digit; opt (Chr phone_sep);
                 times 4 digit]) ].

Definition addressPatterns : list re :=
  [ braced1 "\address"; braced1 "\location" ].

(** [[^}\s]] *)
Definition not_close_or_space (c : ascii) : bool :=
  negb (Ascii.eqb c "}" || is_space c).

Definition linkedinPatterns : list re :=
  [ braced1 "\social[linkedin]";
    braced1 "\linkedin";
    (* "/\\faLinkedin\\?\s*\\underline\{([^}]+)\}/" *)
    seqs [lit "\faLinkedin"; opt (chr "\"); star space; lit "\underline{";
          Grp 1 (plus not_close); lit "}"];
    (* "/\\href\{https?:\/\/linkedin\.com\/in\/([^}]+)\}/" *)
    seqs [lit "\href{http"; opt (chr "s"); lit "://linkedin.com/in/";
          Grp 1 (plus not_close); lit "}"];
    (* "/LinkedIn:\s*linkedin\.com\/in\/([^}\s]+)/" *)
    seqs [lit "LinkedIn:"; star space; lit "linkedin.com/in/";
          Grp 1 (plus (Chr not_close_or_space))];
    seqs [lit "linkedin.com/in/"; Grp 1 (plus (Chr not_close_or_space))] ].

Definition githubPatterns : list re :=
  [ (* "/\\faGithub\\?\s*\\underline\{([^}]+)\}/" *)
    seqs [lit "\faGithub"; opt (chr "\"); star space; lit "\underline{";
          Grp 1 (plus not_close); lit "}"];
    (* "/\\href\{https?:\/\/github\.com\/([^}]+)\}/" *)
    seqs [lit "\href{http"; opt (chr "s"); lit "://github.com/";
          Grp 1 (plus not_close); lit "}"];
    (* "/GitHub:\s*github\.com\/([^}\s]+)/" *)
    seqs [lit "GitHub:"; star space; lit "github.com/";
          Grp 1 (plus (Chr not_close_or_space))];
    seqs [lit "github.com/"; Grp 1 (plus (Chr not_close_or_space))] ].

Definition extractContact (latex : string) : Contact :=
  MkContact (first_match emailPatterns latex)
            (option_map trim (first_match phonePatterns latex))
            (first_match addressPatterns latex)
            (first_match linkedinPatterns latex)
            (first_match githubPatterns latex).

(** A raw section: [{title, content}]. *)
Record Section_ : Type := MkSection {
  title : string;
  content : string
}.

(** "/\\section\*?\{([^}]+)\}([\s\S]*?)(?=\\section|\\end\{document\}|$)/g" *)
Definition sectionPattern : re :=
  seqs [lit "\section"; opt (chr "*"); lit "{"; Grp 1 (plus not_close);
        lit "}"; Grp 2 (lazy any);
        Ahead (alts [lit "\section"; lit "\end{document}"; Eol])].

(** "/\\subsection\*?\{([^}]+)\}([\s\S]*?)(?=\\(?:sub)?section|\\end\{document\}|$)/g" *)
Definition subsectionPattern : re :=
  seqs [lit "\subsection"; opt (chr "*"); lit "{"; Grp 1 (plus not_close);
        lit "}"; Grp 2 (lazy any);
        Ahead (alts [seqs [lit "\"; opt (lit "sub"); lit "section"];
                     lit "\end{document}"; Eol])].

Definition section_of_match (m : rmatch) : Section_ :=
  MkSection (group_str m 1) (trim (group_str m 2)).

Definition extractAllSections (latex : string) : list Section_ :=
  (map section_of_match (exec_all sectionPattern latex)
   ++ map section_of_match (exec_all subsectionPattern latex))%list.

(** "\{([^}]* )\}" with group number [i] *)
Definition arg (i : nat) : re :=
  seqs [lit "{"; Grp i (star not_close); lit "}"].

(** An experience entry; an absent property is [None]. *)
Record Experience : Type := MkExperience {
  company : option string;
  period : option string;
  position : option string;
  location : option string;
  details : option string
}.

(** The pattern array of [parseExperienceSection]. *)
Definition experience_patterns : list re :=
  [ (* "/\\resumeSubheading\s*\{([^}]* )\}\s*\{([^}]* )\}\s*\{([^}]* )\}\s*\{([^}]* )\}/g" *)
    seqs [lit "\resumeSubheading"; star space; arg 1; star space; arg 2;
          star space; arg 3; star space; arg 4];
    (* "/\\cventry\{([^}]* )\}\{([^}]* )\}\{([^}]* )\}\{([^}]* )\}\{([^}]* )\}/g" *)
    seqs [lit "\cventry"; arg 1; arg 2; arg 3; arg 4; arg 5];
    (* "/\\(?:experience|job|position)\{([^}]* )\}\{([^}]* )\}\{([^}]* )\}\{([^}]* )\}/g" *)
    seqs [lit "\"; alts [lit "experience"; lit "job"; lit "position"];
          arg 1; arg 2; arg 3; arg 4];
    (* "/\\textbf\{([^}]+)\}[\s\S]*?\\textit\{([^}]+)\}[\s\S]*?([0-9]{4}[\-\s]*[0-9]{4}|Present|Current)/g" *)
    seqs [lit "\textbf{"; Grp 1 (plus not_close); lit "}"; lazy any;
          lit "\textit{"; Grp 2 (plus not_close); lit "}"; lazy any;
          Grp 3 (alts [seqs [times 4 digit;
                             star (Chr (fun c => Ascii.eqb c "-" || is_space c));
                             times 4 digit];
                       lit "Present"; lit "Current"])] ].

(** [m[i] || ''] *)
Definition field_of (m : rmatch) (i : nat) : option string :=
  Some (opt_or (group m i) EmptyString).

(** The object pushed for a match of pattern number [index]. *)
Definition experience_of_match (index : nat) (m : rmatch) : Experience :=
  match index with
  | 0 => MkExperience (field_of m 1) (field_of m 2) (field_of m 3) (field_of m 4) None
  | 1 => MkExperience (field_of m 3) (field_of m 1) (field_of m 2) (field_of m 4) (field_of m 5)
  | _ => MkExperience (field_of m 2) (field_of m 3) (field_of m 1) (field_of m 4) None
  end.

(** [for (const pattern of patterns) while ((match = pattern.exec(content)))
    experiences.push(...)] *)
Fixpoint structured_experiences (index : nat) (patterns : list re)
  (content : string) : list Experience :=
  match patterns with
  | [] => []
  | pattern :: others =>
      (map (experience_of_match index) (exec_all pattern content)
       ++ structured_experiences (S index) others content)%list
  end.

(** "/[0-9]{4}/" *)
Definition year4 : re := times 4 digit.

(** "/(Engineer|Developer|Manager|Analyst|Designer|Intern|Organizer|Participant)/i" *)
Definition role_word : re :=
  alts [lit_i "Engineer"; lit_i "Developer"; lit_i "Manager";
        lit_i "Analyst"; lit_i "Designer"; lit_i "Intern";
        lit_i "Organizer"; lit_i "Participant"].

Definition empty_experience : Experience :=
  MkExperience None None None None None.

(** One turn of the line loop of the plain-text fallback: the entry under
    construction and the entries pushed so far. *)
Definition experience_line (st : Experience * list Experience)
  (line : string) : Experience * list Experience :=
  let (currentExp, experiences) := st in
  let cleanLine := clean_line line in
  if 0 <? String.length cleanLine then
    let currentExp :=
      if test year4 cleanLine then
        MkExperience (company currentExp) (Some cleanLine)
                     (position currentExp) (location currentExp)
                     (details currentExp)
      else if test role_word cleanLine then
        MkExperience (company currentExp) (period currentExp)
                     (Some cleanLine) (location currentExp)
                     (details currentExp)
      else if opt_truthy (position currentExp)
              && negb (opt_truthy (company currentExp)) then
        MkExperience (Some cleanLine) (period currentExp)
                     (position currentExp) (location currentExp)
                     (details currentExp)
      else currentExp in
    if opt_truthy (position currentExp) && opt_truthy (company currentExp)
    then (empty_experience, (experiences ++ [currentExp])%list)
    else (currentExp, experiences)
  else st.

Definition lines_of (s : string) : list string := split (ascii_of_nat 10) s.

Definition parseExperienceSection (content : string) : list Experience :=
  match structured_experiences 0 experience_patterns content with
  | [] => snd (fold_left experience_line (lines_of content)
                 (empty_experience, []))
  | experiences => experiences
  end.

Record Education : Type := MkEducation {
  edu_period : string;
  degree : string;
  institution : string;
  edu_location : string;
  gpa : string
}.

Definition education_patterns : list re :=
  [ seqs [lit "\cventry"; arg 1; arg 2; arg 3; arg 4; arg 5];
    (* "/\\education\{([^}]* )\}\{([^}]* )\}\{([^}]* )\}\{([^}]* )\}/g" *)
    seqs [lit "\education"; arg 1; arg 2; arg 3; arg 4] ].

Definition s_or_empty (m : rmatch) (i : nat) : string :=
  opt_or (group m i) EmptyString.

Definition education_of_match (m : rmatch) : Education :=
  MkEducation (s_or_empty m 1) (s_or_empty m 2) (s_or_empty m 3)
              (s_or_empty m 4) (s_or_empty m 5).

(** "/(Bachelor|Master|PhD|Degree|University|College)/i" *)
Definition degree_word : re :=
  alts [lit_i "Bachelor"; lit_i "Master"; lit_i "PhD"; lit_i "Degree";
        lit_i "University"; lit_i "College"].

Definition education_line (line : string) : list Education :=
  let cleanLine := clean_nostar line in
  if test degree_word cleanLine
  then [MkEducation EmptyString cleanLine EmptyString EmptyString EmptyString]
  else [].

Definition parseEducationSection (content : string) : list Education :=
  match flat_map (fun pattern => map education_of_match
                                   (exec_all pattern content))
                 education_patterns with
  | [] => flat_map education_line (lines_of content)
  | education => education
  end.

Record Skill : Type := MkSkill {
  category : string;
  items : string
}.

(** "/\\cvitem\{([^}]* )\}\{([^}]* )\}/g" and "/\\skill\{([^}]* )\}\{([^}]* )\}/g" *)
Definition cvitemPattern : re := seqs [lit "\cvitem"; arg 1; arg 2].
Definition skillPattern : re := seqs [lit "\skill"; arg 1; arg 2].

(** [[^&\\]] *)
Definition not_amp_bslash : re := Chr (none_of "&\").

(** "/\\begin\{tabularx\}[\s\S]*?\\textbf\{([^}]+)\}:\s*([^&\\]+)(?:\s*&\s*\\textbf\{([^}]+)\}:\s*([^&\\]+))?/g" *)
Definition tabularPattern : re :=
  seqs [lit "\begin{tabularx}"; lazy any; lit "\textbf{";
        Grp 1 (plus not_close); lit "}:"; star space;
        Grp 2 (plus not_amp_bslash);
        opt (seqs [star space; lit "&"; star space; lit "\textbf{";
                   Grp 3 (plus not_close); lit "}:"; star space;
                   Grp 4 (plus not_amp_bslash)])].

(** "/\\begin\{itemize\}([\s\S]*?)\\end\{itemize\}/g" *)
Definition itemizePattern : re :=
  seqs [lit "\begin{itemize}"; Grp 1 (lazy any); lit "\end{itemize}"].

(** "/\\item\s+([^\\\n]+)/g" *)
Definition item_text : re :=
  seqs [lit "\item"; plus space;
        Grp 1 (plus (Chr (fun c => negb (Ascii.eqb c "\"
                                         || (code c =? 10)))))].

(** "/\\item\s+/" *)
Definition item_head : re := seqs [lit "\item"; plus space].

(** "/\\textbf\{([^}]+)\}:\s*([^\\]+)/g" *)
Definition customPattern : re :=
  seqs [lit "\textbf{"; Grp 1 (plus not_close); lit "}:"; star space;
        Grp 2 (plus not_bslash)].

(** [s.replace(r, 'text')] for a pattern without the g flag. *)
Definition replace_first_with (r : re) (by_ : string) (s : string) : string :=
  match search r s with
  | Some m => take (m_index m) s ++ by_ ++ m_after m
  | None => s
  end.

Definition tabular_skills (m : rmatch) : list Skill :=
  ((if opt_truthy (group m 1) && opt_truthy (group m 2)
    then [MkSkill (trim (group_str m 1)) (trim (group_str m 2))] else [])
   ++
   (if opt_truthy (group m 3) && opt_truthy (group m 4)
    then [MkSkill (trim (group_str m 3)) (trim (group_str m 4))] else []))%list.

Definition itemize_skills (m : rmatch) : list Skill :=
  match exec_all item_text (group_str m 1) with
  | [] => []
  | found =>
      [MkSkill "Skills"
         (join ", " (map (fun item => trim (replace_first_with item_head
                                              EmptyString (m_text item)))
                         found))]
  end.

Definition skill_line (line : string) : list Skill :=
  let cleanLine := clean_line line in
  if includes cleanLine ":" then
    let parts := split ":" cleanLine in
    [MkSkill (trim (nth 0 parts EmptyString))
             (match nth_error parts 1 with
              | Some p => if truthy p then trim p else EmptyString
              | None => EmptyString
              end)]
  else [].

Definition parseSkillsSection (content : string) : list Skill :=
  match
    (map (fun m => MkSkill (group_str m 1) (group_str m 2))
         (exec_all cvitemPattern content)
     ++ map (fun m => MkSkill (group_str m 1) (group_str m 2))
            (exec_all skillPattern content)
     ++ flat_map tabular_skills (exec_all tabularPattern content)
     ++ flat_map itemize_skills (exec_all itemizePattern content)
     ++ map (fun m => MkSkill (trim (group_str m 1))
                        (replace_with (lit "\\") EmptyString
                           (trim (group_str m 2))))
            (exec_all customPattern content))%list
  with
  | [] => flat_map skill_line (lines_of content)
  | skills => skills
  end.

(** A project or achievement entry; [date] and [description] may be
    absent. *)
Record Project : Type := MkProject {
  name : string;
  date : option string;
  description : option string
}.

(** "/\\resumeProjectHeading\s*\{([^}]* )\}\s*\{([^}]* )\}/g" *)
Definition projectHeadingPattern : re :=
  seqs [lit "\resumeProjectHeading"; star space; arg 1; star space; arg 2].

(** "/\\item\s+\\textbf\{([^}]+)\}\s*([\s\S]*?)(?=\\item|\\end\{itemize\}|$)/g" *)
Definition itemPattern : re :=
  seqs [lit "\item"; plus space; lit "\textbf{"; Grp 1 (plus not_close);
        lit "}"; star space; Grp 2 (lazy any);
        Ahead (alts [lit "\item"; lit "\end{itemize}"; Eol])].

(** "/\\textbf\{([^}]+)\}/g", replaced by ['$1'] *)
Definition unbold (s : string) : string :=
  replace_all (seqs [lit "\textbf{"; Grp 1 (plus not_close); lit "}"])
              (fun m => group_str m 1) s.

Definition heading_project (m : rmatch) : Project :=
  MkProject (clean_nostar (unbold (group_str m 1)))
            (Some (clean_nostar (group_str m 2)))
            (Some EmptyString).

Definition item_project (m : rmatch) : Project :=
  MkProject (trim (group_str m 1)) None
            (Some (substring0 200 (clean_nostar (group_str m 2)))).

Definition project_line (line : string) : list Project :=
  let cleanLine := clean_line line in
  if (10 <? String.length cleanLine)
     && negb (includes cleanLine "resumeItem")
  then [MkProject cleanLine None (Some EmptyString)]
  else [].

Definition parseProjectsSection (content : string) : list Project :=
  match map heading_project (exec_all projectHeadingPattern content) with
  | [] =>
      match map item_project (exec_all itemPattern content) with
      | [] => flat_map project_line (lines_of content)
      | projects => projects
      end
  | projects => projects
  end.

(** The [sections] object of [parseLatexContent]. *)
Record Sections : Type := MkSections {
  sec_name : string;
  sec_title : string;
  contact : Contact;
  summary : string;
  experience : list Experience;
  education : list Education;
  skills : list Skill;
  projects : list Project;
  achievements : list Project;
  rawSections : list Section_
}.

Definition has (lowerTitle word : string) : bool := includes lowerTitle word.

(** The body of [allSections.forEach(section => ...)]: the first branch of
    the [else if] chain whose words occur in the lower-cased title assigns
    its field. *)
Definition categorize (sections : Sections) (section : Section_) : Sections :=
  let lowerTitle := toLowerCase (title section) in
  let '(MkSections n t c su ex ed sk pr ac raw) := sections in
  if has lowerTitle "summary" || has lowerTitle "objective"
     || has lowerTitle "profile" then
    MkSections n t c (content section) ex ed sk pr ac raw
  else if has lowerTitle "experience" || has lowerTitle "work"
          || has lowerTitle "employment" then
    MkSections n t c su (parseExperienceSection (content section))
               ed sk pr ac raw
  else if has lowerTitle "education" || has lowerTitle "academic" then
    MkSections n t c su ex (parseEducationSection (content section))
               sk pr ac raw
  else if has lowerTitle "skill" || has lowerTitle "technical"
          || has lowerTitle "competenc" then
    MkSections n t c su ex ed (parseSkillsSection (content section))
               pr ac raw
  else if has lowerTitle "project" then
    MkSections n t c su ex ed sk (parseProjectsSection (content section))
               ac raw
  else if has lowerTitle "achievement" || has lowerTitle "award"
          || has lowerTitle "honor" then
    MkSections n t c su ex ed sk pr (parseProjectsSection (content section))
               raw
  else sections.

Definition parseLatexContent (latex : string) : Sections :=
  let allSections := extractAllSections latex in
  fold_left categorize allSections
    (MkSections (extractName latex) (extractTitle latex)
                (extractContact latex) EmptyString [] [] [] [] []
                allSections).

(* ================================================================== *)
(** ** Fallback document renderer *)

(** One [doc.text(text, x, y)] call with the font that was set. *)
Record TextOp : Type := MkTextOp {
  op_text : string;
  op_x : nat;
  op_y : nat;
  op_size : nat;
  op_style : string
}.

(** What the renderer asks of jsPDF: line breaking under the current font
    ([doc.splitTextToSize]) and the serialisation of the recorded
    operations ([doc.output('arraybuffer')]). *)
Class PdfLib : Type := {
  splitTextToSize : nat -> string -> string -> nat -> list string;
  output : list TextOp -> bytes
}.

(** jsPDF serialises every document, the empty one too, with its header,
    page tree and trailer. *)
Definition writes_something (lib : PdfLib) : Prop :=
  forall ops, output ops <> [].

(** The document under construction and the [yPos] cursor. *)
Record Pen : Type := MkPen {
  ops : list TextOp;
  fontSize : nat;
  fontStyle : string;
  yPos : nat
}.

Definition step : Type := Pen -> Pen.

Definition setFontSize (n : nat) : step :=
  fun p => MkPen (ops p) n (fontStyle p) (yPos p).

(** [doc.setFont('helvetica', style)] *)
Definition setFont (style : string) : step :=
  fun p => MkPen (ops p) (fontSize p) style (yPos p).

(** [doc.text(s, 20, yPos)] *)
Definition text (s : string) : step :=
  fun p => MkPen (ops p ++ [MkTextOp s 20 (yPos p) (fontSize p) (fontStyle p)])
                 (fontSize p) (fontStyle p) (yPos p).

(** [yPos += n] *)
Definition down (n : nat) : step :=
  fun p => MkPen (ops p) (fontSize p) (fontStyle p) (yPos p + n).

Definition steps (ss : list step) : step :=
  fun p => fold_left (fun q s => s q) ss p.

Definition when (b : bool) (s : step) : step := if b then s else (fun p => p).

Definition each {A : Type} (xs : list A) (f : A -> step) : step :=
  steps (map f xs).

Definition non_empty {A : Type} (xs : list A) : bool :=
  match xs with [] => false | _ => true end.

Section Render.

Context {lib : PdfLib}.

(** [doc.splitTextToSize(s, 170).forEach(line => ...)] *)
Definition wrapped (s : string) (f : list string -> step) : step :=
  fun p => f (splitTextToSize (fontSize p) (fontStyle p) s 170) p.

Definition heading (s : string) : step :=
  steps [setFontSize 12; setFont "bold"; text s; down 10].

Definition paragraph (s : string) : step :=
  wrapped s (fun ls => each ls (fun line => steps [text line; down 6])).

Definition render_experience (exp : Experience) : step :=
  steps [ setFontSize 10; setFont "bold";
          text (opt_or (position exp) EmptyString); down 8;
          setFontSize 9; setFont "normal";
          text (opt_or (company exp) EmptyString ++ ", "
                ++ opt_or (location exp) EmptyString ++ " | "
                ++ opt_or (period exp) EmptyString);
          down 12 ].

Definition render_education (edu : Education) : step :=
  let eduLine := or_else (institution edu) EmptyString ++ ", "
                 ++ or_else (edu_location edu) EmptyString ++ " | "
                 ++ or_else (edu_period edu) EmptyString in
  let eduLine := if truthy (gpa edu) then eduLine ++ " | " ++ gpa edu
                 else eduLine in
  steps [ setFontSize 10; setFont "bold";
          text (or_else (degree edu) EmptyString); down 8;
          setFontSize 9; setFont "normal"; text eduLine; down 12 ].

Definition render_skill (skill : Skill) : step :=
  steps [ setFontSize 9; setFont "normal";
          paragraph (or_else (category skill) EmptyString ++ ": "
                     ++ or_else (items skill) EmptyString);
          down 2 ].

Definition render_project (project : Project) : step :=
  steps [ setFontSize 10; setFont "bold";
          text (or_else (name project) EmptyString); down 8;
          when (opt_truthy (description project))
               (steps [ setFontSize 9; setFont "normal";
                        paragraph (opt_or (description project)
                                          EmptyString) ]);
          down 5 ].

(** A raw section whose title was not claimed by a category, while the
    cursor is not past 250. *)
Definition render_raw (section : Section_) : step :=
  let lowerTitle := toLowerCase (title section) in
  if has lowerTitle "summary" || has lowerTitle "experience"
     || has lowerTitle "education" || has lowerTitle "skill"
     || has lowerTitle "project" || has lowerTitle "achievement"
     || has lowerTitle "award" || has lowerTitle "honor"
  then (fun p => p)
  else fun p =>
    if 250 <? yPos p then p
    else
      steps [ heading (toUpperCase (title section));
              setFontSize 9; setFont "normal";
              wrapped (substring0 200 (clean_nostar (content section)))
                (fun contentLines =>
                   each (firstn 3 contentLines)
                        (fun line =>
                           when (0 <? String.length (trim line))
                                (steps [text line; down 6])));
              down 8 ] p.

(** The sequence of jsPDF calls of [generatePDFWithPDFKit]. *)
Definition draw (sections : Sections) : step :=
  steps [
    (* Header - Name *)
    setFontSize 20; setFont "bold";
    text (or_else (sec_name sections) "Resume Preview"); down 15;
    (* Title *)
    when (truthy (sec_title sections))
         (steps [ setFontSize 14; setFont "normal";
                  text (sec_title sections); down 12 ]);
    (* Contact Information *)
    setFontSize 10;
    when (opt_truthy (email (contact sections)))
         (steps [ text ("Email: " ++ opt_or (email (contact sections)) "");
                  down 8 ]);
    when (opt_truthy (phone (contact sections)))
         (steps [ text ("Phone: " ++ opt_or (phone (contact sections)) "");
                  down 8 ]);
    when (opt_truthy (address (contact sections)))
         (steps [ text ("Location: "
                        ++ opt_or (address (contact sections)) "");
                  down 12 ]);
    (* Professional Summary *)
    when (truthy (summary sections))
         (steps [ down 5; heading "PROFESSIONAL SUMMARY";
                  setFontSize 9; setFont "normal";
                  paragraph (summary sections); down 8 ]);
    (* Professional Experience *)
    when (non_empty (experience sections))
         (steps [ heading "PROFESSIONAL EXPERIENCE";
                  each (firstn 3 (experience sections)) render_experience ]);
    (* Education *)
    when (non_empty (education sections))
         (steps [ heading "EDUCATION";
                  each (firstn 2 (education sections)) render_education ]);
    (* Technical Skills *)
    when (non_empty (skills sections))
         (steps [ heading "TECHNICAL SKILLS";
                  each (skills sections) render_skill ]);
    (* Projects *)
    when (non_empty (projects sections))
         (steps [ heading "PROJECTS";
                  each (firstn 3 (projects sections)) render_project ]);
    (* Achievements *)
    when (non_empty (achievements sections))
         (fun p =>
            if yPos p <? 250 then
              steps [ heading "ACHIEVEMENTS";
                      each (firstn 3 (achievements sections))
                           render_project ] p
            else p);
    (* Raw sections that were not categorized *)
    each (rawSections sections) render_raw ].

(** A new [jsPDF()] document with [yPos = 20]. *)
Definition new_doc : Pen := MkPen [] 16 "normal" 20.

Definition generatePDFWithPDFKit (sections : Sections) : bytes :=
  output (ops (draw sections new_doc)).

End Render.

(* ================================================================== *)
(** ** Compilation orchestrator *)

(** [CompilationResult] of [types/index.ts]; every property but [success]
    is optional. *)
Record CompilationResult : Type := MkResult {
  success : bool;
  pdfBuffer : option bytes;
  errors : option (list string);
  warnings : option (list string);
  logs : option (list string)
}.

(** [{ success: false, errors: [message] }] *)
Definition failure (message : string) : CompilationResult :=
  MkResult false None (Some [message]) None None.

(** [Math.abs(openBraces - closeBraces)] *)
Definition abs_diff (a b : nat) : nat := (a - b) + (b - a).

(** The four checks at the head of [simulateLatexCompilation], each with an
    early [return]: the first failing check decides the message. *)
Definition validate (content : string) : option string :=
  if negb (includes content "\documentclass") then
    Some "Missing \documentclass declaration"
  else if negb (includes content "\begin{document}") then
    Some "Missing \begin{document}"
  else if negb (includes content "\end{document}") then
    Some "Missing \end{document}"
  else
    let openBraces := count_char "{" content in
    let closeBraces := count_char "}" content in
    if negb (openBraces =? closeBraces) then
      Some ("Mismatched braces: "
            ++ string_of_nat (abs_diff openBraces closeBraces)
            ++ " unmatched")
    else None.

Section Orchestrator.

Variable e : env.
Context {lib : PdfLib}.

(** [generateSamplePDF]: the remote result when there is one above the
    floor, else the parsed markup drawn with jsPDF. *)
Definition generateSamplePDF (latexContent : string) : M bytes :=
  realPDF <- compileLatexToPDF e latexContent ;;
  match realPDF with
  | Some pdf =>
      if above_floor pdf then ret pdf
      else ret (generatePDFWithPDFKit (parseLatexContent latexContent))
  | None => ret (generatePDFWithPDFKit (parseLatexContent latexContent))
  end.

(** [simulateLatexCompilation], the [compile] of the endpoint.  The one
    second of simulated delay is not modelled. *)
Definition simulateLatexCompilation (content : string)
  : M CompilationResult :=
  match validate content with
  | Some message => ret (failure message)
  | None =>
      pdfBuffer <- generateSamplePDF content ;;
      ret (MkResult true (Some pdfBuffer) None (Some [])
                    (Some ["LaTeX compilation successful"]))
  end.

(** The result and the requests made, from an empty log. *)
Definition compile (content : string) : CompilationResult * list request :=
  simulateLatexCompilation content [].

End Orchestrator.

(* ================================================================== *)
(** ** The validator of [lib/templates.ts]

    [validateLatex] runs the four checks without an early return and
    collects a message for each violated one, the brace count first.  No
    function of the endpoint calls it: [simulateLatexCompilation] has the
    checks of [validate] inline. *)

Module Templates.



End Templates.

(* ================================================================== *)
(** ** The revision in [src/app/api/compile/route.ts]

    The validator and [compileLatexToPDF] are the same; the simplifier has
    eight rules and no geometry step, the client has two methods, and the
    fallback is a fixed error notice instead of the parsed resume. *)

Module RouteTs.

Definition simplify_rules : list (re * string) :=
  [ (* "/\\usepackage\{fontawesome5?\}/g" *)
    (seqs [lit "\usepackage{fontawesome"; opt (chr "5"); lit "}"],
     "% FontAwesome not available online");
    (lit "\usepackage{marvosym}", "% Marvosym not available online");
    (lit "\input{glyphtounicode}", "% Glyphtounicode not available online");
    (lit "\faPhone", "Tel:");
    (lit "\faEnvelope", "Email:");
    (lit "\faLinkedin", "LinkedIn:");
    (lit "\faGithub", "GitHub:");
    (* "/\\addtolength\{[^}]*\}\{[^}]*\}/g" *)
    (seqs [lit "\addtolength{"; star not_close; lit "}{"; star not_close;
           lit "}"], "") ].

Definition simplifyLatexForOnlineServices (latex : string) : string :=
  apply_rules simplify_rules latex.

Section Pipeline.

Variable e : env.
Context {lib : PdfLib}.

Definition tryLatexOnline (latexContent : string) : M (option bytes) :=
  match encodeURIComponent latexContent with
  | None => ret None
  | Some _ =>
  directResponse <- fetch e (direct_request latexContent) ;;
  match accept_pdf directResponse with
  | Some pdf => ret (Some pdf)
  | None =>
      response <- fetch e (post_request latexContent "pdflatex") ;;
      ret (accept_pdf response)
  end end.

Definition compileLatexToPDF (latexContent : string) : M (option bytes) :=
  originalResult <- race e 30000%N (tryLatexOnline latexContent) ;;
  match originalResult with
  | Some pdf => ret (Some pdf)
  | None =>
      let simplifiedLatex := simplifyLatexForOnlineServices latexContent in
      if negb (String.eqb simplifiedLatex latexContent) then
        simplifiedResult <- race e 25000%N (tryLatexOnline simplifiedLatex) ;;
        ret simplifiedResult
      else ret None
  end.

(** [createErrorPDF(errorMessage)] *)
Definition createErrorPDF (errorMessage : string) : bytes :=
  let p :=
    steps [ setFontSize 16; setFont "bold";
            (fun p => MkPen (ops p ++ [MkTextOp "LaTeX Compilation Error"
                                         20 30 (fontSize p) (fontStyle p)])
                            (fontSize p) (fontStyle p) 50);
            setFontSize 12; setFont "normal";
            wrapped errorMessage
              (fun ls => each ls (fun line => steps [text line; down 8]));
            setFontSize 10;
            (fun p => MkPen (ops p ++ [MkTextOp
                               "Please check your LaTeX syntax and try again."
                               20 (yPos p + 20) (fontSize p) (fontStyle p)])
                            (fontSize p) (fontStyle p) (yPos p)) ]
          new_doc in
  output (ops p).

Definition generateSamplePDF (latexContent : string) : M bytes :=
  realPDF <- compileLatexToPDF latexContent ;;
  match realPDF with
  | Some pdf => ret pdf
  | None =>
      ret (createErrorPDF
             "LaTeX compilation failed. Please check your LaTeX syntax or try again later.")
  end.

Definition simulateLatexCompilation (content : string)
  : M CompilationResult :=
  match validate content with
  | Some message => ret (failure message)
  | None =>
      pdfBuffer <- generateSamplePDF content ;;
      ret (MkResult true (Some pdfBuffer) None (Some [])
                    (Some ["LaTeX compilation successful"]))
  end.

Definition compile (content : string) : CompilationResult * list request :=
  simulateLatexCompilation content [].

End Pipeline.

End RouteTs.

(* ================================================================== *)
(** ** The route handler and the editor that calls it *)

(** A number as [JSON.parse] returns it: [Infinity] on overflow, else a
    double, given by its mantissa and binary exponent; the mantissa of [0]
    and of [-0] is 0. *)
Inductive number : Type :=
| Infinite (negative : bool)
| Finite (mantissa exponent : Z).

(** A value as [JSON.parse] returns it; the members of an object are in
    the order of the text. *)
#[warnings="-register-all"] Inductive Json : Type :=
| JNull
| JBool (b : bool)
| JNumber (n : number)
| JString (s : string)
| JArray (items : list Json)
| JObject (members : list (string * Json)).

(** Truthiness: [null], [false], [0], [-0] and [''] are falsy. *)
Definition json_truthy (v : Json) : bool :=
  match v with
  | JNull => false
  | JBool b => b
  | JNumber (Infinite _) => true
  | JNumber (Finite mantissa _) => negb (Z.eqb mantissa 0)
  | JString s => truthy s
  | JArray _ | JObject _ => true
  end.

(** The member of an object for a key: the last one of that name in the
    text. *)
Fixpoint member (key : string) (members : list (string * Json))
  : option Json :=
  match members with
  | [] => None
  | (k, v) :: others =>
      match member key others with
      | Some w => Some w
      | None => if String.eqb k key then Some v else None
      end
  end.

(** [v.content] for a value that is not [null]: a member of an object,
    [undefined] for a boolean, a number, a string and an array. *)
Definition property (v : Json) (key : string) : option Json :=
  match v with
  | JObject members => member key members
  | _ => None
  end.

(** [items.includes(word)] of an array: an element that is the string. *)
Definition array_includes (items : list Json) (word : string) : bool :=
  existsb (fun v => match v with
                    | JString s => String.eqb s word
                    | _ => false
                    end) items.

(** What [await request.json()] gives the handler: a rejection when the
    body is not JSON, else the parsed value. *)
Inductive Body : Type :=
| Unreadable
| Parsed (body : Json).

(** [NextResponse.json(result, { status })] *)
Record Reply : Type := MkReply {
  status : nat;
  result : CompilationResult
}.

(** A call that returns or throws. *)
Inductive completion (A : Type) : Type :=
| Thrown
| Returned (a : A).

Arguments Thrown {A}.
Arguments Returned {A} a.

(** The checks of [simulateLatexCompilation] on a truthy content that is
    not a string.  On an array [content.includes] is the method of arrays,
    and [content.match] is a TypeError once the three markers are among
    its elements; on [true], a number and an object [content.includes] is
    a TypeError.  The same text in both revisions. *)
Definition simulate_other (content : Json) : completion CompilationResult :=
  match content with
  | JArray items =>
      if negb (array_includes items "\documentclass") then
        Returned (failure "Missing \documentclass declaration")
      else if negb (array_includes items "\begin{document}") then
        Returned (failure "Missing \begin{document}")
      else if negb (array_includes items "\end{document}") then
        Returned (failure "Missing \end{document}")
      else Thrown
  | _ => Thrown
  end.

Definition internal_error : Reply :=
  MkReply 500 (failure "Internal server error during compilation").

Definition no_content : Reply :=
  MkReply 400 (failure "No content provided").

Section Handler.

(** The [simulateLatexCompilation] of the revision, on a string. *)
Variable simulate : string -> M CompilationResult.

(** [POST], the same text in both revisions.  The [catch] branch is
    reached from [request.json()], from the destructuring of [null] and
    from a TypeError of [simulateLatexCompilation]. *)
Definition POST (request : Body) : M Reply :=
  match request with
  | Unreadable => ret internal_error
  | Parsed JNull => ret internal_error
  | Parsed body =>
      match property body "content" with
      | None => ret no_content
      | Some content =>
          if negb (json_truthy content) then ret no_content
          else
            match content with
            | JString source =>
                result <- simulate source ;; ret (MkReply 200 result)
            | other =>
                match simulate_other other with
                | Returned result => ret (MkReply 200 result)
                | Thrown => ret internal_error
                end
            end
      end
  end.

End Handler.

(** [response.ok] *)
Definition reply_ok (r : Reply) : bool :=
  (200 <=? status r) && (status r <=? 299).

(** The state of the editor component that the compile handlers write. *)
Record Editor : Type := MkEditor {
  pdfData : option bytes;
  isCompiling : bool
}.

(** The body that the editor sends:
    [JSON.stringify({ content: latexContent, template: 'modern' })]. *)
Definition compile_body (latexContent : string) : Body :=
  Parsed (JObject [("content", JString latexContent);
                   ("template", JString "modern")]).

(** [handleManualCompile] of the editor component, with the same body as
    the debounced [compileFunction]: [api] is [fetch('/api/compile', ...)],
    [None] when that promise is rejected.  The [finally] block clears
    [isCompiling]. *)
Definition handleManualCompile (api : Body -> M (option Reply))
  (latexContent : string) (editor : Editor) : M Editor :=
  if negb (truthy (trim latexContent)) then ret editor
  else
    response <- api (compile_body latexContent) ;;
    ret (MkEditor
           (match response with
            | Some r =>
                if reply_ok r then
                  match pdfBuffer (result r) with
                  | Some buffer => Some buffer
                  | None => pdfData editor
                  end
                else pdfData editor
            | None => pdfData editor
            end)
           false).

(** The endpoint as the editor reaches it when the request gets through. *)
Definition served (handler : Body -> M Reply) (request : Body)
  : M (option Reply) :=
  reply <- handler request ;; ret (Some reply).

(* ================================================================== *)
(** ** Predicates of the statements *)


(** No rule of the list matches anywhere in [s]. *)
Definition rule_free (rules : list (re * string)) (s : string) : bool :=
  forallb (fun rule => negb (test (fst rule) s)) rules.

(** The match [m] shares a character with the positions [lo, hi). *)
Definition overlaps (lo hi : nat) (m : rmatch) : bool :=
  (m_index m <? hi) && (lo <? m_index m + String.length (m_text m)).

(** No match of a rule in [s] touches the positions [lo, hi). *)
Definition outside_constructs (rules : list (re * string)) (s : string)
  (lo hi : nat) : bool :=
  forallb (fun rule => forallb (fun m => negb (overlaps lo hi m))
                               (exec_all (fst rule) s))
          rules.

(** [s] holds none of the words. *)
Definition lacks (s : string) (words : list string) : bool :=
  forallb (fun w => negb (includes s w)) words.

(** The title takes the experience branch of the [else if] chain: it has
    none of the words of the summary branch and one of experience, work,
    employment. *)
Definition classified_experience (title : string) : bool :=
  let lowerTitle := toLowerCase title in
  negb (has lowerTitle "summary" || has lowerTitle "objective"
        || has lowerTitle "profile")
  && (has lowerTitle "experience" || has lowerTitle "work"
      || has lowerTitle "employment").

(** What the client returns was the body of a resolved response with [ok]
    set and more than 1000 bytes; in the two-method revision the response
    also declared a PDF content type. *)
Definition accepted_from (e : env) (checked : bool) (pdf : bytes) : Prop :=
  exists l rq r,
    respond e l rq = Resolved r
    /\ ok r = true
    /\ above_floor (body r) = true
    /\ (checked = true -> says_pdf r = true)
    /\ body r = pdf.

(** The first [doc.text] call of the renderer for a given name. *)
Definition header_op (name : string) : TextOp :=
  MkTextOp (or_else name "Resume Preview") 20 20 20 "bold".

(** A step that only adds operations to the document. *)
Definition appends (s : step) : Prop :=
  forall p, exists l, ops (s p) = (ops p ++ l)%list.

(** A pattern that can only match at a backslash. *)
Definition needs_backslash (r : re) : Prop :=
  forall k st,
    (forall s', rest st <> String "\" s') -> mt r k st = None.

(** A pattern that can only match where the input starts with [L]. *)
Definition needs_literal (L : string) (r : re) : Prop :=
  forall k st, startsWith L (rest st) = false -> mt r k st = None.

(** Every match of the pattern consumes at least one character. *)
Definition never_empty (r : re) : Prop :=
  forall start s st',
    match_here r start s = Some st' ->
    String.length (rest st') < String.length s.

(** Where a run succeeds, its continuation succeeded on an input that is
    not longer. *)
Definition monotone
  (run : (mstate -> option mstate) -> mstate -> option mstate) : Prop :=
  forall k st x,
    run k st = Some x ->
    exists st', k st' = Some x
                /\ String.length (rest st') <= String.length (rest st).

(** The patterns that the parser runs in a [while ((m = r.exec(s)))] loop
    or through [match] with the g flag. *)
Definition loop_patterns : list re :=
  ([sectionPattern; subsectionPattern] ++ experience_patterns
   ++ education_patterns
   ++ [cvitemPattern; skillPattern; tabularPattern; itemizePattern;
       item_text; customPattern; projectHeadingPattern; itemPattern])%list.

(** The five [fetch] calls of [tryLatexOnline], in source order. *)
Definition methods (latexContent : string) : list request :=
  [ direct_request latexContent;
    post_request latexContent "pdflatex";
    post_request latexContent "xelatex";
    alt_request latexContent;
    post_request latexContent "lualatex" ].

(** The [text] field of a request: the markup that it carries. *)
Definition text_field (rq : request) : option string :=
  match fields rq with
  | (key, value) :: _ => if String.eqb key "text" then Some value else None
  | [] => None
  end.

(** The result of a successful compilation. *)
Definition compiled (doc : bytes) : CompilationResult :=
  MkResult true (Some doc) None (Some []) (Some ["LaTeX compilation successful"]).

(** Group [i] is set in the state and its text satisfies [P]. *)
Definition cap_holds (i : nat) (P : string -> Prop) (st : mstate) : Prop :=
  exists v, get_cap i (caps st) = Some v /\ P v.

(** A continuation that hands group [i] on as it found it, up to [P]. *)
Definition keeps (i : nat) (P : string -> Prop)
  (k : mstate -> option mstate) : Prop :=
  forall st x, k st = Some x -> cap_holds i P st -> cap_holds i P x.

(** The pattern has no capture group number [i]. *)
Fixpoint no_group (i : nat) (r : re) : bool :=
  match r with
  | Eps | Chr _ | Bol | Eol => true
  | Seq r1 r2 | Alt r1 r2 => no_group i r1 && no_group i r2
  | Star _ r1 | Ahead r1 => no_group i r1
  | Grp j r1 => negb (j =? i) && no_group i r1
  end.

(** A title as [[^}]+] captures it: not empty and without closing brace. *)
Definition brace_free (v : string) : Prop :=
  v <> EmptyString /\ includes v "}" = false.

(** A macro with one braced argument. *)
Definition braced (macro v : string) : string := macro ++ "{" ++ v ++ "}".

(** The moderncv entry macro with its five arguments. *)
Definition cventry (a1 a2 a3 a4 a5 : string) : string :=
  "\cventry{" ++ a1 ++ "}{" ++ a2 ++ "}{" ++ a3 ++ "}{" ++ a4 ++ "}{" ++ a5
  ++ "}".

(** The title takes the first branch of the [else if] chain: it has one of
    summary, objective, profile. *)
Definition classified_summary (title : string) : bool :=
  let lowerTitle := toLowerCase title in
  has lowerTitle "summary" || has lowerTitle "objective"
  || has lowerTitle "profile".

(** The title takes a branch of the [else if] chain of the parser. *)
Definition classified (title : string) : bool :=
  let lowerTitle := toLowerCase title in
  has lowerTitle "summary" || has lowerTitle "objective"
  || has lowerTitle "profile"
  || has lowerTitle "experience" || has lowerTitle "work"
  || has lowerTitle "employment"
  || has lowerTitle "education" || has lowerTitle "academic"
  || has lowerTitle "skill" || has lowerTitle "technical"
  || has lowerTitle "competenc"
  || has lowerTitle "project"
  || has lowerTitle "achievement" || has lowerTitle "award"
  || has lowerTitle "honor".

(** An entry as the plain-text fallback of the experience parser pushes
    it: a position and a company that are not empty, no location and no
    details. *)
Definition heuristic_entry (exp : Experience) : Prop :=
  opt_truthy (position exp) = true /\ opt_truthy (company exp) = true
  /\ location exp = None /\ details exp = None.

(** A line [category:items] of a plain-text skills section. *)
Definition skill_text (entry : string * string) : string :=
  fst entry ++ ":" ++ snd entry.

(** A text without backslash, closing brace, colon and line feed. *)
Definition plain_field (s : string) : bool := lacks s ["\"; "}"; ":"; nl].

(** The description is absent or has at most 200 characters. *)
Definition short_description (project : Project) : Prop :=
  String.length (opt_or (description project) EmptyString) <= 200.

(** The [sections] object of a source without sections. *)
Definition header_only (latex : string) : Sections :=
  MkSections (extractName latex) (extractTitle latex) (extractContact latex)
             EmptyString [] [] [] [] [] [].

(** The font sizes and styles that the renderer sets. *)
Definition page_sizes : list nat := [9; 10; 12; 14; 20].
Definition page_styles : list string := ["bold"; "normal"].

(** A text operation at the left margin, not above the first line, in one
    of the fonts of the renderer. *)
Definition on_page (op : TextOp) : Prop :=
  op_x op = 20 /\ 20 <= op_y op
  /\ In (op_size op) page_sizes /\ In (op_style op) page_styles.

(** Heights that never decrease from one element to the next. *)
Fixpoint downwards (ys : list nat) : Prop :=
  match ys with
  | y :: ((y' :: _) as rest) => y <= y' /\ downwards rest
  | _ => True
  end.

(** A document drawn from top to bottom, with the cursor at or below its
    last line. *)
Definition tidy (p : Pen) : Prop :=
  downwards (map op_y (ops p))
  /\ Forall (fun op => op_y op <= yPos p) (ops p)
  /\ Forall on_page (ops p)
  /\ 20 <= yPos p
  /\ In (fontSize p) page_sizes
  /\ In (fontStyle p) page_styles.

Definition keeps_tidy (s : step) : Prop := forall p, tidy p -> tidy (s p).

(** The title has one of the words at which the renderer skips a raw
    section as already drawn. *)
Definition skipped_by_renderer (title : string) : bool :=
  let lowerTitle := toLowerCase title in
  has lowerTitle "summary" || has lowerTitle "experience"
  || has lowerTitle "education" || has lowerTitle "skill"
  || has lowerTitle "project" || has lowerTitle "achievement"
  || has lowerTitle "award" || has lowerTitle "honor".

(** The entries that the renderer takes from the lists of the parser. *)
Definition shown (sections : Sections) : Sections :=
  MkSections (sec_name sections) (sec_title sections) (contact sections)
             (summary sections)
             (firstn 3 (experience sections))
             (firstn 2 (education sections))
             (skills sections)
             (firstn 3 (projects sections))
             (firstn 3 (achievements sections))
             (rawSections sections).

(** The lines of the error notice, 8 units apart from [y] on. *)
Fixpoint notice_lines (y : nat) (lines : list string) : list TextOp :=
  match lines with
  | [] => []
  | line :: others =>
      MkTextOp line 20 y 12 "normal" :: notice_lines (y + 8) others
  end.

(** The text operations of the error notice of [route.ts]. *)
Definition notice_ops (lines : list string) : list TextOp :=
  (MkTextOp "LaTeX Compilation Error" 20 30 16 "bold"
   :: notice_lines 50 lines
   ++ [MkTextOp "Please check your LaTeX syntax and try again." 20
                (70 + 8 * List.length lines) 10 "normal"])%list.

Definition failure_notice : string :=
  "LaTeX compilation failed. Please check your LaTeX syntax or try again later.".

(** A line without backslash, closing brace and line feed. *)
Definition plain_line (s : string) : bool := lacks s ["\"; "}"; nl].

(** The entry of the education fallback for a line. *)
Definition degree_entry (line : string) : Education :=
  MkEducation EmptyString (trim line) EmptyString EmptyString EmptyString.

(** The entry of the project fallback for a line. *)
Definition project_entry (line : string) : Project :=
  MkProject (trim line) None (Some EmptyString).

(** The lines that the project fallback keeps: more than ten characters
    after trimming, and not a [resumeItem]. *)
Definition long_line (line : string) : bool :=
  (10 <? String.length (trim line))
  && negb (includes (trim line) "resumeItem").

(** A word of one capital letter followed by one or more small letters. *)
Definition capitalised (w : string) : bool :=
  match w with
  | String c (String d cs) =>
      is_upper c && is_lower d && forallb is_lower (list_ascii_of_string cs)
  | _ => false
  end.

(** A word that begins with a capital letter and a small letter. *)
Definition begins_capitalised (w : string) : bool :=
  match w with
  | String c (String d _) => is_upper c && is_lower d
  | _ => false
  end.





(** The content of a request when it is a string that is not empty: the
    requests on which the handler runs [compile]. *)
Definition source_of (request : Body) : option string :=
  match request with
  | Parsed body =>
      match property body "content" with
      | Some (JString source) => if truthy source then Some source else None
      | _ => None
      end
  | Unreadable => None
  end.

(** The body is JSON and not [null], and its [content] is absent or
    falsy. *)
Definition missing_content (request : Body) : bool :=
  match request with
  | Unreadable | Parsed JNull => false
  | Parsed body =>
      match property body "content" with
      | Some content => negb (json_truthy content)
      | None => true
      end
  end.

(** What a handler [handler] answers to a request, where [compile] is the
    [compile] of its revision: the result of [compile] with status 200 for
    a content that is a string and not empty, and otherwise a failure
    without a document and without a remote request; status 400 exactly
    for a missing content; a document exactly for a string that passes the
    four checks. *)
Definition answers_by_content (handler : Body -> M Reply)
  (compile : string -> CompilationResult * list request)
  (request : Body) : Prop :=
  match source_of request with
  | Some source =>
      handler request []
      = (MkReply 200 (fst (compile source)), snd (compile source))
  | None =>
      snd (handler request []) = []
      /\ success (result (fst (handler request []))) = false
      /\ pdfBuffer (result (fst (handler request []))) = None
      /\ In (status (fst (handler request []))) [400; 500; 200]
  end
  /\ (status (fst (handler request [])) = 400
      <-> missing_content request = true)
  /\ (pdfBuffer (result (fst (handler request []))) <> None
      <-> exists source,
            source_of request = Some source /\ validate source = None).

(** The requests that end in the [catch] block: a body that is not JSON,
    the body [null], and a content that is a number other than zero. *)
Definition answers_500 (handler : Body -> M Reply) (n : number) : Prop :=
  handler Unreadable [] = (internal_error, [])
  /\ handler (Parsed JNull) [] = (internal_error, [])
  /\ (json_truthy (JNumber n) = true ->
      handler (Parsed (JObject [("content", JNumber n)])) []
      = (internal_error, [])).

(** The repetitions of the words of a language. *)
Inductive iterated (L : string -> Prop) : string -> Prop :=
| iterated_none : iterated L EmptyString
| iterated_more (w1 w2 : string) :
    L w1 -> iterated L w2 -> iterated L (w1 ++ w2).

(** The words of a pattern: the texts that a match of it can consume. *)
Fixpoint words_of (r : re) (w : string) : Prop :=
  match r with
  | Eps | Ahead _ | Bol | Eol => w = EmptyString
  | Chr p => exists c, w = String c EmptyString /\ p c = true
  | Seq r1 r2 => exists w1 w2, w = w1 ++ w2 /\ words_of r1 w1 /\ words_of r2 w2
  | Alt r1 r2 => words_of r1 w \/ words_of r2 w
  | Star _ r1 => iterated (words_of r1) w
  | Grp _ r1 => words_of r1 w
  end.

(** The number of brace groups that are open after the text [s], when [d]
    were open before it; a closing brace without a group is skipped. *)
Definition brace_step (d : nat) (c : ascii) : nat :=
  if Ascii.eqb c "{" then S d
  else if Ascii.eqb c "}" then Nat.pred d
  else d.

Fixpoint brace_depth (d : nat) (s : string) : nat :=
  match s with
  | EmptyString => d
  | String c s' => brace_depth (brace_step d c) s'
  end.

(** A character that is no letter, no digit, no backslash and no brace:
    a blank or a punctuation mark. *)
Definition separator (c : ascii) : bool :=
  negb (is_upper c || is_lower c || is_digit c || one_of "\{}" c).

(** Every separator of [s] stands inside a brace group, when [d] groups
    are open before [s]. *)
Fixpoint guarded (d : nat) (s : string) : bool :=
  match s with
  | EmptyString => true
  | String c s' =>
      if separator c then (1 <=? d) && guarded d s'
      else guarded (brace_step d c) s'
  end.

(** The last character of [s] is a separator. *)
Fixpoint after_separator (s : string) : bool :=
  match s with
  | EmptyString => false
  | String c EmptyString => separator c
  | String _ s' => after_separator s'
  end.

(** The text that follows [before] stands outside every brace group and
    after a separator. *)
Definition outside_groups (before : string) : bool :=
  (brace_depth 0 before =? 0) && after_separator before.

(** Where the position [lo] of a text is found after the matches [ms] of
    a rule are replaced by [replacement], when no match covers it. *)
Definition moved_to (replacement : string) (lo : nat) (ms : list rmatch)
  : nat :=
  let earlier := filter (fun m => m_index m <? lo) ms in
  lo + List.length earlier * String.length replacement
  - list_sum (map (fun m => String.length (m_text m)) earlier).

(** No match of a rule touches the [len] characters at position [lo] at
    the moment the rule runs: not in [s] for the first rule, not in the
    result of the first rule for the second, and so on. *)
Fixpoint untouched_throughout (rules : list (re * string)) (s : string)
  (lo len : nat) : bool :=
  match rules with
  | [] => true
  | rule :: rules' =>
      forallb (fun m => negb (overlaps lo (lo + len) m))
              (exec_all (fst rule) s)
      && untouched_throughout rules' (apply_rule s rule)
           (moved_to (snd rule) lo (exec_all (fst rule) s)) len
  end.

(** A match of the pattern consumes a text that starts with a backslash,
    whose separators stand inside its own braces and that closes no group
    that it did not open. *)
Definition shaped (w : string) : Prop :=
  (exists w', w = String "\" w')
  /\ guarded 0 w = true
  /\ forall d, d <= brace_depth d w.

(** A rule whose matches are shaped and whose replacement text opens no
    group. *)
Definition tame (rule : re * string) : Prop :=
  (forall w, words_of (fst rule) w -> shaped w)
  /\ (forall d, brace_depth d (snd rule) <= d).

(** A text whose separators stand inside a group when at least [i]
    groups are open before it, and after which at least [o] groups are
    open, and as many more as were open beyond [i]. *)
Definition rises (i o : nat) (w : string) : Prop :=
  forall d, i <= d -> guarded d w = true /\ o + (d - i) <= brace_depth d w.

(** No character of [s] has a capital outside the 8-bit alphabet: the
    capital of the micro sign (181) is U+039C and that of the y with
    diaeresis (255) is U+0178. *)
Definition capitals_in_alphabet (s : string) : bool :=
  forallb (fun c => negb ((code c =? 181) || (code c =? 255)))
          (list_ascii_of_string s).

(* ================================================================== *)
(** ** Environments and sample inputs *)

(** A network on which every request is rejected and no timer fires. *)
Definition offline : env := Env (fun _ _ => Rejected) (fun _ _ => false).

(** A jsPDF stand-in: no line breaking, and a serialisation that starts
    with the PDF header and appends the bytes of every text. *)
Definition pdf_header : bytes :=
  list_byte_of_string ("%PDF-1.3" ++ nl).

Definition plain_pdf : PdfLib :=
  {| splitTextToSize := fun _ _ s _ => [s];
     output := fun ops =>
       (pdf_header
        ++ flat_map (fun op => list_byte_of_string (op_text op)) ops)%list |}.

(** A body of 1001 bytes, just above the floor. *)
Definition big_body : bytes := repeat Byte.x20 1001.

(** A network on which [latexonline.cc] answers every request with an
    error status and the alternative service answers 200 with an HTML page
    of 1001 bytes. *)
Definition alt_html : env :=
  Env (fun _ rq =>
         if String.eqb (url rq) "https://latex.aslushnikov.com/compile"
         then Resolved (Response true (Some "text/html") big_body)
         else Resolved (Response false None []))
      (fun _ _ => false).

(** A minimal source that passes the four checks. *)
Definition minimal_source : string :=
  "\documentclass{article}\begin{document}Hello\end{document}".

(** A resume preamble with an icon package, icon macros and a margin
    adjustment. *)
Definition sample_source : string :=
  "\documentclass{article}\usepackage{fontawesome5}\addtolength{\topmargin}{-.5in}\begin{document}\faPhone 555 0100 \faGithub jane\end{document}".

(** The structured experience macro with its four arguments. *)
Definition resumeSubheading (a1 a2 a3 a4 : string) : string :=
  "\resumeSubheading{" ++ a1 ++ "}{" ++ a2 ++ "}{" ++ a3 ++ "}{" ++ a4 ++ "}".


(** A document with text before its one section, the section heading
    (starred when [mark] is the star), the section body, the end marker
    and text after it. *)
Definition section_document (pre mark title body trailer : string) : string :=
  pre ++ "\section" ++ mark ++ "{" ++ title ++ "}" ++ body
  ++ "\end{document}" ++ trailer.

(** A document with one section of the given title and body. *)
Definition one_section (title body : string) : string :=
  "\documentclass{article}" ++ nl ++ "\begin{document}" ++ nl
  ++ "\section{" ++ title ++ "}" ++ nl ++ body ++ nl ++ "\end{document}".

(** A resume with a summary, an experience section whose list starts with
    the Acme Corp macro, and an education section. *)
Definition acme_resume : string :=
  "\documentclass{article}" ++ nl ++ "\begin{document}" ++ nl
  ++ "\section{Summary}" ++ nl ++ "Engineer with ten years of practice." ++ nl
  ++ "\section{Work Experience}" ++ nl
  ++ "\resumeSubHeadingListStart" ++ nl
  ++ resumeSubheading "Acme Corp" "2020-2022" "Engineer" "NYC" ++ nl
  ++ "\resumeItem{Built things}" ++ nl
  ++ "\section{Education}" ++ nl ++ "B.Sc. in Physics, 2019" ++ nl
  ++ "\end{document}" ++ nl.

(** A resume whose experience section is followed by a section on
    volunteer work. *)
Definition two_experience_sections : string :=
  "\documentclass{article}\begin{document}\section{Experience}\resumeSubheading{Acme Corp}{2020-2022}{Engineer}{NYC}\section{Volunteer Work}Food bank helper\end{document}".

(** The two plain lines of the heuristic scenario, and the body that a
    third line completes. *)
Definition two_lines : string := "Software Engineer" ++ nl ++ "2021-2023".

Definition three_lines (third : string) : string :=
  "Software Engineer" ++ nl ++ "2021-2023" ++ nl ++ third.

(** The entry under construction after the two lines. *)
Definition pending_entry : Experience :=
  MkExperience None (Some "2021-2023") (Some "Software Engineer") None None.

(** A valid document whose center environment holds a large-text group
    with blanks only. *)
Definition blank_center_source : string :=
  "\documentclass{article}\begin{document}\begin{center}{\Huge  }\end{center}\end{document}".

(** A source with a marker in a bold group of a section body; its only
    recognised construct is a [\raisebox] that stands inside the letters
    of [\addtolength]. *)
Definition joined_source : string :=
  "\documentclass{article}\begin{document}\section{Skills}\addto\raisebox{1pt}length{\textwidth}{\bfseries MARKER }\end{document}".

(** A network on which every request is answered with a PDF of 1001 bytes
    and no timer fires. *)
Definition pdf_service : env :=
  Env (fun _ _ => Resolved (Response true (Some "application/pdf") big_body))
      (fun _ _ => false).

(** A moderncv preamble. *)
Definition moderncv_header : string :=
  "\documentclass{moderncv}" ++ nl ++ "\name{ Jane Doe }" ++ nl
  ++ "\title{Software Engineer}" ++ nl ++ "\phone{ 555 0100 }" ++ nl
  ++ "\email{jane@example.org}" ++ nl ++ "\address{12 Main Street}" ++ nl
  ++ "\begin{document}" ++ nl ++ "\end{document}".








(** An ordinary resume in three parts: the preamble and the header up to
    a word of the summary, the text up to a word inside the braces of an
    item of the experience section, and the rest. *)
Definition resume_opening : string :=
  "\documentclass[letterpaper,11pt]{article}" ++ nl
  ++ "\usepackage{fontawesome5}" ++ nl
  ++ "\usepackage{marvosym}" ++ nl
  ++ "\addtolength{\topmargin}{-.5in}" ++ nl
  ++ "\pagestyle{fancy}" ++ nl ++ "\fancyhf{}" ++ nl
  ++ "\begin{document}" ++ nl
  ++ "\begin{center}{\Huge Jane Doe} \faPhone 555 0100 "
  ++ "\raisebox{-1pt}\faEnvelope jane@example.org\end{center}" ++ nl
  ++ "\section{Summary}" ++ nl ++ "Engineer with ".

Definition resume_middle : string :=
  " years of practice." ++ nl ++ "\section{Experience}" ++ nl
  ++ "\resumeItem{Built ".

Definition resume_ending : string :=
  " things}" ++ nl ++ "\end{document}" ++ nl.

(** A source whose subsection Profile stands before its section
    Summary. *)
Definition profile_before_summary : string :=
  "\subsection{Profile}Old text\section{Summary}New text".

(* ================================================================== *)
(** ** Lemmas on the matcher *)

Section MatcherFacts.

Lemma needs_backslash_chr : needs_backslash (chr "\").
Proof.
  intros k [a s caps] H. cbn [rest] in H. unfold chr. cbn [mt rest].
  destruct s as [|c s']; [reflexivity|].
  destruct (Ascii.eqb "\" c) eqn:E; [|reflexivity].
  apply Ascii.eqb_eq in E. subst c. exfalso. apply (H s'). reflexivity.
Qed.

Lemma needs_backslash_seq (r1 r2 : re) :
  needs_backslash r1 -> needs_backslash (Seq r1 r2).
Proof. intros H k st Hst. simpl. apply H. exact Hst. Qed.

Lemma needs_backslash_lit (s : string) :
  needs_backslash (lit (String "\" s)).
Proof.
  destruct s; simpl.
  - apply needs_backslash_chr.
  - apply needs_backslash_seq, needs_backslash_chr.
Qed.

Lemma needs_backslash_seqs (r : re) (rs : list re) :
  needs_backslash r -> needs_backslash (seqs (r :: rs)).
Proof.
  intros H. destruct rs; simpl; [exact H|].
  apply needs_backslash_seq, H.
Qed.

(** A replacement without a match is the identity. *)
Lemma replace_from_no_match (r : re) (by_ : rmatch -> string) (s : string) :
  forall start idx,
    search_from r start idx s = None ->
    replace_from r by_ 0 start idx s = s.
Proof.
  induction s as [|c s IH]; intros start idx H; simpl in *.
  - destruct (match_here r start "") eqn:E; [discriminate|reflexivity].
  - destruct (match_here r start (String c s)) eqn:E; [discriminate|].
    rewrite (IH false (S idx) H). reflexivity.
Qed.

Lemma replace_with_no_match (r : re) (by_ s : string) :
  test r s = false -> replace_with r by_ s = s.
Proof.
  unfold test, replace_with, replace_all, search. intros H.
  apply replace_from_no_match.
  destruct (search_from r true 0 s); [discriminate|reflexivity].
Qed.

Lemma apply_rules_fixed (rules : list (re * string)) (s : string) :
  rule_free rules s = true -> apply_rules rules s = s.
Proof.
  unfold apply_rules, rule_free.
  induction rules as [|rule rules IH]; intros H; simpl in *; [reflexivity|].
  apply andb_true_iff in H. destruct H as [H1 H2].
  unfold apply_rule at 2. rewrite replace_with_no_match.
  - apply IH, H2.
  - apply negb_true_iff, H1.
Qed.

End MatcherFacts.

Section SimplifierFacts.

Lemma includes_cons_false (c : ascii) (m p : string) :
  includes (String c m) p = false ->
  startsWith p (String c m) = false /\ includes m p = false.
Proof. cbn [includes]. intros H. apply orb_false_iff in H. exact H. Qed.

Lemma not_backslash_head (c : ascii) (m : string) :
  includes (String c m) "\" = false -> forall s s', String c s <> String "\" s'.
Proof.
  intros H s s' E. apply includes_cons_false in H. destruct H as [H _].
  injection E as E1 _. subst c. cbn in H. discriminate.
Qed.

(** A pattern that needs a backslash leaves a backslash-free prefix of the
    input in place. *)
Lemma replace_from_prefix (r : re) (by_ : rmatch -> string) :
  needs_backslash r ->
  forall m tl start idx,
    includes m "\" = false ->
    exists t, replace_from r by_ 0 start idx (m ++ tl) = m ++ t.
Proof.
  intros Hr m. induction m as [|c m IH]; intros tl start idx Hm.
  - eexists. reflexivity.
  - cbn [append replace_from]. unfold match_here.
    rewrite Hr.
    + destruct (IH tl false (S idx)) as [t Ht].
      * apply includes_cons_false in Hm. apply Hm.
      * exists t. rewrite Ht. reflexivity.
    + cbn [rest]. intros s'. apply (not_backslash_head c m Hm).
Qed.

Lemma apply_rules_prefix (rules : list (re * string)) :
  Forall (fun rule => needs_backslash (fst rule)) rules ->
  forall m tl,
    includes m "\" = false ->
    exists t, apply_rules rules (m ++ tl) = m ++ t.
Proof.
  unfold apply_rules. intros H. induction H as [|rule rules Hr _ IH];
    intros m tl Hm; cbn [fold_left].
  - eexists. reflexivity.
  - unfold apply_rule at 2. unfold replace_with, replace_all.
    destruct (replace_from_prefix (fst rule) (fun _ => snd rule) Hr
                m tl true 0 Hm) as [t Ht].
    rewrite Ht. apply IH, Hm.
Qed.

Lemma replaceFirst_prefix (pat by_ : string) :
  forall m tl,
    includes m "\" = false ->
    replaceFirst (String "\" pat) by_ (m ++ tl)
    = m ++ replaceFirst (String "\" pat) by_ tl.
Proof.
  intros m. induction m as [|c m IH]; intros tl Hm; [reflexivity|].
  cbn [append]. cbn [replaceFirst].
  replace (startsWith (String "\" pat) (String c (m ++ tl))) with false.
  - rewrite IH; [reflexivity|]. apply includes_cons_false in Hm. apply Hm.
  - cbn [startsWith]. destruct (Ascii.eqb "\" c) eqn:E; [|reflexivity].
    apply Ascii.eqb_eq in E. subst c.
    apply includes_cons_false in Hm. destruct Hm as [Hm _]. cbn in Hm.
    discriminate.
Qed.

Lemma replaceFirst_absent (pat by_ : string) :
  forall s, includes s pat = false -> replaceFirst pat by_ s = s.
Proof.
  induction s as [|c s IH]; intros H.
  - cbn in *. rewrite orb_false_r in H. rewrite H. reflexivity.
  - apply includes_cons_false in H. destruct H as [H1 H2].
    cbn [replaceFirst]. rewrite H1, (IH H2). reflexivity.
Qed.

Lemma simplify_rules_need_backslash :
  Forall (fun rule => needs_backslash (fst rule)) simplify_rules.
Proof.
  unfold simplify_rules.
  repeat (apply Forall_cons || apply Forall_nil); cbn [fst];
    first [ apply needs_backslash_lit
          | apply needs_backslash_seqs, needs_backslash_lit ].
Qed.

Lemma route_rules_need_backslash :
  Forall (fun rule => needs_backslash (fst rule)) RouteTs.simplify_rules.
Proof.
  unfold RouteTs.simplify_rules.
  repeat (apply Forall_cons || apply Forall_nil); cbn [fst];
    first [ apply needs_backslash_lit
          | apply needs_backslash_seqs, needs_backslash_lit ].
Qed.

Lemma ensure_geometry_prefix (m tl : string) :
  includes m "\" = false ->
  exists t, ensure_geometry (m ++ tl) = m ++ t.
Proof.
  intros Hm. unfold ensure_geometry.
  destruct (negb (includes (m ++ tl) "\usepackage{geometry}")).
  - unfold article_class. rewrite replaceFirst_prefix by exact Hm.
    eexists. reflexivity.
  - eexists. reflexivity.
Qed.

(** A source without a match of any rule, and on which the geometry step
    has nothing to do, is a fixed point of the simplifier. *)
Lemma simplify_fixed (y : string) :
  rule_free simplify_rules y = true ->
  includes y article_class = false
  \/ includes y "\usepackage{geometry}" = true ->
  simplifyLatexForOnlineServices y = y.
Proof.
  intros Hfree Hgeo. unfold simplifyLatexForOnlineServices.
  rewrite apply_rules_fixed by exact Hfree.
  unfold ensure_geometry. destruct Hgeo as [Habsent | Hpresent].
  - destruct (negb (includes y "\usepackage{geometry}")); [|reflexivity].
    apply replaceFirst_absent, Habsent.
  - rewrite Hpresent. reflexivity.
Qed.

End SimplifierFacts.

Section OrchestratorFacts.

Variable e : env.
Context {lib : PdfLib}.

(** A failed check ends [compile] at once: the failure object, and no
    request. *)
Lemma compile_invalid (content message : string) :
  validate content = Some message ->
  compile e content = (failure message, [])
  /\ RouteTs.compile e content = (failure message, []).
Proof.
  intros H. unfold compile, RouteTs.compile, simulateLatexCompilation,
    RouteTs.simulateLatexCompilation. rewrite H. split; reflexivity.
Qed.

(** After the four checks the result is a success that carries whatever
    [generateSamplePDF] returns. *)
Lemma compile_valid (content : string) :
  validate content = None ->
  fst (compile e content)
  = MkResult true (Some (fst (generateSamplePDF e content []))) None
             (Some []) (Some ["LaTeX compilation successful"])
  /\ fst (RouteTs.compile e content)
     = MkResult true (Some (fst (RouteTs.generateSamplePDF e content [])))
                None (Some []) (Some ["LaTeX compilation successful"]).
Proof.
  intros H. unfold compile, RouteTs.compile, simulateLatexCompilation,
    RouteTs.simulateLatexCompilation. rewrite H. unfold bind, ret.
  split.
  - destruct (generateSamplePDF e content []). reflexivity.
  - destruct (RouteTs.generateSamplePDF e content []). reflexivity.
Qed.

(** When every raced attempt is null, so is [compileLatexToPDF]. *)
Lemma compileLatexToPDF_null (content : string) (log : list request) :
  (forall ms s l, fst (race e ms (tryLatexOnline e s) l) = None) ->
  fst (compileLatexToPDF e content log) = None.
Proof.
  intros Hnull. unfold compileLatexToPDF, bind, ret.
  pose proof (Hnull 30000%N content log) as H1.
  destruct (race e 30000%N (tryLatexOnline e content) log) as [r1 log1].
  cbn [fst] in H1. subst r1.
  destruct (negb (simplifyLatexForOnlineServices content =? content)%string);
    [|reflexivity].
  pose proof (Hnull 25000%N (simplifyLatexForOnlineServices content) log1)
    as H2.
  destruct (race e 25000%N
              (tryLatexOnline e (simplifyLatexForOnlineServices content))
              log1) as [r2 log2].
  exact H2.
Qed.

(** In the revision of [route.ts] a source that passes the checks also
    gets [success: true] when both attempts are null; the document is then
    the error notice of [createErrorPDF]. *)
Lemma route_compile_returns_error_notice (content : string) :
  validate content = None ->
  (forall ms s l, fst (race e ms (RouteTs.tryLatexOnline e s) l) = None) ->
  fst (RouteTs.compile e content)
  = MkResult true
      (Some (RouteTs.createErrorPDF
               "LaTeX compilation failed. Please check your LaTeX syntax or try again later."))
      None (Some []) (Some ["LaTeX compilation successful"]).
Proof.
  intros Hvalid Hnull.
  destruct (compile_valid content Hvalid) as [_ ->]. do 2 f_equal.
  unfold RouteTs.generateSamplePDF, RouteTs.compileLatexToPDF, bind, ret.
  pose proof (Hnull 30000%N content []) as H1.
  destruct (race e 30000%N (RouteTs.tryLatexOnline e content) [])
    as [r1 log1].
  cbn [fst] in H1. subst r1.
  destruct (negb (RouteTs.simplifyLatexForOnlineServices content
                  =? content)%string); [|reflexivity].
  pose proof (Hnull 25000%N
                (RouteTs.simplifyLatexForOnlineServices content) log1) as H2.
  destruct (race e 25000%N
              (RouteTs.tryLatexOnline e
                 (RouteTs.simplifyLatexForOnlineServices content)) log1)
    as [r2 log2].
  cbn [fst] in H2. subst r2. reflexivity.
Qed.

End OrchestratorFacts.


(* ================================================================== *)
(** ** Runs of the matcher on inputs with an unknown remainder *)

Section SymbolicRuns.

Lemma length_append (a b : string) :
  String.length (a ++ b) = String.length a + String.length b.
Proof. induction a; cbn; [reflexivity | now rewrite IHa]. Qed.

Lemma take_app_length (t u : string) :
  take (String.length (t ++ u) - String.length u) (t ++ u) = t.
Proof.
  rewrite length_append.
  replace (String.length t + String.length u - String.length u)
    with (String.length t) by lia.
  induction t as [|c t IH]; cbn.
  - destruct u; reflexivity.
  - now rewrite IH.
Qed.

Lemma advanced_cons (a a' : bool) (c : ascii) (s : string)
  (cs cs' : list (nat * string)) :
  advanced (MState a (String c s) cs) (MState a' s cs') = true.
Proof.
  unfold advanced. cbn [rest String.length]. apply Nat.ltb_lt. lia.
Qed.

Lemma mt_chr (p : ascii -> bool) (k : mstate -> option mstate) (a : bool)
  (c : ascii) (s : string) (cs : list (nat * string)) :
  mt (Chr p) k (MState a (String c s) cs)
  = if p c then k (MState false s cs) else None.
Proof. reflexivity. Qed.

(** A literal consumes itself. *)
Lemma mt_lit (L : string) :
  L <> EmptyString ->
  forall k a tl cs,
    mt (lit L) k (MState a (L ++ tl) cs) = k (MState false tl cs).
Proof.
  induction L as [|c L IH]; intros HL k a tl cs; [contradiction|].
  destruct L as [|d L].
  - cbn. rewrite Ascii.eqb_refl. reflexivity.
  - change (lit (String c (String d L)))
      with (Seq (chr c) (lit (String d L))).
    cbn [mt append rest caps]. unfold chr at 1. cbn [mt rest caps].
    rewrite Ascii.eqb_refl.
    apply (IH ltac:(discriminate) k false tl cs).
Qed.

(** A literal fails where the input does not start with it. *)
Lemma mt_lit_fail (L : string) :
  forall k st, startsWith L (rest st) = false -> mt (lit L) k st = None.
Proof.
  induction L as [|c L IH]; intros k [a s cs] H; cbn [rest] in H.
  - cbn in H. discriminate.
  - destruct s as [|e s]; cbn [startsWith] in H.
    + destruct L; reflexivity.
    + destruct L as [|d L].
      * cbn. rewrite andb_true_r in H. rewrite H. reflexivity.
      * change (lit (String c (String d L)))
          with (Seq (chr c) (lit (String d L))).
        cbn [mt rest caps]. unfold chr at 1. cbn [mt rest caps].
        destruct (Ascii.eqb c e); [|reflexivity].
        apply IH. exact H.
Qed.

(** A greedy star over a character class runs to the first character
    outside the class; when the continuation accepts there, that is the
    result. *)
Lemma star_class_run (p : ascii -> bool) (k : mstate -> option mstate)
  (c : ascii) (tl : string) (cs : list (nat * string)) (x : mstate) :
  p c = false ->
  k (MState false (String c tl) cs) = Some x ->
  forall t n,
    forallb p (list_ascii_of_string t) = true ->
    String.length t <= n ->
    star_loop true (mt (Chr p)) k n (MState false (t ++ String c tl) cs)
    = Some x.
Proof.
  intros Hc Hk t. induction t as [|d t IH]; intros n Ht Hn.
  - cbn [append]. destruct n; cbn [star_loop]; [apply Hk|].
    rewrite mt_chr, Hc. apply Hk.
  - destruct n; [cbn in Hn; lia|].
    cbn [list_ascii_of_string forallb] in Ht.
    apply andb_true_iff in Ht. destruct Ht as [Hd Ht].
    cbn [append star_loop]. rewrite mt_chr, Hd, advanced_cons.
    rewrite (IH n Ht ltac:(cbn in Hn; lia)). reflexivity.
Qed.

Lemma mt_star_class (p : ascii -> bool) (k : mstate -> option mstate)
  (t : string) (c : ascii) (tl : string) (cs : list (nat * string))
  (x : mstate) :
  p c = false ->
  forallb p (list_ascii_of_string t) = true ->
  k (MState false (String c tl) cs) = Some x ->
  mt (star (Chr p)) k (MState false (t ++ String c tl) cs) = Some x.
Proof.
  intros Hc Ht Hk. unfold star.
  change (mt (Star true (Chr p)) k (MState false (t ++ String c tl) cs))
    with (star_loop true (mt (Chr p)) k (String.length (t ++ String c tl))
            (MState false (t ++ String c tl) cs)).
  apply star_class_run; try assumption.
  rewrite length_append. lia.
Qed.

(** [\s*] before a character that is not white space matches nothing. *)
Lemma mt_star_space_skip (k : mstate -> option mstate) (a : bool) (c : ascii)
  (tl : string) (cs : list (nat * string)) :
  is_space c = false ->
  mt (star space) k (MState a (String c EmptyString ++ tl) cs)
  = k (MState a (String c EmptyString ++ tl) cs).
Proof.
  intros Hc. unfold star, space. cbn [append].
  change (mt (Star true (Chr is_space)) k (MState a (String c tl) cs))
    with (star_loop true (mt (Chr is_space)) k (S (String.length tl))
            (MState a (String c tl) cs)).
  cbn [star_loop]. rewrite mt_chr, Hc. reflexivity.
Qed.

Lemma mt_seq (r1 r2 : re) (k : mstate -> option mstate) (st : mstate) :
  mt (Seq r1 r2) k st = mt r1 (mt r2 k) st.
Proof. reflexivity. Qed.

Lemma mt_grp (i : nat) (r : re) (k : mstate -> option mstate) (st : mstate) :
  mt (Grp i r) k st
  = mt r (fun st' => k (MState (at0 st') (rest st')
                          (set_cap i (consumed st st') (caps st')))) st.
Proof. reflexivity. Qed.

Lemma consumed_app (a a' : bool) (t u : string)
  (cs cs' : list (nat * string)) :
  consumed (MState a (t ++ u) cs) (MState a' u cs') = t.
Proof. unfold consumed. cbn [rest]. apply take_app_length. Qed.

(** A string without the character [c] is in the class of the characters
    other than [c]. *)
Lemma none_of_run (c : ascii) (t : string) :
  includes t (String c EmptyString) = false ->
  forallb (none_of (String c EmptyString)) (list_ascii_of_string t) = true.
Proof.
  induction t as [|d t IH]; intros H; [reflexivity|].
  apply includes_cons_false in H. destruct H as [H1 H2].
  cbn [list_ascii_of_string forallb]. rewrite (IH H2), andb_true_r.
  cbn [startsWith] in H1. rewrite andb_true_r in H1.
  unfold none_of. cbn [one_of]. rewrite H1. reflexivity.
Qed.

(** One braced argument [{t}] without a closing brace inside. *)
Lemma mt_arg (i : nat) (k : mstate -> option mstate) (t tl : string)
  (cs : list (nat * string)) (x : mstate) (a : bool) :
  includes t "}" = false ->
  k (MState false tl (set_cap i t cs)) = Some x ->
  mt (arg i) k (MState a ("{" ++ t ++ "}" ++ tl) cs) = Some x.
Proof.
  intros Ht Hk. unfold arg. cbn [seqs].
  rewrite mt_seq, (mt_lit "{") by discriminate.
  rewrite mt_seq, mt_grp. unfold not_close.
  change ("}" ++ tl) with (String "}" tl).
  apply mt_star_class.
  - reflexivity.
  - apply none_of_run, Ht.
  - cbn [at0 rest caps]. rewrite consumed_app.
    change (String "}" tl) with ("}" ++ tl).
    rewrite (mt_lit "}") by discriminate. exact Hk.
Qed.

(** A group of one or more characters of a class, up to the first
    character outside the class. *)
Lemma mt_grp_plus_class (i : nat) (p : ascii -> bool)
  (k : mstate -> option mstate) (t : string) (c : ascii) (tl : string)
  (cs : list (nat * string)) (x : mstate) (a : bool) :
  t <> EmptyString ->
  forallb p (list_ascii_of_string t) = true ->
  p c = false ->
  k (MState false (String c tl) (set_cap i t cs)) = Some x ->
  mt (Grp i (plus (Chr p))) k (MState a (t ++ String c tl) cs) = Some x.
Proof.
  intros Hne Ht Hc Hk. destruct t as [|d t]; [contradiction|].
  cbn [list_ascii_of_string forallb] in Ht.
  apply andb_true_iff in Ht. destruct Ht as [Hd Ht].
  rewrite mt_grp. unfold plus. rewrite mt_seq.
  cbn [append]. rewrite mt_chr, Hd.
  apply (mt_star_class p _ t c tl cs x Hc Ht).
  cbn [at0 rest caps].
  change (String d (t ++ String c tl)) with (String d t ++ String c tl).
  rewrite consumed_app. exact Hk.
Qed.

(** A lazy [[\s\S]*?] stops at the first position where the continuation
    accepts. *)
Lemma lazy_any_run (k : mstate -> option mstate) (u : string)
  (cs : list (nat * string)) (x : mstate) :
  k (MState false u cs) = Some x ->
  forall t n,
    (forall t1 t2, t = t1 ++ t2 -> t2 <> EmptyString ->
                   k (MState false (t2 ++ u) cs) = None) ->
    String.length t <= n ->
    star_loop false (mt (Chr any_char)) k n (MState false (t ++ u) cs)
    = Some x.
Proof.
  intros Hk t. induction t as [|d t IH]; intros n Hfail Hn.
  - cbn [append]. destruct n; cbn [star_loop]; rewrite Hk; reflexivity.
  - destruct n; [cbn in Hn; lia|].
    cbn [star_loop].
    rewrite (Hfail EmptyString (String d t) eq_refl) by discriminate.
    cbn [append]. rewrite mt_chr. cbn [any_char].
    rewrite advanced_cons. apply IH.
    + intros t1 t2 E Hne. apply (Hfail (String d t1) t2); [|exact Hne].
      cbn [append]. rewrite E. reflexivity.
    + cbn in Hn. lia.
Qed.

Lemma append_assoc_s (a b c : string) : (a ++ b) ++ c = a ++ (b ++ c).
Proof. induction a; cbn; [reflexivity | now rewrite IHa]. Qed.

Lemma subheading_shape (a1 a2 a3 a4 post : string) :
  resumeSubheading a1 a2 a3 a4 ++ post
  = "\resumeSubheading"
    ++ ("{" ++ a1 ++ "}" ++ ("{" ++ a2 ++ "}" ++ ("{" ++ a3 ++ "}"
        ++ ("{" ++ a4 ++ "}" ++ post)))).
Proof.
  unfold resumeSubheading. repeat rewrite append_assoc_s. reflexivity.
Qed.

(** The first pattern of [parseExperienceSection] on the macro with four
    arguments that hold no closing brace. *)
Lemma subheading_match (a1 a2 a3 a4 post : string) (start : bool) :
  includes a1 "}" = false -> includes a2 "}" = false ->
  includes a3 "}" = false -> includes a4 "}" = false ->
  match_here (nth 0 experience_patterns Eps) start
             (resumeSubheading a1 a2 a3 a4 ++ post)
  = Some (MState false post [(4, a4); (3, a3); (2, a2); (1, a1)]).
Proof.
  intros H1 H2 H3 H4. rewrite subheading_shape.
  unfold match_here. cbn [nth experience_patterns seqs].
  rewrite mt_seq, (mt_lit "\resumeSubheading") by discriminate.
  rewrite mt_seq, mt_star_space_skip by reflexivity.
  rewrite mt_seq. apply mt_arg; [exact H1|].
  rewrite mt_seq, mt_star_space_skip by reflexivity.
  rewrite mt_seq. apply mt_arg; [exact H2|].
  rewrite mt_seq, mt_star_space_skip by reflexivity.
  rewrite mt_seq. apply mt_arg; [exact H3|].
  rewrite mt_seq, mt_star_space_skip by reflexivity.
  apply mt_arg; [exact H4|]. reflexivity.
Qed.

(** A match at the first position heads the list of the [exec] loop. *)
Lemma exec_from_head (r : re) (start : bool) (idx : nat) (s : string)
  (st' : mstate) :
  match_here r start s = Some st' ->
  exists others, exec_from r 0 start idx s = mk_match idx s st' :: others.
Proof.
  intros H. destruct s as [|c s]; cbn [exec_from]; rewrite H;
    eexists; reflexivity.
Qed.

Lemma or_else_empty (s : string) : or_else s EmptyString = s.
Proof. destruct s; reflexivity. Qed.

(** *** Occurrences across a concatenation *)

(** A pattern without the character [d] cannot run over a [d]. *)
Lemma startsWith_cut (X : string) (d : ascii) :
  one_of X d = false ->
  forall a b, startsWith X (a ++ String d b) = startsWith X a.
Proof.
  induction X as [|c X IH]; intros Hd a b; [reflexivity|].
  cbn [one_of] in Hd. apply orb_false_iff in Hd. destruct Hd as [Hc HX].
  destruct a as [|e a]; cbn [append startsWith].
  - rewrite Hc. reflexivity.
  - rewrite (IH HX). reflexivity.
Qed.

(** A pattern whose only backslash is its first character cannot start
    before a backslash and run over it. *)
Lemma startsWith_cut_bs (x : string) (c : ascii) (a b : string) :
  one_of x "\" = false ->
  startsWith (String "\" x) (String c a ++ String "\" b)
  = startsWith (String "\" x) (String c a).
Proof.
  intros Hx. cbn [append startsWith]. rewrite (startsWith_cut x "\" Hx).
  reflexivity.
Qed.

Lemma includes_suffix (X t1 t2 : string) :
  includes (t1 ++ t2) X = false -> includes t2 X = false.
Proof.
  induction t1 as [|c t1 IH]; intros H; [exact H|].
  cbn [append] in H. apply includes_cons_false in H. apply IH, H.
Qed.

(** No occurrence of the pattern starts inside [a], also when [a] is
    followed by a text that starts with a backslash. *)
Lemma no_start_before_bs (x a b : string) :
  one_of x "\" = false ->
  includes a (String "\" x) = false ->
  forall t1 t2, a = t1 ++ t2 -> t2 <> EmptyString ->
    startsWith (String "\" x) (t2 ++ String "\" b) = false.
Proof.
  intros Hx Ha t1 t2 E Hne. subst a. apply includes_suffix in Ha.
  destruct t2 as [|c t2]; [contradiction|].
  rewrite startsWith_cut_bs by exact Hx.
  apply includes_cons_false in Ha. apply Ha.
Qed.

Lemma includes_app_bs (x a b : string) :
  one_of x "\" = false ->
  includes a (String "\" x) = false ->
  includes (a ++ String "\" b) (String "\" x)
  = includes (String "\" b) (String "\" x).
Proof.
  intros Hx. induction a as [|c a IH]; intros Ha; [reflexivity|].
  cbn [append]. cbn [includes].
  change (String c (a ++ String "\" b)) with (String c a ++ String "\" b).
  rewrite startsWith_cut_bs by exact Hx.
  apply includes_cons_false in Ha. destruct Ha as [H1 H2].
  rewrite H1, (IH H2). reflexivity.
Qed.

Lemma includes_app_cut (X : string) (d : ascii) (a b : string) :
  one_of X d = false ->
  includes a X = false ->
  includes (a ++ String d b) X = includes (String d b) X.
Proof.
  intros Hd. induction a as [|c a IH]; intros Ha; [reflexivity|].
  cbn [append]. cbn [includes].
  change (String c (a ++ String d b)) with (String c a ++ String d b).
  rewrite (startsWith_cut X d Hd).
  apply includes_cons_false in Ha. destruct Ha as [H1 H2].
  rewrite H1, (IH H2). reflexivity.
Qed.

(** *** Patterns that start with a literal *)

Lemma needs_literal_seqs (L : string) (rs : list re) :
  rs <> [] -> needs_literal L (seqs (lit L :: rs)).
Proof.
  intros Hrs k st H. destruct rs as [|r rs]; [contradiction|].
  cbn [seqs]. rewrite mt_seq. apply mt_lit_fail, H.
Qed.

(** No match where the literal does not occur. *)
Lemma exec_from_no_start (L : string) (r : re) :
  needs_literal L r ->
  forall s start idx,
    includes s L = false -> exec_from r 0 start idx s = [].
Proof.
  intros Hr s. induction s as [|c s IH]; intros start idx H.
  - cbn [exec_from]. unfold match_here. rewrite Hr; [reflexivity|].
    cbn in H. cbn [rest]. apply orb_false_iff in H. apply H.
  - apply includes_cons_false in H. destruct H as [H1 H2].
    cbn [exec_from]. unfold match_here. rewrite Hr by exact H1.
    apply IH, H2.
Qed.

(** The loop passes over a prefix in which no match starts. *)
Lemma exec_from_pass (L : string) (r : re) (s : string) :
  needs_literal L r ->
  forall pre start idx,
    (forall t1 t2, pre = t1 ++ t2 -> t2 <> EmptyString ->
                   startsWith L (t2 ++ s) = false) ->
    exists start' idx',
      exec_from r 0 start idx (pre ++ s) = exec_from r 0 start' idx' s.
Proof.
  intros Hr pre. induction pre as [|c pre IH]; intros start idx H.
  - exists start, idx. reflexivity.
  - cbn [append exec_from]. unfold match_here. rewrite Hr.
    + apply IH. intros t1 t2 E Hne. apply (H (String c t1) t2); [|exact Hne].
      cbn [append]. rewrite E. reflexivity.
    + cbn [rest]. apply (H EmptyString (String c pre) eq_refl). discriminate.
Qed.

(** After a match the loop resumes behind it. *)
Lemma exec_from_skip (r : re) (m tl : string) :
  forall start idx,
    exists start' idx',
      exec_from r (String.length m) start idx (m ++ tl)
      = exec_from r 0 start' idx' tl.
Proof.
  induction m as [|c m IH]; intros start idx.
  - exists start, idx. reflexivity.
  - cbn [String.length append exec_from]. apply IH.
Qed.

Lemma exec_from_match (r : re) (start : bool) (idx : nat) (m tl : string)
  (cs : list (nat * string)) (a : bool) :
  m <> EmptyString ->
  match_here r start (m ++ tl) = Some (MState a tl cs) ->
  exists start' idx',
    exec_from r 0 start idx (m ++ tl)
    = RMatch idx m cs tl :: exec_from r 0 start' idx' tl.
Proof.
  intros Hm H. destruct m as [|c m]; [contradiction|].
  cbn [append exec_from].
  change (String c (m ++ tl)) with (String c m ++ tl). rewrite H.
  unfold mk_match. cbn [rest caps]. rewrite take_app_length.
  rewrite length_append.
  replace (String.length (String c m) + String.length tl
           - String.length tl - 1) with (String.length m)
    by (cbn [String.length]; lia).
  destruct (exec_from_skip r m tl false (S idx)) as [s' [i' E]].
  exists s', i'. rewrite E. reflexivity.
Qed.

(** The first [\resumeSubheading] of a section body gives the first entry
    of the section, whatever follows it. *)
Lemma parse_subheading_first (lead a1 a2 a3 a4 post : string) :
  includes lead "\resumeSubheading" = false ->
  includes a1 "}" = false -> includes a2 "}" = false ->
  includes a3 "}" = false -> includes a4 "}" = false ->
  exists others,
    parseExperienceSection (lead ++ resumeSubheading a1 a2 a3 a4 ++ post)
    = MkExperience (Some a1) (Some a2) (Some a3) (Some a4) None :: others.
Proof.
  intros Hlead H1 H2 H3 H4.
  assert (Hneeds : needs_literal "\resumeSubheading"
                     (nth 0 experience_patterns Eps)).
  { cbn [nth experience_patterns]. apply needs_literal_seqs. discriminate. }
  destruct (exec_from_pass "\resumeSubheading" _
              (resumeSubheading a1 a2 a3 a4 ++ post) Hneeds lead true 0)
    as [start1 [idx1 E1]].
  { rewrite subheading_shape.
    apply (no_start_before_bs "resumeSubheading" lead
             ("resumeSubheading"
              ++ ("{" ++ a1 ++ "}" ++ ("{" ++ a2 ++ "}" ++ ("{" ++ a3 ++ "}"
                  ++ ("{" ++ a4 ++ "}" ++ post))))));
      [reflexivity | exact Hlead]. }
  pose proof (subheading_match a1 a2 a3 a4 post start1 H1 H2 H3 H4) as Hm.
  destruct (exec_from_head _ start1 idx1 _ _ Hm) as [others Ho].
  unfold parseExperienceSection.
  change experience_patterns
    with (nth 0 experience_patterns Eps :: tl experience_patterns).
  cbn [structured_experiences]. unfold exec_all. rewrite E1, Ho.
  cbn [map app]. eexists. f_equal.
  unfold experience_of_match, field_of, group, mk_match.
  cbn [m_caps caps get_cap Nat.eqb opt_or].
  rewrite !or_else_empty. reflexivity.
Qed.

(** *** The section pattern *)

Lemma mt_alt (r1 r2 : re) (k : mstate -> option mstate) (st : mstate) :
  mt (Alt r1 r2) k st
  = match mt r1 k st with Some x => Some x | None => mt r2 k st end.
Proof. reflexivity. Qed.

Lemma mt_ahead (r : re) (k : mstate -> option mstate) (st : mstate) :
  mt (Ahead r) k st
  = match mt r Some st with
    | Some st' => k (MState (at0 st) (rest st) (caps st'))
    | None => None
    end.
Proof. reflexivity. Qed.

Lemma mt_opt_skip (c d : ascii) (k : mstate -> option mstate) (a : bool)
  (tl : string) (cs : list (nat * string)) :
  Ascii.eqb c d = false ->
  mt (opt (chr c)) k (MState a (String d EmptyString ++ tl) cs)
  = k (MState a (String d EmptyString ++ tl) cs).
Proof.
  intros H. unfold opt, chr. rewrite mt_alt. cbn [append].
  rewrite mt_chr, H. reflexivity.
Qed.

Lemma mt_opt_take (c : ascii) (k : mstate -> option mstate) (a : bool)
  (tl : string) (cs : list (nat * string)) (x : mstate) :
  k (MState false tl cs) = Some x ->
  mt (opt (chr c)) k (MState a (String c EmptyString ++ tl) cs) = Some x.
Proof.
  intros H. unfold opt, chr. rewrite mt_alt. cbn [append].
  rewrite mt_chr, Ascii.eqb_refl, H. reflexivity.
Qed.

(** The lookahead of the section pattern fails inside a body ... *)
Lemma boundary_inside (k : mstate -> option mstate) (a : bool) (s : string)
  (cs : list (nat * string)) :
  startsWith "\section" s = false ->
  startsWith "\end{document}" s = false ->
  s <> EmptyString ->
  mt (Ahead (alts [lit "\section"; lit "\end{document}"; Eol])) k
     (MState a s cs) = None.
Proof.
  intros H1 H2 H3. rewrite mt_ahead. cbn [alts]. rewrite mt_alt.
  rewrite mt_lit_fail by exact H1. rewrite mt_alt.
  rewrite mt_lit_fail by exact H2.
  destruct s; [contradiction|reflexivity].
Qed.

(** ... and holds at the end marker. *)
Lemma boundary_at_end (k : mstate -> option mstate) (a : bool)
  (trailer : string) (cs : list (nat * string)) :
  mt (Ahead (alts [lit "\section"; lit "\end{document}"; Eol])) k
     (MState a ("\end{document}" ++ trailer) cs)
  = k (MState a ("\end{document}" ++ trailer) cs).
Proof.
  rewrite mt_ahead. cbn [alts]. rewrite mt_alt.
  rewrite mt_lit_fail by reflexivity. rewrite mt_alt.
  rewrite (mt_lit "\end{document}") by discriminate. reflexivity.
Qed.

(** The section pattern on a heading, a body in which no boundary starts,
    and the end marker. *)
Lemma section_match (mark title body trailer : string) (start : bool) :
  mark = EmptyString \/ mark = "*" ->
  title <> EmptyString ->
  includes title "}" = false ->
  (forall t1 t2, body = t1 ++ t2 -> t2 <> EmptyString ->
     startsWith "\section" (t2 ++ "\end{document}" ++ trailer) = false
     /\ startsWith "\end{document}" (t2 ++ "\end{document}" ++ trailer)
        = false) ->
  match_here sectionPattern start
    ("\section" ++ mark ++ "{" ++ title ++ "}" ++ body
     ++ "\end{document}" ++ trailer)
  = Some (MState false ("\end{document}" ++ trailer)
                 [(2, body); (1, title)]).
Proof.
  intros Hmark Hne Htitle Hbody.
  unfold match_here, sectionPattern. cbn [seqs].
  rewrite mt_seq, (mt_lit "\section") by discriminate. rewrite mt_seq.
  set (x := MState false ("\end{document}" ++ trailer)
                   [(2, body); (1, title)]).
  assert (Hrest :
    mt (Seq (lit "{")
          (Seq (Grp 1 (plus not_close))
             (Seq (lit "}")
                (Seq (Grp 2 (lazy any))
                   (Ahead (alts [lit "\section"; lit "\end{document}";
                                 Eol]))))))
       Some
       (MState false ("{" ++ title ++ "}" ++ body ++ "\end{document}"
                      ++ trailer) [])
    = Some x).
  { rewrite mt_seq, (mt_lit "{") by discriminate. rewrite mt_seq.
    change ("}" ++ body ++ "\end{document}" ++ trailer)
      with (String "}" (body ++ "\end{document}" ++ trailer)).
    unfold not_close. apply mt_grp_plus_class.
    - exact Hne.
    - apply none_of_run, Htitle.
    - reflexivity.
    - change (String "}" (body ++ "\end{document}" ++ trailer))
        with ("}" ++ body ++ "\end{document}" ++ trailer).
      rewrite mt_seq, (mt_lit "}") by discriminate.
      rewrite mt_seq, mt_grp. unfold lazy, any.
      match goal with
      | |- mt (Star false (Chr any_char)) ?K ?st = _ =>
          change (mt (Star false (Chr any_char)) K st)
            with (star_loop false (mt (Chr any_char)) K
                    (String.length (rest st)) st)
      end.
      apply lazy_any_run.
      + cbn [at0 rest caps]. rewrite consumed_app, boundary_at_end.
        reflexivity.
      + intros t1 t2 E Hne2. cbn [at0 rest caps].
        destruct (Hbody t1 t2 E Hne2) as [Ha Hb].
        apply boundary_inside; [exact Ha | exact Hb |].
        destruct t2; [contradiction | discriminate].
      + cbn [rest]. rewrite length_append. lia. }
  destruct Hmark as [-> | ->].
  - change (EmptyString ++ "{" ++ title ++ "}" ++ body ++ "\end{document}"
            ++ trailer)
      with ("{" ++ title ++ "}" ++ body ++ "\end{document}" ++ trailer).
    rewrite mt_opt_skip by reflexivity. exact Hrest.
  - apply mt_opt_take. exact Hrest.
Qed.

(** *** A document with one section *)

Lemma lacks_cons (s w : string) (ws : list string) :
  lacks s (w :: ws) = true -> includes s w = false /\ lacks s ws = true.
Proof.
  unfold lacks. cbn [forallb]. intros H. apply andb_true_iff in H.
  destruct H as [H1 H2]. split; [apply negb_true_iff, H1 | exact H2].
Qed.

Lemma section_document_shape (mark title body trailer : string) :
  "\section" ++ mark ++ "{" ++ title ++ "}" ++ body ++ "\end{document}"
  ++ trailer
  = ("\section" ++ mark ++ "{" ++ title ++ "}" ++ body)
    ++ "\end{document}" ++ trailer.
Proof. repeat rewrite append_assoc_s. reflexivity. Qed.

Lemma end_marker_lacks_section (trailer : string) :
  includes trailer "\section" = false ->
  includes ("\end{document}" ++ trailer) "\section" = false.
Proof. intros H. cbn. exact H. Qed.

Lemma end_marker_lacks_subsection (trailer : string) :
  includes trailer "\subsection" = false ->
  includes ("\end{document}" ++ trailer) "\subsection" = false.
Proof. intros H. cbn. exact H. Qed.

Lemma document_lacks_subsection (pre mark title body trailer : string) :
  mark = EmptyString \/ mark = "*" ->
  includes pre "\subsection" = false ->
  includes title "\subsection" = false ->
  includes body "\subsection" = false ->
  includes trailer "\subsection" = false ->
  includes (section_document pre mark title body trailer) "\subsection"
  = false.
Proof.
  intros Hmark Hpre Htitle Hbody Htrailer. unfold section_document.
  change ("\section" ++ mark ++ "{" ++ title ++ "}" ++ body
          ++ "\end{document}" ++ trailer)
    with (String "\" ("section" ++ mark ++ "{" ++ title ++ "}" ++ body
                      ++ "\end{document}" ++ trailer)).
  rewrite (includes_app_bs "subsection") by (reflexivity || exact Hpre).
  assert (Hrest : includes (title ++ "}" ++ body ++ "\end{document}"
                            ++ trailer) "\subsection" = false).
  { change ("}" ++ body ++ "\end{document}" ++ trailer)
      with (String "}" (body ++ "\end{document}" ++ trailer)).
    rewrite (includes_app_cut "\subsection" "}")
      by (reflexivity || exact Htitle).
    cbn [includes startsWith]. cbn [Ascii.eqb Bool.eqb andb orb].
    change ("\end{document}" ++ trailer)
      with (String "\" ("end{document}" ++ trailer)).
    rewrite (includes_app_bs "subsection") by (reflexivity || exact Hbody).
    apply end_marker_lacks_subsection, Htrailer. }
  destruct Hmark as [-> | ->]; cbn; exact Hrest.
Qed.

Lemma sections_of_document (pre mark title body trailer : string) :
  mark = EmptyString \/ mark = "*" ->
  lacks pre ["\section"; "\subsection"] = true ->
  title <> EmptyString ->
  lacks title ["}"; "\subsection"] = true ->
  lacks body ["\section"; "\subsection"; "\end{document}"] = true ->
  lacks trailer ["\section"; "\subsection"] = true ->
  extractAllSections (section_document pre mark title body trailer)
  = [MkSection title (trim body)].
Proof.
  intros Hmark Hpre Hne Htitle Hbody Htrailer.
  apply lacks_cons in Hpre. destruct Hpre as [Hpre1 Hpre].
  apply lacks_cons in Hpre. destruct Hpre as [Hpre2 _].
  apply lacks_cons in Htitle. destruct Htitle as [Htitle1 Htitle].
  apply lacks_cons in Htitle. destruct Htitle as [Htitle2 _].
  apply lacks_cons in Hbody. destruct Hbody as [Hbody1 Hbody].
  apply lacks_cons in Hbody. destruct Hbody as [Hbody2 Hbody].
  apply lacks_cons in Hbody. destruct Hbody as [Hbody3 _].
  apply lacks_cons in Htrailer. destruct Htrailer as [Htrailer1 Htrailer].
  apply lacks_cons in Htrailer. destruct Htrailer as [Htrailer2 _].
  unfold extractAllSections, exec_all.
  (* no subsection *)
  rewrite (exec_from_no_start "\subsection" subsectionPattern).
  2: { unfold subsectionPattern. apply needs_literal_seqs. discriminate. }
  2: { apply document_lacks_subsection; assumption. }
  (* the section *)
  assert (Hneeds : needs_literal "\section" sectionPattern).
  { unfold sectionPattern. apply needs_literal_seqs. discriminate. }
  unfold section_document.
  destruct (exec_from_pass "\section" sectionPattern
              ("\section" ++ mark ++ "{" ++ title ++ "}" ++ body
               ++ "\end{document}" ++ trailer) Hneeds pre true 0)
    as [start1 [idx1 E1]].
  { apply (no_start_before_bs "section" pre
             ("section" ++ mark ++ "{" ++ title ++ "}" ++ body
              ++ "\end{document}" ++ trailer)); [reflexivity | exact Hpre1]. }
  rewrite E1. rewrite section_document_shape.
  destruct (exec_from_match sectionPattern start1 idx1
              ("\section" ++ mark ++ "{" ++ title ++ "}" ++ body)
              ("\end{document}" ++ trailer) [(2, body); (1, title)] false)
    as [start2 [idx2 E2]].
  { discriminate. }
  { rewrite <- section_document_shape.
    apply section_match; try assumption.
    intros t1 t2 E Hne2. split.
    - apply (no_start_before_bs "section" body ("end{document}" ++ trailer)
               eq_refl Hbody1 t1 t2 E Hne2).
    - apply (no_start_before_bs "end{document}" body
               ("end{document}" ++ trailer) eq_refl Hbody3 t1 t2 E Hne2). }
  rewrite E2.
  rewrite (exec_from_no_start "\section" sectionPattern Hneeds)
    by (apply end_marker_lacks_section, Htrailer1).
  reflexivity.
Qed.

(** *** Trimming around the macro *)

Lemma trimStart_spaces (ws s : string) :
  forallb is_space (list_ascii_of_string ws) = true ->
  trimStart (ws ++ s) = trimStart s.
Proof.
  induction ws as [|c ws IH]; intros H; [reflexivity|].
  cbn [list_ascii_of_string forallb] in H. apply andb_true_iff in H.
  destruct H as [Hc Hws]. cbn [append trimStart]. rewrite Hc.
  apply IH, Hws.
Qed.

Lemma trimEnd_after (a0 : string) (c : ascii) (b : string) :
  is_space c = false ->
  trimEnd ((a0 ++ String c EmptyString) ++ b)
  = (a0 ++ String c EmptyString) ++ trimEnd b.
Proof.
  intros Hc. induction a0 as [|d a0 IH].
  - cbn [append trimEnd]. destruct (trimEnd b); [rewrite Hc|]; reflexivity.
  - cbn [append trimEnd]. cbn [append] in IH. rewrite IH.
    destruct a0; reflexivity.
Qed.

Lemma subheading_ends_with_brace (a1 a2 a3 a4 : string) :
  resumeSubheading a1 a2 a3 a4
  = ("\resumeSubheading{" ++ a1 ++ "}{" ++ a2 ++ "}{" ++ a3 ++ "}{" ++ a4)
    ++ "}".
Proof.
  unfold resumeSubheading. repeat rewrite append_assoc_s. reflexivity.
Qed.

Lemma trim_around_subheading (ws a1 a2 a3 a4 post : string) :
  forallb is_space (list_ascii_of_string ws) = true ->
  trim (ws ++ resumeSubheading a1 a2 a3 a4 ++ post)
  = resumeSubheading a1 a2 a3 a4 ++ trimEnd post.
Proof.
  intros Hws. unfold trim. rewrite (trimStart_spaces ws _ Hws).
  replace (trimStart (resumeSubheading a1 a2 a3 a4 ++ post))
    with (resumeSubheading a1 a2 a3 a4 ++ post) by reflexivity.
  rewrite subheading_ends_with_brace.
  apply trimEnd_after. reflexivity.
Qed.

End SymbolicRuns.

(* ================================================================== *)
(** ** The matcher never moves backwards *)

Section Progress.

Lemma star_loop_monotone (greedy : bool)
  (step : (mstate -> option mstate) -> mstate -> option mstate)
  (k : mstate -> option mstate) :
  monotone step ->
  forall n st x,
    star_loop greedy step k n st = Some x ->
    exists st', k st' = Some x
                /\ String.length (rest st') <= String.length (rest st).
Proof.
  intros Hstep n. induction n as [|n IH]; intros st x H; cbn [star_loop] in H.
  - exists st. split; [exact H | lia].
  - assert (Hmore :
      step (fun st' => if advanced st st'
                       then star_loop greedy step k n st' else None) st
      = Some x ->
      exists st', k st' = Some x
                  /\ String.length (rest st') <= String.length (rest st)).
    { intros Hs. apply Hstep in Hs. destruct Hs as [st1 [H1 L1]].
      destruct (advanced st st1); [|discriminate].
      apply IH in H1. destruct H1 as [st2 [H2 L2]].
      exists st2. split; [exact H2 | lia]. }
    destruct greedy.
    + destruct (step _ st) as [y|] eqn:E.
      * injection H as H. subst y. apply Hmore. reflexivity.
      * exists st. split; [exact H | lia].
    + destruct (k st) as [y|] eqn:E.
      * injection H as H. subst y. exists st. split; [exact E | lia].
      * apply Hmore, H.
Qed.

Lemma mt_monotone (r : re) : monotone (mt r).
Proof.
  induction r as [|p|r1 IH1 r2 IH2|r1 IH1 r2 IH2|g r1 IH1|i r1 IH1|r1 IH1| |];
    intros k st x H.
  - exists st. split; [exact H | lia].
  - destruct st as [a s cs]. destruct s as [|c s]; [discriminate|].
    rewrite mt_chr in H. destruct (p c); [|discriminate].
    eexists. split; [exact H | cbn; lia].
  - rewrite mt_seq in H. apply IH1 in H. destruct H as [st1 [H1 L1]].
    apply IH2 in H1. destruct H1 as [st2 [H2 L2]].
    exists st2. split; [exact H2 | lia].
  - rewrite mt_alt in H. destruct (mt r1 k st) as [y|] eqn:E.
    + injection H as H. subst y. apply IH1, E.
    + apply IH2, H.
  - apply (star_loop_monotone g (mt r1) k IH1 _ _ _ H).
  - rewrite mt_grp in H. apply IH1 in H. destruct H as [st1 [H1 L1]].
    eexists. split; [exact H1 | exact L1].
  - rewrite mt_ahead in H. destruct (mt r1 Some st) as [st1|]; [|discriminate].
    eexists. split; [exact H | cbn; lia].
  - exists st. split; [|lia]. cbn [mt] in H.
    destruct (at0 st); [exact H | discriminate].
  - exists st. split; [|lia]. cbn [mt] in H.
    destruct (rest st); [exact H | discriminate].
Qed.

(** The result of a run depends on the values of the continuation only. *)
Lemma star_loop_ext (greedy : bool)
  (step : (mstate -> option mstate) -> mstate -> option mstate) :
  (forall k1 k2 st, (forall st', k1 st' = k2 st') -> step k1 st = step k2 st) ->
  forall k1 k2,
    (forall st', k1 st' = k2 st') ->
    forall n st, star_loop greedy step k1 n st = star_loop greedy step k2 n st.
Proof.
  intros Hstep k1 k2 Hk n. induction n as [|n IH]; intros st;
    cbn [star_loop]; [apply Hk|].
  rewrite (Hstep
             (fun st' => if advanced st st'
                         then star_loop greedy step k1 n st' else None)
             (fun st' => if advanced st st'
                         then star_loop greedy step k2 n st' else None) st),
    (Hk st); [reflexivity|].
  intros st'. destruct (advanced st st'); [apply IH | reflexivity].
Qed.

Lemma mt_ext (r : re) :
  forall k1 k2 st, (forall st', k1 st' = k2 st') -> mt r k1 st = mt r k2 st.
Proof.
  induction r as [|p|r1 IH1 r2 IH2|r1 IH1 r2 IH2|g r1 IH1|i r1 IH1|r1 IH1| |];
    intros k1 k2 st Hk; cbn [mt]; try (rewrite (Hk st); reflexivity).
  - destruct (rest st); [reflexivity|]. rewrite Hk. reflexivity.
  - apply IH1. intros st'. apply IH2, Hk.
  - rewrite (IH1 k1 k2 st Hk), (IH2 k1 k2 st Hk). reflexivity.
  - apply star_loop_ext; assumption.
  - apply IH1. intros st'. apply Hk.
  - destruct (mt r1 Some st); [apply Hk | reflexivity].
Qed.

(** The bound on the iterations of a star is never the reason to stop:
    beyond the length of the input that is left, more iterations change
    nothing. *)
Lemma star_loop_bound_enough (greedy : bool) (r : re)
  (k : mstate -> option mstate) :
  forall n m st,
    String.length (rest st) <= n ->
    String.length (rest st) <= m ->
    star_loop greedy (mt r) k n st = star_loop greedy (mt r) k m st.
Proof.
  assert (Hzero : forall m st,
             String.length (rest st) = 0 ->
             star_loop greedy (mt r) k m st = k st).
  { intros m st H0. destruct m as [|m]; [reflexivity|]. cbn [star_loop].
    assert (Hnone :
      mt r (fun st' => if advanced st st'
                       then star_loop greedy (mt r) k m st' else None) st
      = None).
    { destruct (mt r _ st) as [x|] eqn:E; [|reflexivity].
      apply mt_monotone in E. destruct E as [st1 [E1 L1]].
      unfold advanced in E1.
      replace (String.length (rest st1) <? String.length (rest st))
        with false in E1; [discriminate|].
      symmetry. apply Nat.ltb_ge. lia. }
    rewrite Hnone. destruct greedy; [reflexivity|].
    destruct (k st); reflexivity. }
  intros n. induction n as [|n IH]; intros m st Hn Hm.
  - rewrite (Hzero m st) by lia. reflexivity.
  - destruct m as [|m].
    + rewrite (Hzero (S n) st) by lia. reflexivity.
    + cbn [star_loop].
      rewrite (mt_ext r
                 (fun st' => if advanced st st'
                             then star_loop greedy (mt r) k n st' else None)
                 (fun st' => if advanced st st'
                             then star_loop greedy (mt r) k m st' else None)
                 st); [reflexivity|].
      intros st'. destruct (advanced st st') eqn:A; [|reflexivity].
      unfold advanced in A. apply Nat.ltb_lt in A. apply IH; lia.
Qed.

(** A literal that is not empty moves forward. *)
Lemma mt_lit_moves (L : string) (k : mstate -> option mstate) (st x : mstate) :
  L <> EmptyString ->
  mt (lit L) k st = Some x ->
  exists st', k st' = Some x
              /\ String.length (rest st') < String.length (rest st).
Proof.
  intros HL H. destruct L as [|c L]; [contradiction|].
  destruct st as [a s cs]. destruct s as [|d s].
  - destruct L; discriminate.
  - destruct L as [|e L].
    + cbn [lit] in H. unfold chr in H. rewrite mt_chr in H.
      destruct (Ascii.eqb c d); [|discriminate].
      eexists. split; [exact H | cbn; lia].
    + change (lit (String c (String e L)))
        with (Seq (chr c) (lit (String e L))) in H.
      rewrite mt_seq in H. unfold chr in H. rewrite mt_chr in H.
      destruct (Ascii.eqb c d); [|discriminate].
      apply mt_monotone in H. destruct H as [st1 [H1 L1]].
      exists st1. split; [exact H1 | cbn in *; lia].
Qed.

Lemma never_empty_seqs (L : string) (rs : list re) :
  L <> EmptyString -> never_empty (seqs (lit L :: rs)).
Proof.
  intros HL start s st' H. unfold match_here in H.
  destruct rs as [|r rs].
  - cbn [seqs] in H. apply (mt_lit_moves L) in H; [|exact HL].
    destruct H as [st1 [H1 L1]]. injection H1 as H1. subst st1. exact L1.
  - change (seqs (lit L :: r :: rs)) with (Seq (lit L) (seqs (r :: rs))) in H.
    rewrite mt_seq in H. apply (mt_lit_moves L) in H; [|exact HL].
    destruct H as [st1 [H1 L1]]. apply mt_monotone in H1.
    destruct H1 as [st2 [H2 L2]]. injection H2 as H2. subst st2.
    cbn [rest] in *. lia.
Qed.

(** No pattern of an [exec] loop matches the empty string, so every loop
    of the parser moves [lastIndex] forward and ends. *)
Lemma loop_patterns_never_empty : Forall never_empty loop_patterns.
Proof.
  unfold loop_patterns, experience_patterns, education_patterns.
  cbn [app].
  repeat (apply Forall_cons || apply Forall_nil);
    apply never_empty_seqs; discriminate.
Qed.

End Progress.

(* ================================================================== *)
(** ** The renderer only adds operations *)

Section RendererFacts.

Context {lib : PdfLib}.

Lemma appends_skip : appends (fun p => p).
Proof. intros p. exists []. symmetry. apply app_nil_r. Qed.

Lemma appends_setFontSize (n : nat) : appends (setFontSize n).
Proof. intros p. exists []. symmetry. apply app_nil_r. Qed.

Lemma appends_setFont (style : string) : appends (setFont style).
Proof. intros p. exists []. symmetry. apply app_nil_r. Qed.

Lemma appends_down (n : nat) : appends (down n).
Proof. intros p. exists []. symmetry. apply app_nil_r. Qed.

Lemma appends_text (s : string) : appends (text s).
Proof. intros p. eexists. reflexivity. Qed.

Lemma appends_steps (ss : list step) : Forall appends ss -> appends (steps ss).
Proof.
  unfold steps. induction 1 as [|s ss Hs _ IH]; intros p; cbn [fold_left].
  - exists []. symmetry. apply app_nil_r.
  - destruct (Hs p) as [l1 H1]. destruct (IH (s p)) as [l2 H2].
    exists (l1 ++ l2)%list. rewrite H2, H1. symmetry. apply app_assoc.
Qed.

Lemma steps_cons (s : step) (ss : list step) (p : Pen) :
  steps (s :: ss) p = steps ss (s p).
Proof. reflexivity. Qed.

Lemma appends_when (b : bool) (s : step) : appends s -> appends (when b s).
Proof. intros H. destruct b; [exact H | apply appends_skip]. Qed.

Lemma appends_each {A : Type} (xs : list A) (f : A -> step) :
  (forall x, appends (f x)) -> appends (each xs f).
Proof.
  intros H. unfold each. apply appends_steps.
  induction xs; constructor; auto.
Qed.

Lemma appends_wrapped (s : string) (f : list string -> step) :
  (forall ls, appends (f ls)) -> appends (wrapped s f).
Proof. intros H p. unfold wrapped. apply H. Qed.

Lemma appends_if (b : Pen -> bool) (s1 s2 : step) :
  appends s1 -> appends s2 -> appends (fun p => if b p then s1 p else s2 p).
Proof. intros H1 H2 p. destruct (b p); [apply H1 | apply H2]. Qed.

Ltac appends_tac :=
  repeat first
    [ apply appends_setFontSize | apply appends_setFont | apply appends_down
    | apply appends_text | apply appends_skip
    | apply appends_when | apply appends_wrapped; intros ?
    | apply appends_each; intros ?
    | apply appends_steps
    | apply Forall_cons | apply Forall_nil ].

Lemma appends_heading (s : string) : appends (heading s).
Proof. unfold heading. appends_tac. Qed.

Lemma appends_paragraph (s : string) : appends (paragraph s).
Proof. unfold paragraph. appends_tac. Qed.

Lemma appends_render_experience (exp : Experience) :
  appends (render_experience exp).
Proof. unfold render_experience. appends_tac. Qed.

Lemma appends_render_education (edu : Education) :
  appends (render_education edu).
Proof. unfold render_education. cbv zeta. appends_tac. Qed.

Lemma appends_render_skill (skill : Skill) : appends (render_skill skill).
Proof. unfold render_skill. appends_tac. Qed.

Lemma appends_render_project (project : Project) :
  appends (render_project project).
Proof. unfold render_project. appends_tac. Qed.

Lemma appends_render_raw (section : Section_) : appends (render_raw section).
Proof.
  unfold render_raw. cbv zeta.
  match goal with |- appends (if ?c then _ else _) => destruct c end.
  - apply appends_skip.
  - apply (appends_if (fun p => 250 <? yPos p)); [apply appends_skip|].
    appends_tac.
Qed.

(** The first operation of every rendered document is the header: the
    extracted name, or the placeholder when the name is empty, in bold 20
    point type at (20, 20). *)
Lemma draw_starts_with_header (sections : Sections) :
  exists others,
    ops (draw sections new_doc) = header_op (sec_name sections) :: others.
Proof.
  unfold draw. do 4 rewrite steps_cons.
  match goal with
  | |- context [steps ?ss ?p] =>
      assert (H : appends (steps ss)); [|destruct (H p) as [l Hl]]
  end.
  - apply appends_steps.
    repeat (apply Forall_cons || apply Forall_nil).
    all: try (appends_tac; fail).
    all: try (apply appends_when;
              apply (appends_if (fun p => yPos p <? 250));
              appends_tac; fail).
    apply appends_each. intros section. apply appends_render_raw.
  - exists l. rewrite Hl. reflexivity.
Qed.

Lemma header_text_not_empty (name : string) :
  op_text (header_op name) <> EmptyString.
Proof. destruct name; cbn; discriminate. Qed.

End RendererFacts.

(* ================================================================== *)
(** ** Lines *)

Section LineFacts.

Lemma split_one_line (c : string) :
  includes c nl = false -> lines_of c = [c].
Proof.
  unfold lines_of. induction c as [|a c IH]; intros H; [reflexivity|].
  apply includes_cons_false in H. destruct H as [H1 H2].
  cbn [split]. destruct (Ascii.eqb a (ascii_of_nat 10)) eqn:E.
  - apply Ascii.eqb_eq in E. subst a. cbn in H1. discriminate.
  - rewrite (IH H2). reflexivity.
Qed.

Lemma split_first_line (l tl : string) :
  includes l nl = false ->
  lines_of (l ++ nl ++ tl) = l :: lines_of tl.
Proof.
  unfold lines_of. induction l as [|a l IH]; intros H; [reflexivity|].
  apply includes_cons_false in H. destruct H as [H1 H2].
  cbn [append split]. destruct (Ascii.eqb a (ascii_of_nat 10)) eqn:E.
  - apply Ascii.eqb_eq in E. subst a. cbn in H1. discriminate.
  - cbn [append] in IH. rewrite (IH H2). reflexivity.
Qed.

Lemma lines_of_three_lines (third : string) :
  includes third nl = false ->
  lines_of (three_lines third)
  = ["Software Engineer"; "2021-2023"; third].
Proof.
  intros H. unfold three_lines.
  rewrite split_first_line by reflexivity.
  rewrite split_first_line by reflexivity.
  rewrite (split_one_line third H). reflexivity.
Qed.

End LineFacts.

(* ================================================================== *)
(** ** Facts on the parser *)

Section ParserFacts.

Lemma categorize_keeps_name (sections : Sections) (section : Section_) :
  sec_name (categorize sections section) = sec_name sections.
Proof.
  destruct sections. unfold categorize. cbv zeta.
  repeat match goal with
         | |- context [if ?c then _ else _] => destruct c
         end; reflexivity.
Qed.

Lemma parse_name (latex : string) :
  sec_name (parseLatexContent latex) = extractName latex.
Proof.
  assert (G : forall l s, sec_name (fold_left categorize l s) = sec_name s).
  { induction l as [|x l IH]; intros s; cbn [fold_left]; [reflexivity|].
    rewrite IH. apply categorize_keeps_name. }
  unfold parseLatexContent. cbv zeta. rewrite G. reflexivity.
Qed.

(** When no pattern yields a non-blank name, no large-text group stands in
    a center environment, no centerline holds two capitalised words and
    none of the first fifteen lines starts with two capitalised words,
    [extractName] returns the placeholder. *)
Lemma extractName_placeholder (latex : string) :
  first_nonblank name_patterns latex = None ->
  (forall centerMatch,
      search center_env latex = Some centerMatch ->
      search name_in_center (group_str centerMatch 1) = None) ->
  search centerline_name latex = None ->
  name_from_lines (firstn 15 (lines_of latex)) = None ->
  extractName latex = "Resume Preview".
Proof.
  intros H1 H2 H3 H4. unfold extractName. rewrite H1.
  destruct (search center_env latex) as [centerMatch|] eqn:E.
  - rewrite (H2 centerMatch eq_refl), H3.
    unfold lines_of in H4. rewrite H4. reflexivity.
  - rewrite H3. unfold lines_of in H4. rewrite H4. reflexivity.
Qed.

(** The header of the fallback document is the extracted name, or the
    placeholder when that name is empty; its text is never empty. *)
Lemma rendered_header (lib : PdfLib) (latex : string) :
  exists others,
    ops (draw (parseLatexContent latex) new_doc)
    = header_op (extractName latex) :: others
    /\ op_text (header_op (extractName latex)) <> EmptyString.
Proof.
  destruct (draw_starts_with_header (parseLatexContent latex)) as [l Hl].
  exists l. rewrite Hl, parse_name. split; [reflexivity|].
  apply header_text_not_empty.
Qed.

(** A section that the classifier does not take for experience leaves the
    experience list as it is; one that it takes replaces the list. *)
Lemma categorize_other (sections : Sections) (section : Section_) :
  classified_experience (title section) = false ->
  experience (categorize sections section) = experience sections.
Proof.
  intros H. destruct sections. unfold categorize.
  unfold classified_experience in H. cbv zeta in *.
  destruct (has (toLowerCase (title section)) "summary"
            || has (toLowerCase (title section)) "objective"
            || has (toLowerCase (title section)) "profile");
    [reflexivity|].
  cbn [negb andb] in H. rewrite H.
  repeat match goal with
         | |- context [if ?c then _ else _] => destruct c
         end; reflexivity.
Qed.

Lemma categorize_experience (sections : Sections) (section : Section_) :
  classified_experience (title section) = true ->
  experience (categorize sections section)
  = parseExperienceSection (content section).
Proof.
  intros H. destruct sections. unfold categorize.
  unfold classified_experience in H. cbv zeta in *.
  apply andb_true_iff in H. destruct H as [Ha Hb].
  apply negb_true_iff in Ha. rewrite Ha, Hb. reflexivity.
Qed.

Lemma fold_categorize_others (after : list Section_) :
  forallb (fun s => negb (classified_experience (title s))) after = true ->
  forall sections,
    experience (fold_left categorize after sections) = experience sections.
Proof.
  induction after as [|s after IH]; intros H sections; [reflexivity|].
  cbn [forallb] in H. apply andb_true_iff in H. destruct H as [Hs Hafter].
  cbn [fold_left]. rewrite (IH Hafter). apply categorize_other.
  apply negb_true_iff, Hs.
Qed.

(** The experience list of the parser is the parse of the last section
    that the classifier takes for experience. *)
Lemma experience_of_last_section (latex : string)
  (before after : list Section_) (section : Section_) :
  extractAllSections latex = (before ++ section :: after)%list ->
  classified_experience (title section) = true ->
  forallb (fun s => negb (classified_experience (title s))) after = true ->
  experience (parseLatexContent latex)
  = parseExperienceSection (content section).
Proof.
  intros Hall Hclass Hafter. unfold parseLatexContent. cbv zeta.
  rewrite Hall, fold_left_app. cbn [fold_left].
  rewrite (fold_categorize_others after Hafter).
  apply categorize_experience, Hclass.
Qed.

(** A document with one section: text before it without [\section] and
    [\subsection], a heading [\section{title}] or [\section*{title}] that
    the classifier takes for experience, a body that starts, after white
    space, with the macro, then [\end{document}]. *)
Lemma experience_of_one_section_document
  (pre mark heading ws a1 a2 a3 a4 post trailer : string) :
  let body := ws ++ resumeSubheading a1 a2 a3 a4 ++ post in
  mark = EmptyString \/ mark = "*" ->
  lacks pre ["\section"; "\subsection"] = true ->
  heading <> EmptyString ->
  lacks heading ["}"; "\subsection"] = true ->
  classified_experience heading = true ->
  forallb is_space (list_ascii_of_string ws) = true ->
  lacks a1 ["}"] = true -> lacks a2 ["}"] = true ->
  lacks a3 ["}"] = true -> lacks a4 ["}"] = true ->
  lacks body ["\section"; "\subsection"; "\end{document}"] = true ->
  lacks trailer ["\section"; "\subsection"] = true ->
  hd_error (experience (parseLatexContent
                          (section_document pre mark heading body trailer)))
  = Some (MkExperience (Some a1) (Some a2) (Some a3) (Some a4) None).
Proof.
  intros body Hmark Hpre Hne Htitle Hclass Hws H1 H2 H3 H4 Hbody Htrailer.
  rewrite (experience_of_last_section _ [] []
             (MkSection heading (trim body))); [| |exact Hclass|reflexivity].
  - cbn [content]. subst body.
    rewrite (trim_around_subheading ws a1 a2 a3 a4 post Hws).
    apply lacks_cons in H1. apply lacks_cons in H2.
    apply lacks_cons in H3. apply lacks_cons in H4.
    destruct (parse_subheading_first EmptyString a1 a2 a3 a4 (trimEnd post)
                eq_refl (proj1 H1) (proj1 H2) (proj1 H3) (proj1 H4))
      as [others E].
    cbn [append] in E. rewrite E. reflexivity.
  - apply sections_of_document; assumption.
Qed.

End ParserFacts.

(* ================================================================== *)
(** ** The remote client *)

Section ClientFacts.

Lemma accept_pdf_some (o : outcome) (pdf : bytes) :
  accept_pdf o = Some pdf ->
  exists r, o = Resolved r /\ ok r = true /\ says_pdf r = true
            /\ above_floor (body r) = true /\ body r = pdf.
Proof.
  destruct o as [|r]; cbn [accept_pdf]; [discriminate|].
  destruct (ok r) eqn:E1; cbn [andb]; [|discriminate].
  destruct (says_pdf r) eqn:E2; cbn [andb]; [|discriminate].
  destruct (above_floor (body r)) eqn:E3; [|discriminate].
  intros H. injection H as H. exists r. auto.
Qed.

Lemma accept_alt_some (o : outcome) (pdf : bytes) :
  accept_alt o = Some pdf ->
  exists r, o = Resolved r /\ ok r = true
            /\ above_floor (body r) = true /\ body r = pdf.
Proof.
  destruct o as [|r]; cbn [accept_alt]; [discriminate|].
  destruct (ok r) eqn:E1; cbn [andb]; [|discriminate].
  destruct (above_floor (body r)) eqn:E3; [|discriminate].
  intros H. injection H as H. exists r. auto.
Qed.

(** The two-method client of [route.ts] keeps the contract: status,
    content type and floor. *)
Lemma route_client_checks_type_and_floor
  (e : env) (s : string) (log : list request) (pdf : bytes) :
  fst (RouteTs.tryLatexOnline e s log) = Some pdf ->
  accepted_from e true pdf.
Proof.
  unfold RouteTs.tryLatexOnline, encodeURIComponent, bind, fetch, ret. cbn [fst].
  destruct (accept_pdf (respond e log (direct_request s))) as [b|] eqn:E1;
    cbn [fst]; intros H.
  - injection H as H. subst b. apply accept_pdf_some in E1.
    destruct E1 as [r [Hr [H1 [H2 [H3 H4]]]]].
    exists log, (direct_request s), r. auto.
  - apply accept_pdf_some in H. destruct H as [r [Hr [H1 [H2 [H3 H4]]]]].
    eexists _, _, r. split; [exact Hr|]. auto.
Qed.

(** The five-method client keeps the status and the floor. *)
Lemma client_checks_status_and_floor
  (e : env) (s : string) (log : list request) (pdf : bytes) :
  fst (tryLatexOnline e s log) = Some pdf ->
  accepted_from e false pdf.
Proof.
  assert (Hp : forall l rq b, accept_pdf (respond e l rq) = Some b ->
                              accepted_from e false b).
  { intros l rq b H. apply accept_pdf_some in H.
    destruct H as [r [Hr [H1 [H2 [H3 H4]]]]].
    exists l, rq, r. repeat split; auto; discriminate. }
  assert (Ha : forall l rq b, accept_alt (respond e l rq) = Some b ->
                              accepted_from e false b).
  { intros l rq b H. apply accept_alt_some in H.
    destruct H as [r [Hr [H1 [H3 H4]]]].
    exists l, rq, r. repeat split; auto; discriminate. }
  unfold tryLatexOnline, encodeURIComponent, bind, fetch, ret. cbn [fst].
  destruct (accept_pdf (respond e log (direct_request s))) as [b|] eqn:E1;
    cbn [fst].
  { intros H. injection H as H. subst b. eapply Hp, E1. }
  destruct (respond e (log ++ [direct_request s])
              (post_request s "pdflatex")) as [|r2] eqn:R2;
    cbn [fst]; [discriminate|].
  destruct (accept_pdf (Resolved r2)) as [b|] eqn:E2; cbn [fst].
  { intros H. injection H as H. subst b. rewrite <- R2 in E2.
    eapply Hp, E2. }
  match goal with
  | |- context [accept_pdf (respond e ?l ?rq)] =>
      destruct (accept_pdf (respond e l rq)) as [b|] eqn:E3; cbn [fst]
  end.
  { intros H. injection H as H. subst b. eapply Hp, E3. }
  match goal with
  | |- context [accept_alt (respond e ?l ?rq)] =>
      destruct (accept_alt (respond e l rq)) as [b|] eqn:E4; cbn [fst]
  end.
  { intros H. injection H as H. subst b. eapply Ha, E4. }
  intros H. eapply Hp, H.
Qed.

Lemma accept_pdf_weaker (o : outcome) :
  accept_alt o = None -> accept_pdf o = None.
Proof.
  destruct o as [|r]; [reflexivity|]. cbn [accept_alt accept_pdf].
  destruct (ok r); [|reflexivity]. cbn [andb].
  destruct (above_floor (body r)); [discriminate|].
  rewrite andb_false_r. reflexivity.
Qed.

(** When every response is a rejection, has a status out of the 2xx range
    or has at most 1000 bytes, both clients return null. *)
Lemma client_null_when_nothing_passes (e : env) :
  (forall l rq, accept_alt (respond e l rq) = None) ->
  forall s l,
    fst (tryLatexOnline e s l) = None
    /\ fst (RouteTs.tryLatexOnline e s l) = None.
Proof.
  intros H s l.
  assert (Hp : forall l rq, accept_pdf (respond e l rq) = None)
    by (intros; apply accept_pdf_weaker, H).
  split.
  - unfold tryLatexOnline, encodeURIComponent, bind, fetch, ret. rewrite Hp.
    destruct (respond e (l ++ [direct_request s])
                (post_request s "pdflatex")) as [|r2] eqn:R2;
      [reflexivity|].
    rewrite <- R2, !Hp, H, Hp. reflexivity.
  - unfold RouteTs.tryLatexOnline, encodeURIComponent, bind, fetch, ret. rewrite !Hp.
    reflexivity.
Qed.

(** A timer that fires first makes the raced attempt null. *)
Lemma race_null_on_timeout (e : env) (ms : N) (A : Type)
  (attempt : M (option A)) (l : list request) :
  timer_first e ms l = true -> fst (race e ms attempt l) = None.
Proof.
  intros H. unfold race. destruct (attempt l). rewrite H. reflexivity.
Qed.

End ClientFacts.

(* ================================================================== *)
(** ** The attempts that fail *)

Section FallbackFacts.

Variable e : env.







End FallbackFacts.

(* ================================================================== *)
(** ** A section body of structured entries *)

Section SubheadingFacts.




End SubheadingFacts.

(* ================================================================== *)
(** ** The words of a pattern and the texts that the rules leave in place *)

Section WordFacts.

Lemma star_loop_words (greedy : bool)
  (step : (mstate -> option mstate) -> mstate -> option mstate)
  (k : mstate -> option mstate) (L : string -> Prop) :
  (forall k' st x,
      step k' st = Some x ->
      exists w st', L w /\ rest st = w ++ rest st' /\ k' st' = Some x) ->
  forall n st x,
    star_loop greedy step k n st = Some x ->
    exists w st',
      iterated L w /\ rest st = w ++ rest st' /\ k st' = Some x.
Proof.
  intros Hstep n. induction n as [|n IH]; intros st x H; cbn [star_loop] in H.
  - exists EmptyString, st. split; [constructor|]. split; [reflexivity|exact H].
  - assert (Hstop : k st = Some x ->
                    exists w st',
                      iterated L w /\ rest st = w ++ rest st'
                      /\ k st' = Some x).
    { intros Hk. exists EmptyString, st. split; [constructor|].
      split; [reflexivity | exact Hk]. }
    assert (Hmore :
      step (fun st' => if advanced st st'
                       then star_loop greedy step k n st' else None) st
      = Some x ->
      exists w st',
        iterated L w /\ rest st = w ++ rest st' /\ k st' = Some x).
    { intros Hs. apply Hstep in Hs. destruct Hs as [w1 [st1 [L1 [E1 H1]]]].
      destruct (advanced st st1); [|discriminate].
      apply IH in H1. destruct H1 as [w2 [st2 [L2 [E2 H2]]]].
      exists (w1 ++ w2), st2. split; [constructor; assumption|].
      split; [|exact H2]. rewrite E1, E2. symmetry. apply append_assoc_s. }
    destruct greedy.
    + destruct (step _ st) as [y|] eqn:E.
      * injection H as H. subst y. apply Hmore. reflexivity.
      * apply Hstop, H.
    + destruct (k st) as [y|] eqn:E.
      * injection H as H. subst y. apply Hstop. reflexivity.
      * apply Hmore, H.
Qed.

(** What a run of the matcher consumes is a word of the pattern. *)
Lemma mt_words (r : re) :
  forall k st x,
    mt r k st = Some x ->
    exists w st', words_of r w /\ rest st = w ++ rest st' /\ k st' = Some x.
Proof.
  induction r as [|p|r1 IH1 r2 IH2|r1 IH1 r2 IH2|g r1 IH1|i r1 IH1|r1 IH1| |];
    intros k st x H.
  - exists EmptyString, st. split; [reflexivity|].
    split; [reflexivity | exact H].
  - destruct st as [a s cs]. destruct s as [|c s]; [discriminate|].
    rewrite mt_chr in H. destruct (p c) eqn:E; [|discriminate].
    exists (String c EmptyString), (MState false s cs).
    split; [exists c; split; [reflexivity | exact E]|].
    split; [reflexivity | exact H].
  - rewrite mt_seq in H. apply IH1 in H.
    destruct H as [w1 [st1 [L1 [E1 H1]]]]. apply IH2 in H1.
    destruct H1 as [w2 [st2 [L2 [E2 H2]]]].
    exists (w1 ++ w2), st2. split; [exists w1, w2; auto|].
    split; [|exact H2]. rewrite E1, E2. symmetry. apply append_assoc_s.
  - rewrite mt_alt in H. destruct (mt r1 k st) as [y|] eqn:E.
    + injection H as H. subst y. apply IH1 in E.
      destruct E as [w [st1 [L1 [E1 H1]]]]. exists w, st1.
      split; [left; exact L1|]. split; assumption.
    + apply IH2 in H. destruct H as [w [st1 [L1 [E1 H1]]]]. exists w, st1.
      split; [right; exact L1|]. split; assumption.
  - apply (star_loop_words g (mt r1) k (words_of r1) IH1 _ _ _ H).
  - rewrite mt_grp in H. apply IH1 in H.
    destruct H as [w [st1 [L1 [E1 H1]]]]. eexists w, _.
    split; [exact L1|]. split; [|exact H1]. exact E1.
  - rewrite mt_ahead in H. destruct (mt r1 Some st) as [st1|]; [|discriminate].
    eexists EmptyString, _. split; [reflexivity|]. split; [|exact H].
    reflexivity.
  - exists EmptyString, st. split; [reflexivity|]. split; [reflexivity|].
    cbn [mt] in H. destruct (at0 st); [exact H | discriminate].
  - exists EmptyString, st. split; [reflexivity|]. split; [reflexivity|].
    cbn [mt] in H. destruct (rest st); [exact H | discriminate].
Qed.

Lemma match_here_words (r : re) (start : bool) (s : string) (st' : mstate) :
  match_here r start s = Some st' ->
  exists w, words_of r w /\ s = w ++ rest st'.
Proof.
  unfold match_here. intros H. apply mt_words in H.
  destruct H as [w [st1 [L1 [E1 H1]]]]. injection H1 as H1. subst st1.
  exists w. split; [exact L1 | exact E1].
Qed.

Lemma words_lit (L w : string) : words_of (lit L) w -> w = L.
Proof.
  revert w. induction L as [|c L IH]; intros w H; [exact H|].
  destruct L as [|e L].
  - destruct H as [c' [E H]]. apply Ascii.eqb_eq in H. subst. reflexivity.
  - change (lit (String c (String e L)))
      with (Seq (chr c) (lit (String e L))) in H.
    destruct H as [w1 [w2 [E [[c' [E1 H1]] H2]]]].
    apply Ascii.eqb_eq in H1. apply IH in H2. subst. reflexivity.
Qed.

Lemma words_class_run (greedy : bool) (p : ascii -> bool) (w : string) :
  words_of (Star greedy (Chr p)) w ->
  forallb p (list_ascii_of_string w) = true.
Proof.
  cbn [words_of]. intros H. induction H as [|w1 w2 [c [E Hc]] _ IH];
    [reflexivity|].
  subst w1. cbn [append list_ascii_of_string forallb]. rewrite Hc, IH.
  reflexivity.
Qed.

(** The words of a rule with one argument: the head, an argument without a
    closing brace, and the brace. *)
Lemma words_head_run (L w : string) :
  words_of (seqs [lit L; star not_close; lit "}"]) w ->
  exists x,
    w = L ++ x ++ "}"
    /\ forallb (none_of "}") (list_ascii_of_string x) = true.
Proof.
  change (seqs [lit L; star not_close; lit "}"])
    with (Seq (lit L) (Seq (star not_close) (lit "}"))).
  intros [w1 [w2 [E [H1 [w3 [w4 [E2 [H3 H4]]]]]]]].
  apply words_lit in H1. apply (words_lit "}") in H4.
  apply words_class_run in H3. subst. exists w3. split; [reflexivity|].
  exact H3.
Qed.

End WordFacts.

Section BraceFacts.

Lemma brace_depth_app (u v : string) :
  forall d, brace_depth d (u ++ v) = brace_depth (brace_depth d u) v.
Proof.
  induction u as [|c u IH]; intros d; [reflexivity|].
  cbn [append brace_depth]. apply IH.
Qed.

Lemma guarded_app (u v : string) :
  forall d,
    guarded d (u ++ v) = guarded d u && guarded (brace_depth d u) v.
Proof.
  induction u as [|c u IH]; intros d; [reflexivity|].
  cbn [append guarded brace_depth]. destruct (separator c) eqn:E.
  - rewrite IH, andb_assoc.
    replace (brace_step d c) with d; [reflexivity|].
    unfold brace_step. unfold separator in E.
    apply negb_true_iff, orb_false_iff in E. destruct E as [_ E].
    cbn [one_of] in E. apply orb_false_iff in E. destruct E as [_ E].
    apply orb_false_iff in E. destruct E as [E1 E].
    apply orb_false_iff in E. destruct E as [E2 _].
    rewrite Ascii.eqb_sym, E1, Ascii.eqb_sym, E2. reflexivity.
  - apply IH.
Qed.

Lemma separator_step (c : ascii) (d : nat) :
  separator c = true -> brace_step d c = d.
Proof.
  intros E. unfold brace_step. unfold separator in E.
  apply negb_true_iff, orb_false_iff in E. destruct E as [_ E].
  cbn [one_of] in E. apply orb_false_iff in E. destruct E as [_ E].
  apply orb_false_iff in E. destruct E as [E1 E].
  apply orb_false_iff in E. destruct E as [E2 _].
  rewrite Ascii.eqb_sym, E1, Ascii.eqb_sym, E2. reflexivity.
Qed.

Lemma brace_step_mono (c : ascii) (d d' : nat) :
  d <= d' -> brace_step d c <= brace_step d' c.
Proof.
  intros H. unfold brace_step.
  destruct (Ascii.eqb c "{"); [lia|]. destruct (Ascii.eqb c "}"); lia.
Qed.

Lemma brace_depth_mono (s : string) :
  forall d d', d <= d' -> brace_depth d s <= brace_depth d' s.
Proof.
  induction s as [|c s IH]; intros d d' H; [exact H|].
  cbn [brace_depth]. apply IH, brace_step_mono, H.
Qed.

Lemma guarded_mono (s : string) :
  forall d d', d <= d' -> guarded d s = true -> guarded d' s = true.
Proof.
  induction s as [|c s IH]; intros d d' H G; [reflexivity|].
  cbn [guarded] in *. destruct (separator c).
  - apply andb_true_iff in G. destruct G as [G1 G2].
    apply Nat.leb_le in G1. apply andb_true_iff. split.
    + apply Nat.leb_le. lia.
    + apply (IH d d' H G2).
  - apply (IH _ _ (brace_step_mono c d d' H) G).
Qed.

(** A text without a closing brace closes no group, and inside a group
    its separators are guarded. *)
Lemma open_run (x : string) :
  forallb (none_of "}") (list_ascii_of_string x) = true ->
  forall d, d <= brace_depth d x /\ (1 <= d -> guarded d x = true).
Proof.
  induction x as [|c x IH]; intros H d.
  - split; [apply Nat.le_refl | reflexivity].
  - cbn [list_ascii_of_string forallb] in H. apply andb_true_iff in H.
    destruct H as [Hc Hx]. cbn [brace_depth guarded].
    assert (Hstep : d <= brace_step d c).
    { unfold brace_step. destruct (Ascii.eqb c "{"); [lia|].
      unfold none_of in Hc. cbn [one_of] in Hc.
      rewrite orb_false_r, Ascii.eqb_sym in Hc.
      apply negb_true_iff in Hc. rewrite Hc. lia. }
    destruct (IH Hx (brace_step d c)) as [I1 I2]. split; [lia|].
    intros Hd. destruct (separator c) eqn:E.
    + rewrite (separator_step c d E) in I2.
      apply andb_true_iff. split; [apply Nat.leb_le, Hd | apply I2, Hd].
    + apply I2. lia.
Qed.

(** A text that ends with a separator and continues inside a guarded text
    ends inside a brace group. *)
Lemma guarded_covers (w : string) :
  forall a g d,
    g <= d ->
    after_separator a = true ->
    guarded g (a ++ w) = true ->
    1 <= brace_depth d a.
Proof.
  induction a as [|c a IH]; intros g d H Ha G; [discriminate|].
  destruct a as [|e a].
  - cbn [after_separator] in Ha. cbn [append guarded] in G. rewrite Ha in G.
    apply andb_true_iff in G. destruct G as [G _]. apply Nat.leb_le in G.
    cbn [brace_depth]. rewrite (separator_step c d Ha). lia.
  - change (after_separator (String c (String e a)))
      with (after_separator (String e a)) in Ha.
    change (String c (String e a) ++ w) with (String c (String e a ++ w)) in G.
    cbn [guarded] in G. cbn [brace_depth].
    destruct (separator c) eqn:E.
    + apply andb_true_iff in G. destruct G as [_ G].
      rewrite (separator_step c d E). apply (IH g d H Ha G).
    + apply (IH _ _ (brace_step_mono c g d H) Ha G).
Qed.

Lemma after_separator_app (u v : string) :
  after_separator v = true -> after_separator (u ++ v) = true.
Proof.
  intros H. induction u as [|c u IH]; [exact H|].
  cbn [append]. destruct (u ++ v) eqn:E; [cbn in IH; discriminate|].
  exact IH.
Qed.

Lemma after_separator_tail (u v : string) :
  v <> EmptyString ->
  after_separator (u ++ v) = true -> after_separator v = true.
Proof.
  intros Hv. induction u as [|c u IH]; intros H; [exact H|].
  apply IH. cbn [append] in H. destruct (u ++ v) eqn:E; [|exact H].
  destruct u; [cbn in E; contradiction | discriminate].
Qed.

End BraceFacts.

Section ShapeFacts.

Lemma rises_app (i j o : nat) (u v : string) :
  rises i j u -> rises j o v -> rises i o (u ++ v).
Proof.
  intros Hu Hv d Hd. destruct (Hu d Hd) as [G1 D1].
  destruct (Hv (brace_depth d u)) as [G2 D2]; [lia|].
  rewrite guarded_app, brace_depth_app, G1, G2. split; [reflexivity | lia].
Qed.

Lemma rises_run (x : string) :
  forallb (none_of "}") (list_ascii_of_string x) = true -> rises 1 1 x.
Proof.
  intros H d Hd. destruct (open_run x H d) as [D G].
  split; [apply G, Hd | lia].
Qed.

Lemma rises_close : rises 1 0 "}".
Proof. intros d Hd. split; [reflexivity | cbn; lia]. Qed.

Lemma shaped_of_rises (w : string) :
  (exists w', w = String "\" w') -> rises 0 0 w -> shaped w.
Proof.
  intros Hw H. split; [exact Hw|]. split.
  - apply (H 0), Nat.le_refl.
  - intros d. destruct (H d) as [_ D]; lia.
Qed.

(** The matches of a rule whose pattern is a literal. *)
Lemma tame_literal (L t : string) :
  (exists w', L = String "\" w') ->
  rises 0 0 L ->
  (forall d, brace_depth d t <= d) ->
  tame (lit L, t).
Proof.
  intros HL HR Ht. split; [|exact Ht]. cbn [fst]. intros w Hw.
  apply words_lit in Hw. subst w. apply shaped_of_rises; assumption.
Qed.

(** The matches of a rule with one argument. *)
Lemma tame_head_run (L t : string) :
  (exists w', L = String "\" w') ->
  rises 0 1 L ->
  (forall d, brace_depth d t <= d) ->
  tame (seqs [lit L; star not_close; lit "}"], t).
Proof.
  intros [L' HL] HR Ht. split; [|exact Ht]. cbn [fst]. intros w Hw.
  apply words_head_run in Hw. destruct Hw as [x [E Hx]]. subst w.
  apply shaped_of_rises.
  - subst L. eexists. reflexivity.
  - apply (rises_app 0 1 0); [exact HR|].
    apply (rises_app 1 1 0); [apply rises_run, Hx | apply rises_close].
Qed.

Lemma simplify_rules_tame : Forall tame simplify_rules.
Proof.
  unfold simplify_rules.
  repeat (apply Forall_cons || apply Forall_nil);
    (apply tame_literal || apply tame_head_run);
    try (eexists; reflexivity);
    try (intros d Hd; split; [reflexivity | cbn; lia]);
    intros d; cbn; lia.
Qed.

Lemma route_rules_tame : Forall tame RouteTs.simplify_rules.
Proof.
  unfold RouteTs.simplify_rules.
  apply Forall_cons.
  { split; [|intros d; cbn; lia]. cbn [fst].
    change (seqs [lit "\usepackage{fontawesome"; opt (chr "5"); lit "}"])
      with (Seq (lit "\usepackage{fontawesome")
                (Seq (Alt (chr "5") Eps) (lit "}"))).
    intros w [w1 [w2 [E [H1 [w3 [w4 [E2 [H3 H4]]]]]]]].
    apply words_lit in H1. apply (words_lit "}") in H4. subst.
    apply shaped_of_rises; [eexists; reflexivity|].
    destruct H3 as [[c [E H3]] | H3].
    - apply Ascii.eqb_eq in H3. subst.
      intros d Hd. split; [reflexivity | cbn; lia].
    - cbn [words_of] in H3. subst.
      intros d Hd. split; [reflexivity | cbn; lia]. }
  do 6 (apply Forall_cons;
        [apply tame_literal;
         [eexists; reflexivity
         | intros d Hd; split; [reflexivity | cbn; lia]
         | intros d; cbn; lia]|]).
  apply Forall_cons; [|apply Forall_nil].
  split; [|intros d; cbn; lia]. cbn [fst].
  change (seqs [lit "\addtolength{"; star not_close; lit "}{";
                star not_close; lit "}"])
    with (Seq (lit "\addtolength{")
              (Seq (star not_close)
                   (Seq (lit "}{") (Seq (star not_close) (lit "}"))))).
  intros w [w1 [w2 [E1 [H1 [w3 [w4 [E2 [H2 [w5 [w6 [E3 [H3
              [w7 [w8 [E4 [H4 H5]]]]]]]]]]]]]]]].
  apply words_lit in H1. apply (words_lit "}{") in H3.
  apply (words_lit "}") in H5.
  apply words_class_run in H2. apply words_class_run in H4. subst.
  apply shaped_of_rises; [eexists; reflexivity|].
  apply (rises_app 0 1 0);
    [intros d Hd; split; [reflexivity | cbn; lia]|].
  apply (rises_app 1 1 0); [apply rises_run, H2|].
  apply (rises_app 1 1 0);
    [intros d Hd; split; [reflexivity | cbn; lia]|].
  apply (rises_app 1 1 0); [apply rises_run, H4 | apply rises_close].
Qed.

Lemma simplify_rules_never_empty :
  Forall (fun rule => never_empty (fst rule)) simplify_rules.
Proof.
  unfold simplify_rules.
  repeat (apply Forall_cons || apply Forall_nil); cbn [fst];
    match goal with
    | |- never_empty (lit ?L) =>
        exact (never_empty_seqs L [] ltac:(discriminate))
    | |- _ => apply never_empty_seqs; discriminate
    end.
Qed.

Lemma route_rules_never_empty :
  Forall (fun rule => never_empty (fst rule)) RouteTs.simplify_rules.
Proof.
  unfold RouteTs.simplify_rules.
  repeat (apply Forall_cons || apply Forall_nil); cbn [fst];
    match goal with
    | |- never_empty (lit ?L) =>
        exact (never_empty_seqs L [] ltac:(discriminate))
    | |- _ => apply never_empty_seqs; discriminate
    end.
Qed.

End ShapeFacts.

Section FrameFacts.

Lemma append_split (x y : string) :
  forall u v,
    x ++ y = u ++ v ->
    (exists w, u = x ++ w /\ y = w ++ v)
    \/ (exists w, x = u ++ w /\ w <> EmptyString /\ v = w ++ y).
Proof.
  induction x as [|c x IH]; intros u v H.
  - left. exists u. split; [reflexivity | exact H].
  - destruct u as [|e u].
    + right. exists (String c x). split; [reflexivity|].
      split; [discriminate | symmetry; exact H].
    + cbn [append] in H. injection H as Hc H. subst e.
      destruct (IH u v H) as [[w [E1 E2]] | [w [E1 [Hw E2]]]].
      * left. exists w. subst. split; reflexivity.
      * right. exists w. subst. split; [reflexivity|]. split; [exact Hw|].
        reflexivity.
Qed.

Lemma take_length_exact (s : string) :
  forall n, n <= String.length s -> String.length (take n s) = n.
Proof.
  induction s as [|c s IH]; intros n H.
  - cbn in H. destruct n; [reflexivity | lia].
  - destruct n as [|n]; [reflexivity|]. cbn [take String.length].
    rewrite IH; [reflexivity|]. cbn in H. lia.
Qed.

Variable r : re.
Variable by_ : rmatch -> string.

Lemma replace_from_here (start : bool) (idx k : nat) (c : ascii)
  (s' : string) (st' : mstate) :
  match_here r start (String c s') = Some st' ->
  String.length (String c s') - String.length (rest st') = S k ->
  replace_from r by_ 0 start idx (String c s')
  = by_ (mk_match idx (String c s') st')
    ++ replace_from r by_ k false (S idx) s'.
Proof.
  intros E Hn. cbn [replace_from]. rewrite E. cbv zeta. rewrite Hn.
  reflexivity.
Qed.

Lemma replace_from_next (start : bool) (idx : nat) (c : ascii) (s' : string) :
  match_here r start (String c s') = None ->
  replace_from r by_ 0 start idx (String c s')
  = String c (replace_from r by_ 0 false (S idx) s').
Proof. intros E. cbn [replace_from]. rewrite E. reflexivity. Qed.

Lemma replace_from_skipped (u v : string) :
  forall idx,
    replace_from r by_ (String.length u) false idx (u ++ v)
    = replace_from r by_ 0 false (idx + String.length u) v.
Proof.
  induction u as [|c u IH]; intros idx.
  - cbn [String.length append]. rewrite Nat.add_0_r. reflexivity.
  - cbn [String.length append replace_from]. rewrite IH.
    rewrite Nat.add_succ_r. reflexivity.
Qed.

Lemma exec_from_here (start : bool) (idx : nat) (c : ascii) (s' : string)
  (st' : mstate) :
  match_here r start (String c s') = Some st' ->
  exec_from r 0 start idx (String c s')
  = mk_match idx (String c s') st'
      :: exec_from r
           (String.length (String c s') - String.length (rest st') - 1)
           false (S idx) s'.
Proof. intros E. cbn [exec_from]. rewrite E. reflexivity. Qed.

Lemma exec_from_next (start : bool) (idx : nat) (c : ascii) (s' : string) :
  match_here r start (String c s') = None ->
  exec_from r 0 start idx (String c s') = exec_from r 0 false (S idx) s'.
Proof. intros E. cbn [exec_from]. rewrite E. reflexivity. Qed.

Lemma exec_from_index (s : string) :
  forall skip start idx,
    Forall (fun x => idx <= m_index x) (exec_from r skip start idx s).
Proof.
  assert (Hweak : forall idx l,
             Forall (fun x : rmatch => S idx <= m_index x) l ->
             Forall (fun x : rmatch => idx <= m_index x) l).
  { intros idx l H. apply (Forall_impl _ (P := fun x => S idx <= m_index x));
      [intros x Hx; lia | exact H]. }
  induction s as [|c s IH]; intros skip start idx.
  - destruct skip; cbn [exec_from]; [|constructor].
    destruct (match_here r start ""); constructor;
      [apply Nat.le_refl | constructor].
  - destruct skip as [|skip]; cbn [exec_from].
    + destruct (match_here r start (String c s)).
      * constructor; [apply Nat.le_refl | apply Hweak, IH].
      * apply Hweak, IH.
    + apply Hweak, IH.
Qed.

Hypothesis r_never_empty : never_empty r.

(** Where no match starts inside a text, the replacement copies it. *)
Lemma replace_from_inside (b : string) :
  forall m start idx lo,
    lo <= idx ->
    forallb (fun x => negb (overlaps lo (idx + String.length m) x))
            (exec_from r 0 start idx (m ++ b)) = true ->
    exists b', replace_from r by_ 0 start idx (m ++ b) = m ++ b'.
Proof.
  induction m as [|c m IH]; intros start idx lo Hlo H.
  - eexists. reflexivity.
  - cbn [append] in *.
    destruct (match_here r start (String c (m ++ b))) as [st'|] eqn:E.
    + exfalso. rewrite (exec_from_here start idx c _ st' E) in H.
      cbn [forallb] in H. apply andb_true_iff in H. destruct H as [H _].
      apply negb_true_iff in H. unfold overlaps, mk_match in H.
      cbn [m_index m_text] in H.
      pose proof (r_never_empty _ _ _ E) as Hn.
      rewrite take_length_exact in H by lia.
      apply andb_false_iff in H. destruct H as [H | H].
      * apply Nat.ltb_ge in H. cbn [String.length] in H. lia.
      * apply Nat.ltb_ge in H. lia.
    + rewrite (exec_from_next start idx c _ E) in H.
      rewrite (replace_from_next start idx c _ E).
      destruct (IH false (S idx) lo) as [b' Hb'].
      * lia.
      * cbn [String.length] in H. rewrite Nat.add_succ_r in H. exact H.
      * exists b'. rewrite Hb'. reflexivity.
Qed.

End FrameFacts.

Section RuleFrame.

Variable r : re.
Variable t : string.
Hypothesis r_never_empty : never_empty r.

Lemma filter_later (idx : nat) (l : list rmatch) :
  Forall (fun x => idx <= m_index x) l ->
  filter (fun x => m_index x <? idx) l = [].
Proof.
  induction 1 as [|x l Hx _ IH]; [reflexivity|]. cbn [filter].
  replace (m_index x <? idx) with false; [exact IH|].
  symmetry. apply Nat.ltb_ge, Hx.
Qed.

(** A text that no match of the pattern touches is still there after the
    replacement, at a position that the matches before it determine. *)
Lemma replace_from_frame (m b : string) :
  forall a skip start idx,
    skip <= String.length a ->
    forallb (fun x => negb (overlaps (idx + String.length a)
                              (idx + String.length a + String.length m) x))
            (exec_from r skip start idx (a ++ m ++ b)) = true ->
    exists a' b',
      replace_from r (fun _ => t) skip start idx (a ++ m ++ b)
      = a' ++ m ++ b'
      /\ String.length a' + skip
         + list_sum
             (map (fun x => String.length (m_text x))
                (filter (fun x => m_index x <? idx + String.length a)
                   (exec_from r skip start idx (a ++ m ++ b))))
         = String.length a
           + List.length
               (filter (fun x => m_index x <? idx + String.length a)
                  (exec_from r skip start idx (a ++ m ++ b)))
             * String.length t.
Proof.
  induction a as [|c a IH]; intros skip start idx Hskip H.
  - cbn [String.length] in Hskip. assert (skip = 0) by lia. subst skip.
    cbn [append String.length] in *. rewrite Nat.add_0_r in *.
    destruct (replace_from_inside r (fun _ => t) r_never_empty b m start idx
                idx (Nat.le_refl idx) H) as [b' Hb'].
    exists EmptyString, b'. split; [exact Hb'|].
    rewrite (filter_later idx _ (exec_from_index r (m ++ b) 0 start idx)).
    reflexivity.
  - cbn [append String.length] in *. rewrite Nat.add_succ_r in *.
    destruct skip as [|skip].
    + destruct (match_here r start (String c (a ++ m ++ b))) as [st'|] eqn:E.
      * pose proof (r_never_empty _ _ _ E) as Hn.
        assert (Hk : exists k,
                   String.length (String c (a ++ m ++ b))
                   - String.length (rest st') = S k).
        { exists (String.length (String c (a ++ m ++ b))
                  - String.length (rest st') - 1). lia. }
        destruct Hk as [k Hk].
        rewrite (exec_from_here r start idx c _ st' E) in *.
        rewrite (replace_from_here r _ start idx k c _ st' E Hk).
        rewrite Hk in H. replace (S k - 1) with k in H by lia.
        cbn [forallb] in H. apply andb_true_iff in H. destruct H as [H0 H].
        apply negb_true_iff in H0. unfold overlaps, mk_match in H0.
        cbn [m_index m_text] in H0. rewrite Hk in H0.
        rewrite take_length_exact in H0 by lia.
        assert (Hka : k <= String.length a).
        { apply andb_false_iff in H0. destruct H0 as [H0 | H0];
            apply Nat.ltb_ge in H0; lia. }
        destruct (IH k false (S idx) Hka H) as [a' [b' [E1 E2]]].
        exists (t ++ a'), b'. split.
        { rewrite E1. symmetry. apply append_assoc_s. }
        cbn [filter]. unfold mk_match. cbn [m_index].
        replace (idx <? S (idx + String.length a)) with true
          by (symmetry; apply Nat.ltb_lt; lia).
        cbn [map list_sum List.length m_text]. rewrite Hk.
        rewrite take_length_exact by lia. rewrite length_append.
        replace (S k - 1) with k by lia. unfold list_sum in *.
        cbn [fold_right]. cbn [Nat.add] in E2. rewrite Nat.mul_succ_l. lia.
      * rewrite (exec_from_next r start idx c _ E) in *.
        rewrite (replace_from_next r _ start idx c _ E).
        destruct (IH 0 false (S idx) (Nat.le_0_l _) H) as [a' [b' [E1 E2]]].
        exists (String c a'), b'. split; [rewrite E1; reflexivity|].
        cbn [String.length]. cbn [Nat.add] in E2. lia.
    + cbn [exec_from replace_from] in *.
      assert (Hka : skip <= String.length a) by lia.
      destruct (IH skip false (S idx) Hka H) as [a' [b' [E1 E2]]].
      exists a', b'. split; [exact E1|]. cbn [Nat.add] in E2. lia.
Qed.

Lemma apply_rule_frame (a m b : string) :
  forallb (fun x => negb (overlaps (String.length a)
                            (String.length a + String.length m) x))
          (exec_all r (a ++ m ++ b)) = true ->
  exists a' b',
    apply_rule (a ++ m ++ b) (r, t) = a' ++ m ++ b'
    /\ String.length a'
       = moved_to t (String.length a) (exec_all r (a ++ m ++ b)).
Proof.
  intros H. unfold apply_rule, replace_with, replace_all, exec_all, moved_to
    in *. cbn [fst snd].
  destruct (replace_from_frame m b a 0 true 0 (Nat.le_0_l _) H)
    as [a' [b' [E1 E2]]].
  exists a', b'. split; [exact E1|]. cbn [Nat.add] in E2. lia.
Qed.

End RuleFrame.

Lemma apply_rules_frame (rules : list (re * string)) (m : string) :
  Forall (fun rule => never_empty (fst rule)) rules ->
  forall a b,
    untouched_throughout rules (a ++ m ++ b) (String.length a)
                         (String.length m) = true ->
    exists a' b', apply_rules rules (a ++ m ++ b) = a' ++ m ++ b'.
Proof.
  unfold apply_rules. induction 1 as [|[r t] rules Hr _ IH]; intros a b H.
  - exists a, b. reflexivity.
  - cbn [untouched_throughout fst snd] in H. apply andb_true_iff in H.
    destruct H as [H1 H2]. cbn [fst] in Hr.
    destruct (apply_rule_frame r t Hr a m b H1) as [a' [b' [E1 E2]]].
    cbn [fold_left]. rewrite E1 in *. rewrite <- E2 in H2.
    apply (IH a' b' H2).
Qed.

Section RuleOutside.

Variable r : re.
Variable t : string.
Variables m b : string.

Hypothesis r_needs_backslash : needs_backslash r.
Hypothesis r_shaped : forall w, words_of r w -> shaped w.
Hypothesis t_flat : forall d, brace_depth d t <= d.
Hypothesis m_plain : includes m "\" = false.

(** A rule leaves in place a text that stands outside every brace group
    and after a separator, and the text stands so in the result. *)
Lemma replace_from_outside :
  forall n a,
    String.length a <= n ->
    forall start idx d_src d_out,
      d_out <= d_src ->
      brace_depth d_src a = 0 ->
      a = EmptyString \/ after_separator a = true ->
      exists a' b',
        replace_from r (fun _ => t) 0 start idx (a ++ m ++ b) = a' ++ m ++ b'
        /\ brace_depth d_out a' = 0
        /\ (a = EmptyString -> a' = EmptyString)
        /\ (after_separator a = true -> after_separator a' = true).
Proof.
  induction n as [|n IH]; intros a Hlen start idx d_src d_out Hd Hdepth Ha.
  - destruct a as [|c a]; [|cbn in Hlen; lia].
    destruct (replace_from_prefix r (fun _ => t) r_needs_backslash m b
                start idx m_plain) as [b' Hb'].
    exists EmptyString, b'. split; [exact Hb'|]. cbn [brace_depth] in *.
    split; [lia|]. split; [reflexivity | discriminate].
  - destruct a as [|c a].
    { destruct (replace_from_prefix r (fun _ => t) r_needs_backslash m b
                  start idx m_plain) as [b' Hb'].
      exists EmptyString, b'. split; [exact Hb'|]. cbn [brace_depth] in *.
      split; [lia|]. split; [reflexivity | discriminate]. }
    destruct Ha as [Ha | Ha]; [discriminate|].
    cbn [String.length] in Hlen.
    destruct (match_here r start (String c a ++ m ++ b)) as [st'|] eqn:E.
    + destruct (match_here_words r start _ st' E) as [w [Hw Es]].
      destruct (r_shaped w Hw) as [[w' Ew] [Hg Hup]].
      destruct (append_split (String c a) (m ++ b) w (rest st') Es)
        as [[z [E1 E2]] | [z [E1 [Hz E2]]]].
      { exfalso. rewrite E1 in Hg.
        pose proof (guarded_covers z (String c a) 0 d_src (Nat.le_0_l _)
                      Ha Hg) as Hc.
        lia. }
      assert (Hk : String.length (String c (a ++ m ++ b))
                   - String.length (rest st') = S (String.length w')).
      { change (String c (a ++ m ++ b)) with (String c a ++ m ++ b).
        rewrite Es, length_append, Ew. cbn [String.length]. lia. }
      cbn [append] in E |- *.
      rewrite (replace_from_here r _ start idx _ c _ st' E Hk).
      assert (Etail : a ++ m ++ b = w' ++ z ++ m ++ b).
      { rewrite Ew in E1. cbn [append] in E1. injection E1 as _ E1.
        rewrite E1. apply append_assoc_s. }
      rewrite Etail, replace_from_skipped.
      assert (Hzlen : String.length z <= n).
      { rewrite Ew in E1. cbn [append] in E1. injection E1 as _ E1.
        rewrite E1, length_append in Hlen. lia. }
      assert (Hzdepth : brace_depth (brace_depth d_src w) z = 0).
      { rewrite <- brace_depth_app, <- E1. exact Hdepth. }
      assert (Hzsep : after_separator z = true).
      { rewrite E1 in Ha. apply (after_separator_tail w z Hz Ha). }
      destruct (IH z Hzlen false (S idx + String.length w')
                  (brace_depth d_src w) (brace_depth d_out t))
        as [a' [b' [R1 [R2 [_ R4]]]]].
      * pose proof (t_flat d_out). pose proof (Hup d_src). lia.
      * exact Hzdepth.
      * right. exact Hzsep.
      * exists (t ++ a'), b'. split; [rewrite R1; symmetry;
                                       apply append_assoc_s|].
        split; [rewrite brace_depth_app; exact R2|].
        split; [discriminate|]. intros _.
        apply after_separator_app, R4, Hzsep.
    + cbn [append] in E |- *.
      rewrite (replace_from_next r _ start idx c _ E).
      assert (Hlen' : String.length a <= n) by lia.
      destruct (IH a Hlen' false (S idx) (brace_step d_src c)
                  (brace_step d_out c)) as [a' [b' [R1 [R2 [R3 R4]]]]].
      * apply brace_step_mono, Hd.
      * exact Hdepth.
      * destruct a as [|e a]; [left; reflexivity | right; exact Ha].
      * exists (String c a'), b'. split; [rewrite R1; reflexivity|].
        split; [exact R2|]. split; [discriminate|]. intros _.
        destruct a as [|e a].
        -- rewrite (R3 eq_refl). exact Ha.
        -- apply (after_separator_app (String c EmptyString) a'), R4, Ha.
Qed.

End RuleOutside.

Lemma apply_rules_outside (rules : list (re * string)) (m : string) :
  Forall tame rules ->
  Forall (fun rule => needs_backslash (fst rule)) rules ->
  includes m "\" = false ->
  forall a b,
    brace_depth 0 a = 0 ->
    after_separator a = true ->
    exists a' b', apply_rules rules (a ++ m ++ b) = a' ++ m ++ b'.
Proof.
  unfold apply_rules. intros Htame.
  induction Htame as [|[r t] rules [H1 H2] _ IH];
    intros Hbs Hm a b Hdepth Hsep.
  - exists a, b. reflexivity.
  - cbn [fst snd] in *. cbn [fold_left].
    unfold apply_rule at 2, replace_with, replace_all. cbn [fst snd].
    destruct (replace_from_outside r t m b
                (Forall_inv Hbs) H1 H2 Hm (String.length a) a
                (Nat.le_refl _) true 0 0 0 (Nat.le_refl _) Hdepth
                (or_intror Hsep)) as [a' [b' [R1 [R2 [_ R4]]]]].
    rewrite R1. apply (IH (Forall_inv_tail Hbs) Hm a' b' R2 (R4 Hsep)).
Qed.

Section GeometryFacts.

Lemma startsWith_append (p s : string) : startsWith p (p ++ s) = true.
Proof.
  induction p as [|c p IH]; [destruct s; reflexivity|].
  cbn [append startsWith]. rewrite Ascii.eqb_refl. exact IH.
Qed.

Lemma startsWith_parts (p : string) :
  forall s, startsWith p s = true -> s = p ++ drop (String.length p) s.
Proof.
  induction p as [|c p IH]; intros s H; [reflexivity|].
  destruct s as [|e s]; [discriminate|]. cbn [startsWith] in H.
  apply andb_true_iff in H. destruct H as [Hc H].
  apply Ascii.eqb_eq in Hc. subst e.
  cbn [String.length drop append]. rewrite <- (IH s H). reflexivity.
Qed.

Lemma includes_here (p s : string) :
  startsWith p s = true -> includes s p = true.
Proof. intros H. destruct s; cbn [includes]; rewrite H; reflexivity. Qed.

Lemma includes_middle (a m b : string) : includes (a ++ m ++ b) m = true.
Proof.
  induction a as [|c a IH].
  - cbn [append]. apply includes_here, startsWith_append.
  - cbn [append includes]. rewrite IH. apply orb_true_r.
Qed.

(** A replacement that keeps the pattern and adds text after it inserts
    the text after the first occurrence of the pattern. *)
Lemma replaceFirst_inserts (pat ins : string) :
  forall s,
    replaceFirst pat (pat ++ ins) s = s
    \/ exists u v,
         s = u ++ pat ++ v
         /\ replaceFirst pat (pat ++ ins) s = u ++ pat ++ ins ++ v.
Proof.
  induction s as [|c s IH].
  - cbn [replaceFirst]. destruct (startsWith pat "") eqn:E; [|left; reflexivity].
    right. exists EmptyString, (drop (String.length pat) "").
    split; [apply (startsWith_parts pat _ E)|].
    apply (append_assoc_s pat ins).
  - cbn [replaceFirst]. destruct (startsWith pat (String c s)) eqn:E.
    + right. exists EmptyString, (drop (String.length pat) (String c s)).
      split; [apply (startsWith_parts pat _ E)|].
      apply (append_assoc_s pat ins).
    + destruct IH as [IH | [u [v [E1 E2]]]].
      * left. rewrite IH. reflexivity.
      * right. exists (String c u), v. split.
        -- rewrite E1. reflexivity.
        -- rewrite E2. reflexivity.
Qed.

Lemma startsWith_longer (p : string) :
  forall x z, startsWith p x = true -> startsWith p (x ++ z) = true.
Proof.
  induction p as [|c p IH]; intros x z H; [reflexivity|].
  destruct x as [|e x]; [discriminate|]. cbn [append startsWith] in *.
  apply andb_true_iff in H. destruct H as [H1 H2].
  rewrite H1, (IH x z H2). reflexivity.
Qed.

Lemma includes_longer (p z : string) :
  forall x, includes x p = true -> includes (x ++ z) p = true.
Proof.
  induction x as [|c x IH]; intros H.
  - cbn [includes] in H. rewrite orb_false_r in H.
    apply includes_here, (startsWith_longer p EmptyString z H).
  - cbn [includes] in H. apply orb_true_iff in H. destruct H as [H | H].
    + apply includes_here, (startsWith_longer p _ z H).
    + cbn [append includes]. rewrite (IH H). apply orb_true_r.
Qed.

(** An insertion after a closing brace splits no text that has no closing
    brace. *)
Lemma insertion_keeps (pat ins a m b u v : string) :
  includes m "}" = false ->
  a ++ m ++ b = u ++ (pat ++ "}") ++ v ->
  includes (u ++ (pat ++ "}") ++ ins ++ v) m = true.
Proof.
  intros Hm E.
  rewrite <- (append_assoc_s u (pat ++ "}") v) in E.
  rewrite <- (append_assoc_s u (pat ++ "}") (ins ++ v)).
  destruct (append_split a (m ++ b) (u ++ pat ++ "}") v E)
    as [[w [E1 E2]] | [w [E1 [Hw E2]]]].
  - rewrite E1.
    destruct (append_split m b w v E2) as [[z [E3 E4]] | [z [E3 [Hz E4]]]].
    + rewrite E3, (append_assoc_s a (m ++ z)), (append_assoc_s m z).
      apply includes_middle.
    + destruct w as [|e w].
      * cbn [append] in E3. subst z. rewrite E4.
        rewrite (append_assoc_s a EmptyString). cbn [append].
        rewrite <- (append_assoc_s a ins). apply includes_middle.
      * exfalso. rewrite <- (append_assoc_s u pat "}") in E1.
        assert (Hin : includes (String e w) "}" = true).
        { destruct (append_split (u ++ pat) "}" a (String e w) E1)
            as [[q [F1 F2]] | [q [F1 [Hq F2]]]].
          - destruct q as [|c q].
            + cbn [append] in F2. rewrite <- F2. reflexivity.
            + cbn [append] in F2. injection F2 as _ F2.
              destruct q; discriminate.
          - rewrite F2. apply (includes_middle q "}" EmptyString). }
        rewrite E3, (includes_longer "}" z _ Hin) in Hm. discriminate.
  - rewrite E2, <- (append_assoc_s ins w (m ++ b)).
    rewrite <- (append_assoc_s (u ++ pat ++ "}") (ins ++ w) (m ++ b)).
    apply includes_middle.
Qed.

(** The geometry step splits no text that has no closing brace. *)
Lemma ensure_geometry_keeps (a m b : string) :
  includes m "}" = false ->
  includes (ensure_geometry (a ++ m ++ b)) m = true.
Proof.
  intros Hm. unfold ensure_geometry.
  destruct (negb (includes (a ++ m ++ b) "\usepackage{geometry}"));
    [|apply includes_middle].
  destruct (replaceFirst_inserts article_class (nl ++ geometry_line)
              (a ++ m ++ b)) as [E | [u [v [E1 E2]]]].
  - rewrite E. apply includes_middle.
  - rewrite E2.
    apply (insertion_keeps "\documentclass[letterpaper,11pt]{article"
             (nl ++ geometry_line) a m b u v Hm E1).
Qed.

End GeometryFacts.

(* ================================================================== *)
(** ** The claims *)




(** C2, counterexample.  The source [hello] fails the first check and the
    result has no [pdfBuffer]. *)
Lemma compile_invalid_has_no_document :
  pdfBuffer (fst (@compile offline plain_pdf "hello")) = None
  /\ success (fst (@compile offline plain_pdf "hello")) = false.
Proof. split; reflexivity. Qed.

(** C2, amended.  In both revisions: a source that passes the four checks
    gets [success: true] with a [pdfBuffer]; a source that fails one gets
    [success: false], the message of the failed check as the only error and
    no [pdfBuffer]. *)
Theorem compile_document_iff_valid (e : env) (lib : PdfLib) (content : string) :
  match validate content with
  | None =>
      (success (fst (compile e content)) = true
       /\ exists doc, pdfBuffer (fst (compile e content)) = Some doc)
      /\ (success (fst (RouteTs.compile e content)) = true
          /\ exists doc,
               pdfBuffer (fst (RouteTs.compile e content)) = Some doc)
  | Some message =>
      fst (compile e content) = MkResult false None (Some [message]) None None
      /\ fst (RouteTs.compile e content)
         = MkResult false None (Some [message]) None None
  end.
Proof.
  destruct (validate content) as [message|] eqn:H.
  - destruct (compile_invalid e content message H) as [-> ->].
    split; reflexivity.
  - destruct (compile_valid e content H) as [-> ->]. cbn [success pdfBuffer].
    repeat split; eexists; reflexivity.
Qed.



(** C4, counterexample.  The source [hello] has no [\end{document}]; the
    only error names the document class, and the end marker occurs in no
    error. *)
Lemma missing_end_marker_not_named :
  includes "hello" "\end{document}" = false
  /\ errors (fst (@compile offline plain_pdf "hello"))
     = Some ["Missing \documentclass declaration"]
  /\ includes "Missing \documentclass declaration" "\end{document}" = false.
Proof. split; [reflexivity|]. split; reflexivity. Qed.

(** C4, amended.  In both revisions, for every source without
    [\end{document}], [compile] returns [success: false] without a document
    and makes no request; the error names the first failing check, which is
    the missing end marker when the source has [\documentclass] and
    [\begin{document}]. *)
Theorem compile_without_end_marker
  (e : env) (lib : PdfLib) (content : string) :
  includes content "\end{document}" = false ->
  (success (fst (compile e content)) = false
   /\ pdfBuffer (fst (compile e content)) = None
   /\ snd (compile e content) = []
   /\ (includes content "\documentclass" = true ->
       includes content "\begin{document}" = true ->
       errors (fst (compile e content)) = Some ["Missing \end{document}"]))
  /\ (success (fst (RouteTs.compile e content)) = false
      /\ pdfBuffer (fst (RouteTs.compile e content)) = None
      /\ snd (RouteTs.compile e content) = []
      /\ (includes content "\documentclass" = true ->
          includes content "\begin{document}" = true ->
          errors (fst (RouteTs.compile e content))
          = Some ["Missing \end{document}"])).
Proof.
  intros Hend.
  assert (H : exists message,
             validate content = Some message
             /\ (includes content "\documentclass" = true ->
                 includes content "\begin{document}" = true ->
                 message = "Missing \end{document}")).
  { unfold validate. rewrite Hend.
    destruct (includes content "\documentclass");
      destruct (includes content "\begin{document}"); cbn [negb];
      eexists; (split; [reflexivity|]); intros; try discriminate;
      reflexivity. }
  destruct H as [message [Hv Hm]].
  destruct (compile_invalid e content message Hv) as [-> ->].
  cbn [fst snd failure success pdfBuffer errors].
  repeat split; intros H1 H2; rewrite (Hm H1 H2); reflexivity.
Qed.

Lemma compile_without_end_marker_witness :
  includes "\documentclass{article}\begin{document}Hello" "\end{document}"
  = false
  /\ errors (fst (@compile offline plain_pdf
                    "\documentclass{article}\begin{document}Hello"))
     = Some ["Missing \end{document}"]
  /\ snd (@compile offline plain_pdf
            "\documentclass{article}\begin{document}Hello") = [].
Proof.
  assert (H : includes "\documentclass{article}\begin{document}Hello"
                       "\end{document}" = false) by reflexivity.
  destruct (compile_without_end_marker offline plain_pdf _ H)
    as [[_ [_ [Hlog Herr]]] _].
  split; [exact H|]. split; [|exact Hlog].
  apply Herr; reflexivity.
Defined.

(** C5, counterexample.  Removing [\addtolength{\textwidth}{1in}] joins
    [\fa] and [Phone] into an icon macro that only a second run rewrites,
    in both revisions. *)
Lemma simplify_not_idempotent :
  let x := "\fa\addtolength{\textwidth}{1in}Phone" in
  simplifyLatexForOnlineServices x = "\faPhone"
  /\ simplifyLatexForOnlineServices (simplifyLatexForOnlineServices x)
     = "Tel:"
  /\ RouteTs.simplifyLatexForOnlineServices x = "\faPhone"
  /\ RouteTs.simplifyLatexForOnlineServices
       (RouteTs.simplifyLatexForOnlineServices x) = "Tel:".
Proof.
  cbv zeta. split; [vm_compute; reflexivity|].
  split; [vm_compute; reflexivity|].
  split; vm_compute; reflexivity.
Qed.

(** C5, amended.  A second run of the simplifier changes nothing when the
    result of the first run holds no match of a rewriting rule and, for the
    revision with the geometry step, either lacks the exact class line
    [\documentclass[letterpaper,11pt]{article}] or has
    [\usepackage{geometry}]. *)
Theorem simplify_idempotent_on_rule_free_results (x : string) :
  (rule_free simplify_rules (simplifyLatexForOnlineServices x) = true ->
   includes (simplifyLatexForOnlineServices x) article_class = false
   \/ includes (simplifyLatexForOnlineServices x) "\usepackage{geometry}"
      = true ->
   simplifyLatexForOnlineServices (simplifyLatexForOnlineServices x)
   = simplifyLatexForOnlineServices x)
  /\ (rule_free RouteTs.simplify_rules
        (RouteTs.simplifyLatexForOnlineServices x) = true ->
      RouteTs.simplifyLatexForOnlineServices
        (RouteTs.simplifyLatexForOnlineServices x)
      = RouteTs.simplifyLatexForOnlineServices x).
Proof.
  split.
  - intros Hfree Hgeo. apply simplify_fixed; assumption.
  - intros Hfree. unfold RouteTs.simplifyLatexForOnlineServices at 1.
    apply apply_rules_fixed, Hfree.
Qed.

Lemma simplify_idempotent_on_rule_free_results_witness :
  rule_free simplify_rules (simplifyLatexForOnlineServices sample_source)
  = true
  /\ includes (simplifyLatexForOnlineServices sample_source) article_class
     = false
  /\ simplifyLatexForOnlineServices
       (simplifyLatexForOnlineServices sample_source)
     = simplifyLatexForOnlineServices sample_source
  /\ rule_free RouteTs.simplify_rules
       (RouteTs.simplifyLatexForOnlineServices sample_source) = true
  /\ RouteTs.simplifyLatexForOnlineServices
       (RouteTs.simplifyLatexForOnlineServices sample_source)
     = RouteTs.simplifyLatexForOnlineServices sample_source.
Proof.
  assert (H1 : rule_free simplify_rules
                 (simplifyLatexForOnlineServices sample_source) = true)
    by (vm_compute; reflexivity).
  assert (H2 : includes (simplifyLatexForOnlineServices sample_source)
                        article_class = false)
    by (vm_compute; reflexivity).
  assert (H3 : rule_free RouteTs.simplify_rules
                 (RouteTs.simplifyLatexForOnlineServices sample_source)
               = true)
    by (vm_compute; reflexivity).
  destruct (simplify_idempotent_on_rule_free_results sample_source)
    as [Ha Hb].
  split; [exact H1|]. split; [exact H2|].
  split; [apply Ha; [exact H1 | left; exact H2]|].
  split; [exact H3|]. apply Hb, H3.
Defined.

(** C6, counterexample.  [joined_source] passes the four checks.  Its
    marker stands at positions 104 to 109, in a bold group of the body of
    the section Skills; the only match of a rewriting rule in the source
    is [\raisebox{1pt}], which does not touch the marker.  The removal of
    that match joins the letters around it into [\addtolength{\textwidth}],
    and the margin rule of the richer revision then deletes the group with
    the marker.  The revision of [route.ts], which has no rule on
    [\raisebox], keeps the marker. *)
Lemma simplify_loses_marker :
  validate joined_source = None
  /\ take 6 (drop 104 joined_source) = "MARKER"
  /\ outside_constructs simplify_rules joined_source 104 110 = true
  /\ brace_depth 0 (take 104 joined_source) = 1
  /\ includes (simplifyLatexForOnlineServices joined_source) "MARKER" = false
  /\ includes (RouteTs.simplifyLatexForOnlineServices joined_source) "MARKER"
     = true.
Proof.
  split; [vm_compute; reflexivity|]. split; [vm_compute; reflexivity|].
  split; [vm_compute; reflexivity|]. split; [vm_compute; reflexivity|].
  split; vm_compute; reflexivity.
Qed.

(** C6, amended.  The simplifier keeps a text [marker] of the source
    [before ++ marker ++ after] byte for byte in two cases.  First, when
    the marker has no backslash and no closing brace and stands outside
    every brace group and after a separator (a character that is no
    letter, no digit, no backslash and no brace): this holds for every
    source, in both revisions.  Second, wherever the marker stands, when
    no match of a rewriting rule touches it at the moment the rule runs,
    the rules running in order, each on the result of the one before; the
    richer revision, which ends with the geometry step, needs a marker
    without a closing brace here. *)
Theorem simplify_keeps_untouched_marker (before marker after : string) :
  (lacks marker ["\"; "}"] = true ->
   outside_groups before = true ->
   includes (simplifyLatexForOnlineServices (before ++ marker ++ after))
            marker = true)
  /\ (includes marker "\" = false ->
      outside_groups before = true ->
      includes (RouteTs.simplifyLatexForOnlineServices
                  (before ++ marker ++ after)) marker = true)
  /\ (includes marker "}" = false ->
      untouched_throughout simplify_rules (before ++ marker ++ after)
        (String.length before) (String.length marker) = true ->
      includes (simplifyLatexForOnlineServices (before ++ marker ++ after))
               marker = true)
  /\ (untouched_throughout RouteTs.simplify_rules (before ++ marker ++ after)
        (String.length before) (String.length marker) = true ->
      includes (RouteTs.simplifyLatexForOnlineServices
                  (before ++ marker ++ after)) marker = true).
Proof.
  split; [|split; [|split]].
  - intros Hm Hout. apply lacks_cons in Hm. destruct Hm as [Hbs Hm].
    apply lacks_cons in Hm. destruct Hm as [Hcl _].
    unfold outside_groups in Hout. apply andb_true_iff in Hout.
    destruct Hout as [Hdepth Hsep]. apply Nat.eqb_eq in Hdepth.
    destruct (apply_rules_outside simplify_rules marker simplify_rules_tame
                simplify_rules_need_backslash Hbs before after Hdepth Hsep)
      as [a' [b' E]].
    unfold simplifyLatexForOnlineServices. rewrite E.
    apply ensure_geometry_keeps, Hcl.
  - intros Hbs Hout. unfold outside_groups in Hout.
    apply andb_true_iff in Hout. destruct Hout as [Hdepth Hsep].
    apply Nat.eqb_eq in Hdepth.
    destruct (apply_rules_outside RouteTs.simplify_rules marker
                route_rules_tame route_rules_need_backslash Hbs before after
                Hdepth Hsep) as [a' [b' E]].
    unfold RouteTs.simplifyLatexForOnlineServices. rewrite E.
    apply includes_middle.
  - intros Hcl H.
    destruct (apply_rules_frame simplify_rules marker
                simplify_rules_never_empty before after H) as [a' [b' E]].
    unfold simplifyLatexForOnlineServices. rewrite E.
    apply ensure_geometry_keeps, Hcl.
  - intros H.
    destruct (apply_rules_frame RouteTs.simplify_rules marker
                route_rules_never_empty before after H) as [a' [b' E]].
    unfold RouteTs.simplifyLatexForOnlineServices. rewrite E.
    apply includes_middle.
Qed.

Lemma simplify_keeps_untouched_marker_witness :
  (outside_groups resume_opening = true
   /\ includes (simplifyLatexForOnlineServices
                  (resume_opening ++ "MARKER"
                   ++ resume_middle ++ "solid" ++ resume_ending))
               "MARKER" = true)
  /\ (outside_groups (resume_opening ++ "MARKER" ++ resume_middle) = false
      /\ includes (simplifyLatexForOnlineServices
                     ((resume_opening ++ "MARKER" ++ resume_middle)
                      ++ "solid" ++ resume_ending))
                  "solid" = true).
Proof.
  split.
  - assert (H : outside_groups resume_opening = true)
      by (vm_compute; reflexivity).
    split; [exact H|].
    apply (proj1 (simplify_keeps_untouched_marker resume_opening "MARKER"
                    (resume_middle ++ "solid" ++ resume_ending)));
      [reflexivity | exact H].
  - split; [vm_compute; reflexivity|].
    apply (proj1 (proj2 (proj2
             (simplify_keeps_untouched_marker
                (resume_opening ++ "MARKER" ++ resume_middle) "solid"
                resume_ending))));
      vm_compute; reflexivity.
Defined.

(** C7, the code at the failing input.  On [alt_html] the fourth request
    of the five-method client goes to the alternative service, whose answer
    declares [text/html]; the client returns its 1001 bytes.  The
    two-method client of [route.ts] returns null on the same network. *)
Theorem alternative_service_skips_content_type :
  fst (tryLatexOnline alt_html minimal_source []) = Some big_body
  /\ map url (snd (tryLatexOnline alt_html minimal_source []))
     = [ "https://latexonline.cc/compile"; "https://latexonline.cc/compile";
         "https://latexonline.cc/compile";
         "https://latex.aslushnikov.com/compile" ]
  /\ says_pdf (Response true (Some "text/html") big_body) = false
  /\ fst (RouteTs.tryLatexOnline alt_html minimal_source []) = None.
Proof.
  split; [vm_compute; reflexivity|]. split; [vm_compute; reflexivity|].
  split; vm_compute; reflexivity.
Qed.




(** C9, counterexample.  With the two lines alone the line loop ends with
    the entry still under construction, and the experience list is empty:
    in the section parser and in the parse of a whole document. *)
Lemma two_lines_give_no_entry :
  structured_experiences 0 experience_patterns two_lines = []
  /\ parseExperienceSection two_lines = []
  /\ experience (parseLatexContent (one_section "Experience" two_lines)) = [].
Proof.
  split; [vm_compute; reflexivity|].
  split; vm_compute; reflexivity.
Qed.

(** C9, amended.  On a body without structured macros the line loop
    records the line [Software Engineer] as the position and the line
    [2021-2023] as the period of the entry under construction, and pushes
    the entry when a further line that, once cleaned, is not empty, has no
    four digits in a row and none of the role words supplies the company:
    the experience list is then that one entry. *)
Theorem heuristic_entry_needs_company_line (third : string) :
  includes third nl = false ->
  structured_experiences 0 experience_patterns (three_lines third) = [] ->
  clean_line third <> EmptyString ->
  test year4 (clean_line third) = false ->
  test role_word (clean_line third) = false ->
  fold_left experience_line (lines_of two_lines) (empty_experience, [])
  = (pending_entry, [])
  /\ parseExperienceSection (three_lines third)
     = [MkExperience (Some (clean_line third)) (Some "2021-2023")
                     (Some "Software Engineer") None None].
Proof.
  intros Hline Hnone Hclean Hyear Hrole.
  split; [vm_compute; reflexivity|].
  unfold parseExperienceSection. rewrite Hnone.
  rewrite (lines_of_three_lines third Hline). cbn [fold_left].
  replace (experience_line (empty_experience, []) "Software Engineer")
    with (MkExperience None None (Some "Software Engineer") None None,
          @nil Experience) by (vm_compute; reflexivity).
  replace (experience_line
             (MkExperience None None (Some "Software Engineer") None None,
              []) "2021-2023")
    with (pending_entry, @nil Experience) by (vm_compute; reflexivity).
  unfold experience_line, pending_entry. rewrite Hyear, Hrole.
  destruct (clean_line third) as [|a s] eqn:E; [contradiction|].
  reflexivity.
Qed.

Lemma heuristic_entry_needs_company_line_witness :
  includes "Acme Corp" nl = false
  /\ structured_experiences 0 experience_patterns (three_lines "Acme Corp")
     = []
  /\ clean_line "Acme Corp" <> EmptyString
  /\ test year4 (clean_line "Acme Corp") = false
  /\ test role_word (clean_line "Acme Corp") = false
  /\ parseExperienceSection (three_lines "Acme Corp")
     = [MkExperience (Some (clean_line "Acme Corp")) (Some "2021-2023")
                     (Some "Software Engineer") None None].
Proof.
  assert (H1 : includes "Acme Corp" nl = false) by reflexivity.
  assert (H2 : structured_experiences 0 experience_patterns
                 (three_lines "Acme Corp") = [])
    by (vm_compute; reflexivity).
  assert (H3 : clean_line "Acme Corp" <> EmptyString)
    by (vm_compute; discriminate).
  assert (H4 : test year4 (clean_line "Acme Corp") = false)
    by (vm_compute; reflexivity).
  assert (H5 : test role_word (clean_line "Acme Corp") = false)
    by (vm_compute; reflexivity).
  split; [exact H1|]. split; [exact H2|]. split; [exact H3|].
  split; [exact H4|]. split; [exact H5|].
  apply (heuristic_entry_needs_company_line "Acme Corp" H1 H2 H3 H4 H5).
Defined.

(** C10, the code at the failing input.  [blank_center_source] passes the
    four checks; no pattern of the array yields a name, and the center
    branch returns the trimmed group without the length test of the pattern
    loop: the extracted name is the empty string.  The renderer then prints
    the placeholder, as it does for every empty name. *)
Theorem blank_center_name_is_empty :
  validate blank_center_source = None
  /\ first_nonblank name_patterns blank_center_source = None
  /\ extractName blank_center_source = EmptyString
  /\ sec_name (parseLatexContent blank_center_source) = EmptyString
  /\ hd_error (ops (@draw plain_pdf (parseLatexContent blank_center_source)
                      new_doc))
     = Some (MkTextOp "Resume Preview" 20 20 20 "bold").
Proof.
  split; [vm_compute; reflexivity|]. split; [vm_compute; reflexivity|].
  split; [vm_compute; reflexivity|]. split; vm_compute; reflexivity.
Qed.

(* ================================================================== *)
(** ** Further properties of the endpoint

    Properties of the functions around the ones above: the route handler
    and the editor that calls it, the requests of the client, the
    extractors of the parser, the section parsers on plain text and the
    layout of the documents that jsPDF draws. *)

Section RequestFacts.

Variable e : env.

Lemma tryLatexOnline_log (s : string) (log : list request) :
  exists n,
    snd (tryLatexOnline e s log) = (log ++ firstn n (methods s))%list
    /\ 1 <= n <= 5
    /\ (n < 5 ->
        fst (tryLatexOnline e s log) <> None
        \/ (n = 2
            /\ fst (tryLatexOnline e s log) = None
            /\ respond e (log ++ [direct_request s])%list
                 (post_request s "pdflatex") = Rejected)).
Proof.
  unfold tryLatexOnline, encodeURIComponent, bind, fetch, ret.
  destruct (accept_pdf (respond e log (direct_request s))) as [b|] eqn:E1;
    cbn [fst snd].
  { exists 1. split; [reflexivity|]. split; [lia|]. intros _. left.
    discriminate. }
  destruct (respond e (log ++ [direct_request s])%list
              (post_request s "pdflatex")) as [|r2] eqn:R2; cbn [fst snd].
  { exists 2. split; [rewrite <- app_assoc; reflexivity|]. split; [lia|].
    intros _. right. auto. }
  destruct (accept_pdf (Resolved r2)) as [b|] eqn:E2; cbn [fst snd].
  { exists 2. split; [rewrite <- app_assoc; reflexivity|]. split; [lia|].
    intros _. left. discriminate. }
  match goal with
  | |- context [accept_pdf (respond e ?l ?rq)] =>
      destruct (accept_pdf (respond e l rq)) as [b|] eqn:E3; cbn [fst snd]
  end.
  { exists 3. split; [rewrite <- !app_assoc; reflexivity|]. split; [lia|].
    intros _. left. discriminate. }
  match goal with
  | |- context [accept_alt (respond e ?l ?rq)] =>
      destruct (accept_alt (respond e l rq)) as [b|] eqn:E4; cbn [fst snd]
  end.
  { exists 4. split; [rewrite <- !app_assoc; reflexivity|]. split; [lia|].
    intros _. left. discriminate. }
  exists 5. split; [rewrite <- !app_assoc; reflexivity|]. split; [lia|].
  intros H. lia.
Qed.

Lemma route_tryLatexOnline_log (s : string) (log : list request) :
  exists n,
    snd (RouteTs.tryLatexOnline e s log) = (log ++ firstn n (methods s))%list
    /\ 1 <= n <= 2
    /\ (n < 2 -> fst (RouteTs.tryLatexOnline e s log) <> None).
Proof.
  unfold RouteTs.tryLatexOnline, encodeURIComponent, bind, fetch, ret.
  destruct (accept_pdf (respond e log (direct_request s))) as [b|] eqn:E1;
    cbn [fst snd].
  - exists 1. split; [reflexivity|]. split; [lia|]. intros _. discriminate.
  - exists 2. split; [rewrite <- app_assoc; reflexivity|]. split; [lia|].
    intros H. lia.
Qed.

Lemma race_log (ms : N) (A : Type) (attempt : M (option A))
  (log : list request) :
  snd (race e ms attempt log) = snd (attempt log).
Proof. unfold race. destruct (attempt log). reflexivity. Qed.

Lemma race_some (ms : N) (A : Type) (attempt : M (option A))
  (log : list request) (a : A) :
  fst (race e ms attempt log) = Some a -> fst (attempt log) = Some a.
Proof.
  unfold race. destruct (attempt log) as [r l]. cbn [fst].
  destruct (timer_first e ms log); [discriminate|]. auto.
Qed.

Lemma race_quiet (ms : N) (A : Type) (attempt : M (option A))
  (log : list request) :
  timer_first e ms log = false ->
  race e ms attempt log = attempt log.
Proof.
  intros H. unfold race. destruct (attempt log) as [r l]. rewrite H.
  reflexivity.
Qed.

Lemma methods_carry (s : string) (n : nat) :
  Forall (fun rq => text_field rq = Some s) (firstn n (methods s)).
Proof.
  assert (H : Forall (fun rq => text_field rq = Some s) (methods s)).
  { unfold methods. repeat constructor. }
  revert H. generalize (methods s). intros l H. revert n.
  induction H as [|x l Hx Hl IH]; intros [|n]; cbn [firstn]; constructor;
    auto.
Qed.

Lemma firstn_length_le_n {A : Type} (n : nat) (l : list A) :
  List.length (firstn n l) <= n.
Proof. rewrite length_firstn. lia. Qed.

(** The requests of [compileLatexToPDF], from an empty log: those of one
    attempt on the markup, then, when there is a second attempt, those of
    one attempt on the simplified markup. *)
Lemma compileLatexToPDF_log (content : string) :
  exists n m,
    snd (compileLatexToPDF e content [])
    = (firstn n (methods content)
       ++ firstn m (methods (simplifyLatexForOnlineServices content)))%list
    /\ 1 <= n <= 5 /\ m <= 5
    /\ (simplifyLatexForOnlineServices content = content -> m = 0).
Proof.
  unfold compileLatexToPDF, bind, ret.
  destruct (tryLatexOnline_log content []) as [n [Hn [Hb _]]].
  pose proof (race_log 30000%N _ (tryLatexOnline e content) []) as R1.
  destruct (race e 30000%N (tryLatexOnline e content) []) as [r1 l1].
  cbn [snd] in R1. subst l1. rewrite Hn. cbn [app].
  destruct r1 as [pdf|].
  { exists n, 0. cbn [snd firstn]. rewrite app_nil_r. repeat split; lia. }
  destruct (String.eqb (simplifyLatexForOnlineServices content) content)
    eqn:E; cbn [negb].
  { exists n, 0. cbn [snd firstn]. rewrite app_nil_r. repeat split; lia. }
  destruct (tryLatexOnline_log (simplifyLatexForOnlineServices content)
              (firstn n (methods content))) as [m [Hm [Hbm _]]].
  pose proof (race_log 25000%N _
                (tryLatexOnline e (simplifyLatexForOnlineServices content))
                (firstn n (methods content))) as R2.
  destruct (race e 25000%N
              (tryLatexOnline e (simplifyLatexForOnlineServices content))
              (firstn n (methods content))) as [r2 l2].
  cbn [snd] in R2 |- *. subst l2. exists n, m.
  split; [exact Hm|]. split; [lia|]. split; [lia|].
  intros H. apply String.eqb_neq in E. contradiction.
Qed.

Lemma route_compileLatexToPDF_log (content : string) :
  exists n m,
    snd (RouteTs.compileLatexToPDF e content [])
    = (firstn n (methods content)
       ++ firstn m (methods (RouteTs.simplifyLatexForOnlineServices
                               content)))%list
    /\ 1 <= n <= 2 /\ m <= 2
    /\ (RouteTs.simplifyLatexForOnlineServices content = content -> m = 0).
Proof.
  unfold RouteTs.compileLatexToPDF, bind, ret.
  destruct (route_tryLatexOnline_log content []) as [n [Hn [Hb _]]].
  pose proof (race_log 30000%N _ (RouteTs.tryLatexOnline e content) [])
    as R1.
  destruct (race e 30000%N (RouteTs.tryLatexOnline e content) [])
    as [r1 l1].
  cbn [snd] in R1. subst l1. rewrite Hn. cbn [app].
  destruct r1 as [pdf|].
  { exists n, 0. cbn [snd firstn]. rewrite app_nil_r. repeat split; lia. }
  destruct (String.eqb (RouteTs.simplifyLatexForOnlineServices content)
              content) eqn:E; cbn [negb].
  { exists n, 0. cbn [snd firstn]. rewrite app_nil_r. repeat split; lia. }
  destruct (route_tryLatexOnline_log
              (RouteTs.simplifyLatexForOnlineServices content)
              (firstn n (methods content))) as [m [Hm [Hbm _]]].
  pose proof (race_log 25000%N _
                (RouteTs.tryLatexOnline e
                   (RouteTs.simplifyLatexForOnlineServices content))
                (firstn n (methods content))) as R2.
  destruct (race e 25000%N
              (RouteTs.tryLatexOnline e
                 (RouteTs.simplifyLatexForOnlineServices content))
              (firstn n (methods content))) as [r2 l2].
  cbn [snd] in R2 |- *. subst l2. exists n, m.
  split; [exact Hm|]. split; [lia|]. split; [lia|].
  intros H. apply String.eqb_neq in E. contradiction.
Qed.

Context {lib : PdfLib}.

Lemma compile_log (content : string) :
  snd (compile e content)
  = match validate content with
    | Some _ => []
    | None => snd (compileLatexToPDF e content [])
    end.
Proof.
  unfold compile, simulateLatexCompilation.
  destruct (validate content); [reflexivity|].
  unfold bind, ret, generateSamplePDF, bind, ret.
  destruct (compileLatexToPDF e content []) as [[pdf|] l]; cbn [snd];
    [destruct (above_floor pdf)|]; reflexivity.
Qed.

Lemma route_compile_log (content : string) :
  snd (RouteTs.compile e content)
  = match validate content with
    | Some _ => []
    | None => snd (RouteTs.compileLatexToPDF e content [])
    end.
Proof.
  unfold RouteTs.compile, RouteTs.simulateLatexCompilation.
  destruct (validate content); [reflexivity|].
  unfold bind, ret, RouteTs.generateSamplePDF, bind, ret.
  destruct (RouteTs.compileLatexToPDF e content []) as [[pdf|] l];
    reflexivity.
Qed.

End RequestFacts.

(** X1.  When the first request, the GET with the markup as it is, is
    answered with a 2xx status, a PDF content type and more than 1000
    bytes, and the 30 s timer does not fire first, [compile] returns these
    bytes unchanged and has made this one request only; so do both
    revisions. *)
Theorem first_answer_is_returned
  (e : env) (lib : PdfLib) (content : string) (r : response) :
  validate content = None ->
  respond e [] (direct_request content) = Resolved r ->
  ok r = true -> says_pdf r = true -> above_floor (body r) = true ->
  timer_first e 30000%N [] = false ->
  compile e content = (compiled (body r), [direct_request content])
  /\ RouteTs.compile e content
     = (compiled (body r), [direct_request content]).
Proof.
  intros Hv Hr H1 H2 H3 Ht.
  assert (Ha : accept_pdf (respond e [] (direct_request content))
               = Some (body r)).
  { rewrite Hr. cbn [accept_pdf]. rewrite H1, H2, H3. reflexivity. }
  split.
  - unfold compile, simulateLatexCompilation. rewrite Hv.
    unfold bind, ret, generateSamplePDF, bind, ret, compileLatexToPDF,
      bind, ret.
    rewrite (race_quiet e _ _ _ _ Ht).
    unfold tryLatexOnline, encodeURIComponent, bind, fetch, ret. rewrite Ha, H3. reflexivity.
  - unfold RouteTs.compile, RouteTs.simulateLatexCompilation. rewrite Hv.
    unfold bind, ret, RouteTs.generateSamplePDF, bind, ret,
      RouteTs.compileLatexToPDF, bind, ret.
    rewrite (race_quiet e _ _ _ _ Ht).
    unfold RouteTs.tryLatexOnline, encodeURIComponent, bind, fetch, ret. rewrite Ha.
    reflexivity.
Qed.

Lemma first_answer_is_returned_witness :
  @compile pdf_service plain_pdf minimal_source
  = (compiled big_body, [direct_request minimal_source])
  /\ @RouteTs.compile pdf_service plain_pdf minimal_source
     = (compiled big_body, [direct_request minimal_source]).
Proof.
  apply (first_answer_is_returned pdf_service plain_pdf minimal_source
           (Response true (Some "application/pdf") big_body));
    reflexivity.
Defined.

(** X2.  [compile] makes at most ten requests (four in [route.ts]); each
    carries, as its [text] field, the markup or its simplification; and
    when the simplifier changes nothing there is no second attempt, so at
    most five (two) requests are made. *)
Theorem compile_request_budget (e : env) (lib : PdfLib) (content : string) :
  let log := snd (compile e content) in
  let route_log := snd (RouteTs.compile e content) in
  (List.length log <= 10
   /\ Forall (fun rq =>
                text_field rq = Some content
                \/ text_field rq
                   = Some (simplifyLatexForOnlineServices content)) log
   /\ (simplifyLatexForOnlineServices content = content ->
       List.length log <= 5))
  /\ (List.length route_log <= 4
      /\ Forall (fun rq =>
                   text_field rq = Some content
                   \/ text_field rq
                      = Some (RouteTs.simplifyLatexForOnlineServices content))
                route_log
      /\ (RouteTs.simplifyLatexForOnlineServices content = content ->
          List.length route_log <= 2)).
Proof.
  cbv zeta. rewrite compile_log, route_compile_log.
  destruct (validate content).
  { cbn [List.length]. repeat split; auto; lia. }
  destruct (compileLatexToPDF_log e content) as [n [m [-> [Hn [Hm Hs]]]]].
  destruct (route_compileLatexToPDF_log e content)
    as [n' [m' [-> [Hn' [Hm' Hs']]]]].
  pose proof (firstn_length_le_n n (methods content)).
  pose proof (firstn_length_le_n n' (methods content)).
  pose proof (firstn_length_le_n m
                (methods (simplifyLatexForOnlineServices content))).
  pose proof (firstn_length_le_n m'
                (methods (RouteTs.simplifyLatexForOnlineServices content))).
  rewrite !length_app.
  split; (split; [lia|]); split.
  - apply Forall_app. split;
      (eapply Forall_impl; [|apply methods_carry]); cbn beta; auto.
  - intros E. rewrite (Hs E). cbn [firstn List.length]. lia.
  - apply Forall_app. split;
      (eapply Forall_impl; [|apply methods_carry]); cbn beta; auto.
  - intros E. rewrite (Hs' E). cbn [firstn List.length]. lia.
Qed.



(** X4.  The two-method client of [route.ts] returns a document only from
    a response with a 2xx status, a content type that names PDF and more
    than 1000 bytes, and returns null when no response passes this test. *)
Theorem route_client_accepts_only_typed_pdf
  (e : env) (s : string) (log : list request) :
  (forall pdf, fst (RouteTs.tryLatexOnline e s log) = Some pdf ->
               accepted_from e true pdf)
  /\ ((forall l rq, accept_pdf (respond e l rq) = None) ->
      fst (RouteTs.tryLatexOnline e s log) = None).
Proof.
  split.
  - intros pdf. apply route_client_checks_type_and_floor.
  - intros H. unfold RouteTs.tryLatexOnline, encodeURIComponent, bind, fetch, ret.
    rewrite !H. reflexivity.
Qed.

(** X5.  For every source that passes the four checks and every network,
    [compile] returns [success: true] with a document of at least one
    byte: a remote answer of more than 1000 bytes, or the document that
    jsPDF writes (the parsed resume; in [route.ts] the error notice). *)
Theorem compile_always_yields_document
  (e : env) (lib : PdfLib) (content : string) :
  writes_something lib ->
  validate content = None ->
  (success (fst (compile e content)) = true
   /\ exists doc, pdfBuffer (fst (compile e content)) = Some doc
                  /\ doc <> [])
  /\ (success (fst (RouteTs.compile e content)) = true
      /\ exists doc, pdfBuffer (fst (RouteTs.compile e content)) = Some doc
                     /\ doc <> []).
Proof.
  intros Hlib Hv.
  assert (Hfloor : forall b : bytes, above_floor b = true -> b <> []).
  { intros b Hb ->. discriminate. }
  destruct (compile_valid e content Hv) as [-> ->].
  cbn [success pdfBuffer]. split; (split; [reflexivity|]); eexists;
    (split; [reflexivity|]).
  - unfold generateSamplePDF, bind, ret.
    destruct (compileLatexToPDF e content []) as [[pdf|] l]; cbn [fst].
    + destruct (above_floor pdf) eqn:E; cbn [fst];
        [apply Hfloor, E | apply Hlib].
    + apply Hlib.
  - unfold RouteTs.generateSamplePDF, bind, ret.
    destruct (RouteTs.compileLatexToPDF e content []) as [[pdf|] l] eqn:E;
      cbn [fst]; [|apply Hlib].
    assert (H : accepted_from e true pdf).
    { revert E. unfold RouteTs.compileLatexToPDF, bind, ret.
      destruct (race e 30000%N (RouteTs.tryLatexOnline e content) [])
        as [[p1|] l1] eqn:R1.
      - intros E. injection E as E _. subst p1.
        apply (route_client_checks_type_and_floor e content []).
        apply (race_some e 30000%N). rewrite R1. reflexivity.
      - destruct (negb (String.eqb
                          (RouteTs.simplifyLatexForOnlineServices content)
                          content)); [|discriminate].
        destruct (race e 25000%N
                    (RouteTs.tryLatexOnline e
                       (RouteTs.simplifyLatexForOnlineServices content)) l1)
          as [[p2|] l2] eqn:R2; [|discriminate].
        intros E. injection E as E _. subst p2.
        apply (route_client_checks_type_and_floor e
                 (RouteTs.simplifyLatexForOnlineServices content) l1).
        apply (race_some e 25000%N). rewrite R2. reflexivity. }
    destruct H as [l0 [rq [r [_ [_ [Hb [_ <-]]]]]]]. apply Hfloor, Hb.
Qed.

Lemma compile_always_yields_document_witness :
  (success (fst (@compile alt_html plain_pdf minimal_source)) = true
   /\ exists doc,
        pdfBuffer (fst (@compile alt_html plain_pdf minimal_source))
        = Some doc /\ doc <> [])
  /\ (success (fst (@RouteTs.compile alt_html plain_pdf minimal_source))
      = true
      /\ exists doc,
           pdfBuffer (fst (@RouteTs.compile alt_html plain_pdf
                             minimal_source)) = Some doc
           /\ doc <> []).
Proof.
  apply (compile_always_yields_document alt_html plain_pdf minimal_source).
  - intros ops. discriminate.
  - reflexivity.
Defined.

Section HandlerFacts.

Lemma trimEnd_blank (s : string) :
  trimEnd s = EmptyString ->
  forallb is_space (list_ascii_of_string s) = true.
Proof.
  induction s as [|c s IH]; cbn [trimEnd list_ascii_of_string forallb];
    [reflexivity|].
  destruct (trimEnd s) eqn:E; [|discriminate].
  destruct (is_space c); [intros _; apply IH; reflexivity | discriminate].
Qed.

Lemma trimStart_suffix (s : string) :
  exists ws, s = ws ++ trimStart s
             /\ forallb is_space (list_ascii_of_string ws) = true.
Proof.
  induction s as [|c s [ws [E H]]]; cbn [trimStart].
  - exists EmptyString. split; reflexivity.
  - destruct (is_space c) eqn:Ec.
    + exists (String c ws). cbn [append list_ascii_of_string forallb].
      rewrite Ec, H. split; [f_equal; exact E | reflexivity].
    + exists EmptyString. split; reflexivity.
Qed.

Lemma forallb_app_s (p : ascii -> bool) (a b : string) :
  forallb p (list_ascii_of_string (a ++ b))
  = forallb p (list_ascii_of_string a) && forallb p (list_ascii_of_string b).
Proof.
  induction a as [|c a IH]; cbn [append list_ascii_of_string forallb];
    [reflexivity|].
  rewrite IH. apply andb_assoc.
Qed.

Lemma trim_blank (s : string) :
  trim s = EmptyString ->
  forallb is_space (list_ascii_of_string s) = true.
Proof.
  unfold trim. intros H. apply trimEnd_blank in H.
  destruct (trimStart_suffix s) as [ws [E Hws]].
  rewrite E, forallb_app_s, Hws, H. reflexivity.
Qed.

Lemma blank_lacks_backslash (s : string) :
  forallb is_space (list_ascii_of_string s) = true ->
  forall x, includes s (String "\" x) = false.
Proof.
  induction s as [|c s IH]; intros H x; [reflexivity|].
  cbn [list_ascii_of_string forallb] in H. apply andb_true_iff in H.
  destruct H as [Hc Hs].
  cbn [includes startsWith]. rewrite (IH Hs).
  destruct (Ascii.eqb "\" c) eqn:E; [|reflexivity].
  apply Ascii.eqb_eq in E. subst c. discriminate.
Qed.

Lemma truthy_trim (s : string) : truthy (trim s) = true -> truthy s = true.
Proof. destruct s; [discriminate | reflexivity]. Qed.

Lemma property_compile_body (latexContent : string) :
  property (JObject [("content", JString latexContent);
                     ("template", JString "modern")]) "content"
  = Some (JString latexContent).
Proof. reflexivity. Qed.

End HandlerFacts.

Section HandlerTable.

Variable simulate : string -> M CompilationResult.
Variable run : string -> CompilationResult * list request.

Hypothesis run_is_simulate : forall source, simulate source [] = run source.
Hypothesis run_invalid :
  forall source message,
    validate source = Some message -> run source = (failure message, []).
Hypothesis run_valid :
  forall source,
    validate source = None -> exists doc, fst (run source) = compiled doc.

Lemma POST_source (request : Body) (source : string) :
  source_of request = Some source ->
  POST simulate request []
  = (MkReply 200 (fst (run source)), snd (run source)).
Proof.
  unfold source_of. destruct request as [|body]; [discriminate|].
  destruct body; try discriminate. cbn [property].
  destruct (member "content" members) as [[| | |s| |]|] eqn:E;
    try discriminate.
  destruct (truthy s) eqn:Es; [|discriminate].
  intros H. injection H as <-.
  unfold POST. cbn [property]. rewrite E. cbn [json_truthy]. rewrite Es.
  cbn [negb]. unfold bind, ret. rewrite run_is_simulate.
  destruct (run s). reflexivity.
Qed.

Lemma simulate_other_quiet (content : Json) :
  match simulate_other content with
  | Returned result => success result = false /\ pdfBuffer result = None
  | Thrown => True
  end.
Proof.
  destruct content; cbn [simulate_other]; try exact I.
  repeat match goal with
         | |- context [if ?b then _ else _] => destruct b
         end; try exact I; split; reflexivity.
Qed.

Lemma POST_other (request : Body) :
  source_of request = None ->
  snd (POST simulate request []) = []
  /\ success (result (fst (POST simulate request []))) = false
  /\ pdfBuffer (result (fst (POST simulate request []))) = None
  /\ In (status (fst (POST simulate request []))) [400; 500; 200].
Proof.
  unfold source_of. destruct request as [|body].
  { intros _. cbn. auto 8. }
  destruct body; try (intros _; cbn; auto 8; fail).
  cbn [property]. unfold POST. cbn [property].
  destruct (member "content" members) as [content|] eqn:E;
    [|intros _; cbn; auto 8].
  destruct (json_truthy content) eqn:Et; [|intros _; cbn; auto 8].
  cbn [negb].
  destruct content as [|b|n|s|items|ms]; cbn [json_truthy] in Et.
  - discriminate.
  - intros _. cbn. auto 8.
  - intros _. cbn. auto 8.
  - rewrite Et. discriminate.
  - intros _. pose proof (simulate_other_quiet (JArray items)) as Q.
    destruct (simulate_other (JArray items)) as [|r].
    + cbn. auto 8.
    + destruct Q as [Q1 Q2]. cbn [ret fst snd result status].
      rewrite Q1, Q2. cbn. auto 8.
  - intros _. cbn. auto 8.
Qed.

Lemma POST_status_400 (request : Body) :
  status (fst (POST simulate request [])) = 400
  <-> missing_content request = true.
Proof.
  destruct (source_of request) as [source|] eqn:Es.
  - rewrite (POST_source request source Es). cbn [fst status].
    split; [discriminate|]. intros H. exfalso.
    unfold source_of, missing_content in *.
    destruct request as [|body]; [discriminate|].
    destruct body; try discriminate. cbn [property] in *.
    destruct (member "content" members) as [[| | |s| |]|]; try discriminate.
    cbn [json_truthy] in H. destruct (truthy s); discriminate.
  - unfold source_of, missing_content in *.
    destruct request as [|body]; [cbn; split; discriminate|].
    destruct body as [|b|n|s|items|members].
    + cbn. split; discriminate.
    + cbn. split; reflexivity.
    + cbn. split; reflexivity.
    + cbn. split; reflexivity.
    + cbn. split; reflexivity.
    + cbn [property] in *. unfold POST. cbn [property].
      destruct (member "content" members) as [content|];
        [|cbn; split; reflexivity].
      destruct (json_truthy content) eqn:Et;
        [|cbn; split; reflexivity].
      cbn [negb].
      destruct content as [|b|n|s|items|ms]; cbn [json_truthy] in Et.
      * discriminate.
      * cbn. split; discriminate.
      * cbn. split; discriminate.
      * rewrite Et in Es. discriminate.
      * destruct (simulate_other (JArray items)); cbn; split; discriminate.
      * cbn. split; discriminate.
Qed.

Lemma POST_document (request : Body) :
  pdfBuffer (result (fst (POST simulate request []))) <> None
  <-> exists source,
        source_of request = Some source /\ validate source = None.
Proof.
  destruct (source_of request) as [source|] eqn:Es.
  - rewrite (POST_source request source Es). cbn [fst result].
    destruct (validate source) as [message|] eqn:Ev.
    + rewrite (run_invalid source message Ev). cbn. split.
      * intros H. contradiction.
      * intros [s [H1 H2]]. injection H1 as <-. congruence.
    + destruct (run_valid source Ev) as [doc ->]. cbn. split.
      * intros _. exists source. auto.
      * discriminate.
  - destruct (POST_other request Es) as [_ [_ [-> _]]]. split.
    + intros H. contradiction.
    + intros [s [H _]]. discriminate.
Qed.

End HandlerTable.

(** X6.  The handler runs [compile], and so makes remote requests, only
    for a [content] that is a string and not empty; it then answers 200
    with the result, also when a check fails.  Every other request is
    answered without a request, without a document and with
    [success: false].  The status is 400 exactly when the body is JSON
    other than [null] whose [content] is absent or falsy.  The reply
    carries a document exactly when the content is a string that passes
    the four checks.  A body that is not JSON, the body [null] and a
    [content] that is a number other than zero are answered 500, and every
    status is 400, 500 or 200.  The same holds in [route.ts]. *)
Theorem post_status_and_document
  (e : env) (lib : PdfLib) (req : Body) (n : number) :
  (answers_by_content (POST (simulateLatexCompilation e)) (compile e) req
   /\ answers_500 (POST (simulateLatexCompilation e)) n)
  /\ (answers_by_content (POST (RouteTs.simulateLatexCompilation e))
                         (RouteTs.compile e) req
      /\ answers_500 (POST (RouteTs.simulateLatexCompilation e)) n).
Proof.
  assert (G : forall (simulate : string -> M CompilationResult)
                     (run : string -> CompilationResult * list request),
             (forall source, simulate source [] = run source) ->
             (forall source message,
                 validate source = Some message ->
                 run source = (failure message, [])) ->
             (forall source,
                 validate source = None ->
                 exists doc, fst (run source) = compiled doc) ->
             answers_by_content (POST simulate) run req
             /\ answers_500 (POST simulate) n).
  { intros simulate run H1 H2 H3. split.
    - split; [|split].
      + destruct (source_of req) as [source|] eqn:Es.
        * apply (POST_source simulate run H1 req source Es).
        * apply (POST_other simulate req Es).
      + apply (POST_status_400 simulate run H1 req).
      + apply (POST_document simulate run H1 H2 H3 req).
    - split; [reflexivity|]. split; [reflexivity|].
      intros Hn. destruct n as [negative|mantissa exponent];
        [reflexivity|].
      cbn [json_truthy] in Hn. unfold POST. cbn. rewrite Hn. reflexivity. }
  split.
  - apply G.
    + reflexivity.
    + intros source message H. apply (compile_invalid e source message H).
    + intros source H. rewrite (proj1 (compile_valid e source H)).
      eexists. reflexivity.
  - apply G.
    + reflexivity.
    + intros source message H. apply (compile_invalid e source message H).
    + intros source H. rewrite (proj2 (compile_valid e source H)).
      eexists. reflexivity.
Qed.

Lemma post_status_and_document_witness :
  POST (@simulateLatexCompilation offline plain_pdf)
       (Parsed (JObject [("content", JNumber (Finite 123 0))])) []
  = (internal_error, []).
Proof.
  apply (proj2 (proj2 (proj2 (proj1
           (post_status_and_document offline plain_pdf Unreadable
              (Finite 123 0)))))).
  reflexivity.
Defined.

(** X7.  A manual compile in the editor sends nothing when the source is
    blank.  When the source fails a check, the preview keeps the document
    that it showed before and no remote request is made: the error of the
    reply is not displayed.  When the source passes the checks, the preview
    becomes the document of the reply.  The busy flag is cleared whenever
    a request was sent. *)
Theorem preview_after_manual_compile
  (e : env) (lib : PdfLib) (latexContent : string) (editor : Editor) :
  let api := served (POST (simulateLatexCompilation e)) in
  (truthy (trim latexContent) = false ->
   handleManualCompile api latexContent editor [] = (editor, []))
  /\ (truthy (trim latexContent) = true ->
      match validate latexContent with
      | Some _ =>
          handleManualCompile api latexContent editor []
          = (MkEditor (pdfData editor) false, [])
      | None =>
          handleManualCompile api latexContent editor []
          = (MkEditor (pdfBuffer (fst (compile e latexContent))) false,
             snd (compile e latexContent))
          /\ pdfBuffer (fst (compile e latexContent)) <> None
      end).
Proof.
  cbv zeta. split.
  - intros H. unfold handleManualCompile. rewrite H. reflexivity.
  - intros H. unfold handleManualCompile. rewrite H. cbn [negb].
    assert (Hne : latexContent <> EmptyString).
    { intros ->. discriminate. }
    assert (Hrun : POST (simulateLatexCompilation e)
                     (compile_body latexContent) []
                   = (MkReply 200 (fst (compile e latexContent)),
                      snd (compile e latexContent))).
    { unfold POST, compile_body, bind, ret.
      rewrite property_compile_body. cbn [json_truthy].
      rewrite (truthy_trim _ H). cbn [negb].
      unfold compile. destruct (simulateLatexCompilation e latexContent []).
      reflexivity. }
    unfold served, bind, ret. unfold bind, ret in Hrun. rewrite Hrun.
    cbn [reply_ok status result andb Nat.leb].
    destruct (validate latexContent) as [message|] eqn:Ev.
    + rewrite (proj1 (compile_invalid e latexContent message Ev)).
      reflexivity.
    + rewrite (proj1 (compile_valid e latexContent Ev)). cbn [fst pdfBuffer].
      split; [reflexivity | discriminate].
Qed.

Lemma preview_after_manual_compile_witness :
  @handleManualCompile
    (served (POST (@simulateLatexCompilation offline plain_pdf)))
    "  " (MkEditor None false) []
  = (MkEditor None false, [])
  /\ @handleManualCompile
       (served (POST (@simulateLatexCompilation offline plain_pdf)))
       "hello" (MkEditor (Some big_body) true) []
     = (MkEditor (Some big_body) false, []).
Proof.
  split.
  - apply (proj1 (preview_after_manual_compile offline plain_pdf "  "
                    (MkEditor None false))). reflexivity.
  - apply (proj2 (preview_after_manual_compile offline plain_pdf "hello"
                    (MkEditor (Some big_body) true)) eq_refl).
Defined.

(* ================================================================== *)
(** ** Further facts on strings *)

Section TrimFacts.

Lemma trimEnd_cons (c : ascii) (s : string) :
  trimEnd (String c s)
  = match trimEnd s with
    | EmptyString => if is_space c then EmptyString else String c EmptyString
    | t => String c t
    end.
Proof. reflexivity. Qed.

Lemma trimEnd_idem (s : string) : trimEnd (trimEnd s) = trimEnd s.
Proof.
  induction s as [|c s IH]; [reflexivity|].
  rewrite trimEnd_cons. destruct (trimEnd s) as [|d t] eqn:E.
  - destruct (is_space c) eqn:Ec; [reflexivity|].
    rewrite trimEnd_cons. cbn [trimEnd]. rewrite Ec. reflexivity.
  - rewrite trimEnd_cons, IH. reflexivity.
Qed.

Lemma trimStart_idem (s : string) : trimStart (trimStart s) = trimStart s.
Proof.
  induction s as [|c s IH]; [reflexivity|].
  cbn [trimStart]. destruct (is_space c) eqn:Ec; [exact IH|].
  cbn [trimStart]. rewrite Ec. reflexivity.
Qed.

Lemma trimEnd_head (a : ascii) (s : string) :
  is_space a = false -> exists t, trimEnd (String a s) = String a t.
Proof.
  intros Ha. cbn [trimEnd]. destruct (trimEnd s) as [|d t].
  - rewrite Ha. exists EmptyString. reflexivity.
  - exists (String d t). reflexivity.
Qed.

Lemma trimStart_trimEnd (s : string) :
  trimStart (trimEnd s) = trimEnd (trimStart s).
Proof.
  induction s as [|c s IH]; [reflexivity|].
  destruct (is_space c) eqn:Ec.
  - cbn [trimStart]. rewrite Ec. rewrite <- IH.
    cbn [trimEnd]. destruct (trimEnd s) as [|d t].
    + rewrite Ec. reflexivity.
    + cbn [trimStart]. rewrite Ec. reflexivity.
  - cbn [trimStart]. rewrite Ec.
    destruct (trimEnd_head c s Ec) as [t ->].
    cbn [trimStart]. rewrite Ec. reflexivity.
Qed.

Lemma trim_idem (s : string) : trim (trim s) = trim s.
Proof.
  unfold trim. rewrite trimStart_trimEnd, trimStart_idem, trimEnd_idem.
  reflexivity.
Qed.

Lemma trim_trimStart (s : string) : trim (trimStart s) = trim s.
Proof. unfold trim. rewrite trimStart_idem. reflexivity. Qed.

Lemma trim_trimEnd (s : string) : trim (trimEnd s) = trim s.
Proof.
  unfold trim. rewrite trimStart_trimEnd, trimEnd_idem. reflexivity.
Qed.

Lemma forallb_trimStart (p : ascii -> bool) (s : string) :
  forallb p (list_ascii_of_string s) = true ->
  forallb p (list_ascii_of_string (trimStart s)) = true.
Proof.
  induction s as [|c s IH]; intros H; [reflexivity|].
  cbn [trimStart]. destruct (is_space c); [|exact H].
  cbn [list_ascii_of_string forallb] in H. apply andb_true_iff in H.
  apply IH, H.
Qed.

Lemma forallb_trimEnd (p : ascii -> bool) (s : string) :
  forallb p (list_ascii_of_string s) = true ->
  forallb p (list_ascii_of_string (trimEnd s)) = true.
Proof.
  induction s as [|c s IH]; intros H; [reflexivity|].
  cbn [list_ascii_of_string forallb] in H. apply andb_true_iff in H.
  destruct H as [Hc Hs]. specialize (IH Hs).
  cbn [trimEnd]. destruct (trimEnd s) as [|d t].
  - destruct (is_space c); [reflexivity|].
    cbn [list_ascii_of_string forallb]. rewrite Hc. reflexivity.
  - cbn [list_ascii_of_string forallb] in IH |- *. rewrite Hc. exact IH.
Qed.

Lemma forallb_trim (p : ascii -> bool) (s : string) :
  forallb p (list_ascii_of_string s) = true ->
  forallb p (list_ascii_of_string (trim s)) = true.
Proof. intros H. apply forallb_trimEnd, forallb_trimStart, H. Qed.

Lemma trimStart_app_stop (a : string) (x : ascii) (b : string) :
  is_space x = false ->
  trimStart (a ++ String x b) = trimStart a ++ String x b.
Proof.
  intros Hx. induction a as [|c a IH]; cbn [append trimStart].
  - rewrite Hx. reflexivity.
  - destruct (is_space c); [exact IH | reflexivity].
Qed.

(** A string without the character [c]. *)
Lemma none_of_lacks (c : ascii) (t : string) :
  forallb (none_of (String c EmptyString)) (list_ascii_of_string t) = true ->
  includes t (String c EmptyString) = false.
Proof.
  induction t as [|a t IH]; intros H; [reflexivity|].
  cbn [list_ascii_of_string forallb] in H. apply andb_true_iff in H.
  destruct H as [Ha Ht]. cbn [includes startsWith]. rewrite (IH Ht).
  unfold none_of in Ha. cbn [one_of] in Ha. rewrite orb_false_r in Ha.
  apply negb_true_iff in Ha. rewrite Ha. reflexivity.
Qed.

Lemma lacks_backslash_word (s x : string) :
  includes s "\" = false -> includes s (String "\" x) = false.
Proof.
  induction s as [|c s IH]; intros H; [reflexivity|].
  apply includes_cons_false in H. destruct H as [H1 H2].
  cbn [includes startsWith]. rewrite (IH H2).
  cbn [startsWith] in H1. rewrite andb_true_r in H1. rewrite H1.
  reflexivity.
Qed.

Lemma startsWith_app (p a b : string) :
  startsWith p a = true -> startsWith p (a ++ b) = true.
Proof.
  revert a. induction p as [|x p IH]; intros a H; [reflexivity|].
  destruct a as [|y a]; [discriminate|].
  cbn [startsWith append] in H |- *. apply andb_true_iff in H.
  destruct H as [H1 H2]. rewrite H1, (IH a H2). reflexivity.
Qed.

Lemma includes_prefix (a b c : string) :
  includes (a ++ b) c = false -> includes a c = false.
Proof.
  induction a as [|x a IH]; intros H.
  - cbn [append] in H. destruct c as [|y c]; [|reflexivity].
    destruct b; discriminate.
  - cbn [append] in H. apply includes_cons_false in H.
    destruct H as [H1 H2]. cbn [includes]. rewrite (IH H2), orb_false_r.
    destruct (startsWith c (String x a)) eqn:E; [|reflexivity].
    apply (startsWith_app c (String x a) b) in E. cbn [append] in E.
    congruence.
Qed.

End TrimFacts.

Section SplitFacts.

Lemma split_whole (sep : ascii) (s : string) :
  includes s (String sep EmptyString) = false -> split sep s = [s].
Proof.
  induction s as [|a s IH]; intros H; [reflexivity|].
  apply includes_cons_false in H. destruct H as [H1 H2].
  cbn [split]. cbn [startsWith] in H1. rewrite andb_true_r in H1.
  rewrite Ascii.eqb_sym, H1, (IH H2). reflexivity.
Qed.

Lemma split_at (sep : ascii) (a b : string) :
  includes a (String sep EmptyString) = false ->
  split sep (a ++ String sep b) = a :: split sep b.
Proof.
  induction a as [|x a IH]; intros H.
  - cbn [append split]. rewrite Ascii.eqb_refl. reflexivity.
  - apply includes_cons_false in H. destruct H as [H1 H2].
    cbn [append split]. cbn [startsWith] in H1.
    rewrite andb_true_r in H1. rewrite Ascii.eqb_sym, H1, (IH H2).
    reflexivity.
Qed.

Lemma lines_of_join (lines : list string) :
  lines <> [] ->
  Forall (fun l => includes l nl = false) lines ->
  lines_of (join nl lines) = lines.
Proof.
  intros Hne H. induction H as [|l ls Hl Hls IH]; [contradiction|].
  destruct ls as [|l' ls].
  - cbn [join]. apply split_one_line, Hl.
  - change (join nl (l :: l' :: ls)) with (l ++ nl ++ join nl (l' :: ls)).
    rewrite (split_first_line l _ Hl). rewrite IH by discriminate.
    reflexivity.
Qed.

End SplitFacts.

Section NoMatchFacts.

Lemma search_from_no_backslash (r : re) :
  needs_backslash r ->
  forall s start idx,
    includes s "\" = false -> search_from r start idx s = None.
Proof.
  intros Hr. induction s as [|c s IH]; intros start idx H.
  - cbn [search_from]. unfold match_here. rewrite Hr; [reflexivity|].
    cbn [rest]. discriminate.
  - cbn [search_from]. unfold match_here. rewrite Hr.
    + apply includes_cons_false in H. apply IH, H.
    + cbn [rest]. intros s' E. injection E as E _. subst c. discriminate.
Qed.

Lemma test_no_backslash (r : re) (s : string) :
  needs_backslash r -> includes s "\" = false -> test r s = false.
Proof.
  intros Hr H. unfold test, search.
  rewrite (search_from_no_backslash r Hr s true 0 H). reflexivity.
Qed.

Lemma search_from_no_start (L : string) (r : re) :
  needs_literal L r ->
  forall s start idx,
    includes s L = false -> search_from r start idx s = None.
Proof.
  intros Hr. induction s as [|c s IH]; intros start idx H.
  - cbn [search_from]. unfold match_here. rewrite Hr; [reflexivity|].
    cbn [rest]. cbn [includes] in H. apply orb_false_iff in H. apply H.
  - apply includes_cons_false in H. destruct H as [H1 H2].
    cbn [search_from]. unfold match_here. rewrite Hr by exact H1.
    apply IH, H2.
Qed.

Lemma needs_literal_lit (L : string) : needs_literal L (lit L).
Proof. intros k st H. apply mt_lit_fail, H. Qed.

Lemma needs_backslash_macro_head : needs_backslash macro_head.
Proof. unfold macro_head. apply needs_backslash_seqs, needs_backslash_chr. Qed.

Lemma needs_backslash_macro_head_nostar : needs_backslash macro_head_nostar.
Proof.
  unfold macro_head_nostar. apply needs_backslash_seqs, needs_backslash_chr.
Qed.

(** A line without backslash and closing brace is cleaned by trimming. *)
Lemma clean_line_plain (line : string) :
  includes line "\" = false -> includes line "}" = false ->
  clean_line line = trim line.
Proof.
  intros H1 H2. unfold clean_line.
  rewrite (replace_with_no_match macro_head _ line)
    by (apply test_no_backslash; [apply needs_backslash_macro_head | exact H1]).
  rewrite (replace_with_no_match (lit "}") _ line); [reflexivity|].
  unfold test, search.
  rewrite (search_from_no_start "}" (lit "}") (needs_literal_lit "}")
             line true 0 H2).
  reflexivity.
Qed.

Lemma clean_nostar_plain (s : string) :
  includes s "\" = false -> includes s "}" = false ->
  clean_nostar s = trim s.
Proof.
  intros H1 H2. unfold clean_nostar.
  rewrite (replace_with_no_match macro_head_nostar _ s)
    by (apply test_no_backslash;
        [apply needs_backslash_macro_head_nostar | exact H1]).
  rewrite (replace_with_no_match (lit "}") _ s); [reflexivity|].
  unfold test, search.
  rewrite (search_from_no_start "}" (lit "}") (needs_literal_lit "}")
             s true 0 H2).
  reflexivity.
Qed.

End NoMatchFacts.

(* ================================================================== *)
(** ** What a capture group holds after a match *)

Section CaptureFacts.

Lemma get_cap_set_same (i : nat) (v : string) (cs : list (nat * string)) :
  get_cap i (set_cap i v cs) = Some v.
Proof. unfold set_cap. cbn [get_cap]. rewrite Nat.eqb_refl. reflexivity. Qed.

Lemma get_cap_set_other (i j : nat) (v : string) (cs : list (nat * string)) :
  (j =? i) = false -> get_cap i (set_cap j v cs) = get_cap i cs.
Proof.
  intros H. unfold set_cap. cbn [get_cap]. rewrite H.
  induction cs as [|[n w] cs IH]; [reflexivity|].
  cbn [filter fst get_cap].
  destruct (n =? j) eqn:E; cbn [negb].
  - apply Nat.eqb_eq in E. subst n. rewrite H. exact IH.
  - cbn [get_cap]. rewrite IH. reflexivity.
Qed.

Lemma keeps_Some (i : nat) (P : string -> Prop) : keeps i P Some.
Proof. intros st x H Hc. injection H as <-. exact Hc. Qed.

Lemma star_loop_keeps (i : nat) (P : string -> Prop) (greedy : bool)
  (step : (mstate -> option mstate) -> mstate -> option mstate)
  (k : mstate -> option mstate) :
  (forall k', keeps i P k' -> keeps i P (step k')) ->
  keeps i P k ->
  forall n, keeps i P (star_loop greedy step k n).
Proof.
  intros Hstep Hk. induction n as [|n IH]; [exact Hk|].
  assert (Hin : forall st0,
             keeps i P (fun st' => if advanced st0 st'
                                   then star_loop greedy step k n st'
                                   else None)).
  { intros st0 st x H Hc. destruct (advanced st0 st); [|discriminate].
    apply (IH st x H Hc). }
  intros st x H Hc. cbn [star_loop] in H. destruct greedy.
  - destruct (step _ st) as [y|] eqn:E.
    + injection H as <-. apply (Hstep _ (Hin st) st y E Hc).
    + apply (Hk st x H Hc).
  - destruct (k st) as [y|] eqn:E.
    + injection H as <-. apply (Hk st y E Hc).
    + apply (Hstep _ (Hin st) st x H Hc).
Qed.

Lemma mt_keeps (i : nat) (P : string -> Prop) (r : re) :
  no_group i r = true ->
  forall k, keeps i P k -> keeps i P (mt r k).
Proof.
  induction r as [|p|r1 IH1 r2 IH2|r1 IH1 r2 IH2|g r1 IH1|j r1 IH1|r1 IH1| |];
    cbn [no_group]; intros Hn k Hk.
  - exact Hk.
  - intros [a s cs] x H Hc. cbn [mt rest] in H.
    destruct s as [|c s]; [discriminate|].
    destruct (p c); [|discriminate].
    apply (Hk _ x H). exact Hc.
  - apply andb_true_iff in Hn. destruct Hn as [H1 H2].
    intros st x H. rewrite mt_seq in H. revert st x H.
    apply (IH1 H1), (IH2 H2), Hk.
  - apply andb_true_iff in Hn. destruct Hn as [H1 H2].
    intros st x H Hc. rewrite mt_alt in H.
    destruct (mt r1 k st) as [y|] eqn:E.
    + injection H as <-. apply (IH1 H1 k Hk st y E Hc).
    + apply (IH2 H2 k Hk st x H Hc).
  - intros st x H Hc. cbn [mt] in H.
    apply (star_loop_keeps i P g (mt r1) k
             (fun k' Hk' => IH1 Hn k' Hk') Hk _ st x H Hc).
  - apply andb_true_iff in Hn. destruct Hn as [Hj H1].
    apply negb_true_iff in Hj.
    intros st x H. rewrite mt_grp in H. revert x H. revert st.
    assert (Hin : forall st0,
               keeps i P (fun st' =>
                            k (MState (at0 st') (rest st')
                                 (set_cap j (consumed st0 st') (caps st'))))).
    { intros st0 st x H [v [Hv Pv]]. apply (Hk _ x H).
      exists v. cbn [caps]. rewrite (get_cap_set_other i j _ _ Hj).
      split; assumption. }
    intros st x H Hc. apply (IH1 H1 _ (Hin st) st x H Hc).
  - intros st x H Hc. rewrite mt_ahead in H.
    destruct (mt r1 Some st) as [st'|] eqn:E; [|discriminate].
    pose proof (IH1 Hn Some (keeps_Some i P) st st' E Hc) as Hc'.
    apply (Hk _ x H). exact Hc'.
  - intros st x H Hc. cbn [mt] in H. destruct (at0 st); [|discriminate].
    apply (Hk st x H Hc).
  - intros st x H Hc. cbn [mt] in H. destruct (rest st); [|discriminate].
    apply (Hk st x H Hc).
Qed.

(** The states that a star over a character class reaches: the input
    consumed is a run of characters of the class. *)
Lemma star_class_inv (greedy : bool) (p : ascii -> bool)
  (k : mstate -> option mstate) :
  forall n st x,
    star_loop greedy (mt (Chr p)) k n st = Some x ->
    exists v st',
      k st' = Some x
      /\ rest st = v ++ rest st'
      /\ forallb p (list_ascii_of_string v) = true
      /\ caps st' = caps st.
Proof.
  assert (Hstay : forall st x, k st = Some x ->
             exists v st', k st' = Some x /\ rest st = v ++ rest st'
                           /\ forallb p (list_ascii_of_string v) = true
                           /\ caps st' = caps st).
  { intros st x H. exists EmptyString, st. auto. }
  induction n as [|n IH]; intros st x H; cbn [star_loop] in H;
    [apply Hstay, H|].
  assert (Hstep :
            mt (Chr p)
               (fun st' => if advanced st st'
                           then star_loop greedy (mt (Chr p)) k n st'
                           else None) st = Some x ->
            exists v st', k st' = Some x /\ rest st = v ++ rest st'
                          /\ forallb p (list_ascii_of_string v) = true
                          /\ caps st' = caps st).
  { destruct st as [a s cs]. cbn [mt rest caps].
    destruct s as [|c s]; [discriminate|].
    destruct (p c) eqn:Ec; [|discriminate].
    rewrite advanced_cons. intros H'.
    destruct (IH _ x H') as [v [st' [H1 [H2 [H3 H4]]]]].
    exists (String c v), st'. cbn [rest caps] in *.
    split; [exact H1|]. split; [cbn [append]; rewrite H2; reflexivity|].
    split; [|exact H4].
    cbn [list_ascii_of_string forallb]. rewrite Ec, H3. reflexivity. }
  destruct greedy.
  - destruct (mt (Chr p) _ st) as [y|] eqn:E.
    + apply Hstep, H.
    + apply Hstay, H.
  - destruct (k st) as [y|] eqn:E.
    + injection H as H. subst y. apply Hstay. exact E.
    + apply Hstep, H.
Qed.

(** A group over [p+]: the continuation runs with the group set to a run
    of characters of the class that is not empty. *)
Lemma grp_plus_class_inv (i : nat) (p : ascii -> bool)
  (k : mstate -> option mstate) (st x : mstate) :
  mt (Grp i (plus (Chr p))) k st = Some x ->
  exists v st',
    k st' = Some x
    /\ get_cap i (caps st') = Some v
    /\ v <> EmptyString
    /\ forallb p (list_ascii_of_string v) = true.
Proof.
  rewrite mt_grp. unfold plus. rewrite mt_seq.
  destruct st as [a s cs]. cbn [mt rest caps].
  destruct s as [|c s]; [discriminate|].
  destruct (p c) eqn:Ec; [|discriminate].
  intros H. apply star_class_inv in H.
  destruct H as [v [st' [H1 [H2 [H3 H4]]]]]. cbn [rest caps] in H2, H4.
  eexists (String c v), _. split; [exact H1|]. cbn [caps].
  split.
  - rewrite get_cap_set_same. f_equal. unfold consumed. cbn [rest].
    rewrite H2. change (String c (v ++ rest st')) with (String c v ++ rest st').
    apply take_app_length.
  - split; [discriminate|].
    cbn [list_ascii_of_string forallb]. rewrite Ec, H3. reflexivity.
Qed.

(** Every result of an [exec] loop is a match of the pattern at some
    position of the input. *)
Lemma exec_from_sound (r : re) (P : rmatch -> Prop) :
  (forall start idx s st',
      match_here r start s = Some st' -> P (mk_match idx s st')) ->
  forall s skip start idx, Forall P (exec_from r skip start idx s).
Proof.
  intros H. induction s as [|c s IH]; intros skip start idx.
  - destruct skip; cbn [exec_from]; [|constructor].
    destruct (match_here r start EmptyString) eqn:E; constructor;
      [apply (H _ _ _ _ E) | constructor].
  - destruct skip; cbn [exec_from]; [|apply IH].
    destruct (match_here r start (String c s)) eqn:E; [|apply IH].
    constructor; [apply (H _ _ _ _ E) | apply IH].
Qed.

Lemma class_not_close (v : string) :
  v <> EmptyString ->
  forallb (none_of "}") (list_ascii_of_string v) = true ->
  brace_free v.
Proof. intros H1 H2. split; [exact H1 | apply none_of_lacks, H2]. Qed.

(** After a match of the section pattern, or of the subsection pattern,
    group 1 holds a title that is not empty and has no closing brace. *)
Lemma section_title_captured (sub : string) (boundary : re) (start : bool)
  (s : string) (st' : mstate) :
  no_group 1 boundary = true ->
  match_here
    (seqs [lit sub; opt (chr "*"); lit "{"; Grp 1 (plus not_close);
           lit "}"; Grp 2 (lazy any); Ahead boundary]) start s = Some st' ->
  cap_holds 1 brace_free st'.
Proof.
  intros Hb. unfold match_here. cbn [seqs]. intros H.
  rewrite mt_seq in H. destruct (mt_monotone _ _ _ _ H) as [s1 [H1 _]].
  rewrite mt_seq in H1. destruct (mt_monotone _ _ _ _ H1) as [s2 [H2 _]].
  rewrite mt_seq in H2. destruct (mt_monotone _ _ _ _ H2) as [s3 [H3 _]].
  rewrite mt_seq in H3. unfold not_close in H3. apply grp_plus_class_inv in H3.
  destruct H3 as [v [s4 [H4 [Hv [Hne Hcl]]]]].
  assert (K : keeps 1 brace_free
                (mt (Seq (lit "}")
                         (Seq (Grp 2 (lazy any)) (Ahead boundary))) Some)).
  { apply mt_keeps; [|apply keeps_Some].
    cbn [no_group lit chr Nat.eqb negb andb lazy]. exact Hb. }
  apply (K s4 st' H4). exists v. split; [exact Hv|].
  apply class_not_close; assumption.
Qed.

Lemma section_pattern_title (start : bool) (s : string) (st' : mstate) :
  match_here sectionPattern start s = Some st' ->
  cap_holds 1 brace_free st'.
Proof. apply section_title_captured. reflexivity. Qed.

Lemma subsection_pattern_title (start : bool) (s : string) (st' : mstate) :
  match_here subsectionPattern start s = Some st' ->
  cap_holds 1 brace_free st'.
Proof. apply section_title_captured. reflexivity. Qed.

Lemma section_of_match_well_formed (r : re) :
  (forall start s st',
      match_here r start s = Some st' -> cap_holds 1 brace_free st') ->
  forall s,
    Forall (fun section =>
              brace_free (title section)
              /\ trim (content section) = content section)
           (map section_of_match (exec_all r s)).
Proof.
  intros H s. apply Forall_map. unfold exec_all.
  apply exec_from_sound. intros start idx s0 st' Hm.
  destruct (H start s0 st' Hm) as [v [Hv Pv]].
  unfold section_of_match, group_str, group, mk_match.
  cbn [m_caps title content]. rewrite Hv.
  split; [exact Pv | apply trim_idem].
Qed.

End CaptureFacts.

(** X8.  Every section that [extractAllSections] returns, for every
    source, has a title that is not empty and holds no closing brace, and
    a content without white space at its ends. *)
Theorem sections_are_well_formed (latex : string) :
  Forall (fun section =>
            brace_free (title section)
            /\ trim (content section) = content section)
         (extractAllSections latex).
Proof.
  unfold extractAllSections. apply Forall_app. split.
  - apply section_of_match_well_formed. apply section_pattern_title.
  - apply section_of_match_well_formed. apply subsection_pattern_title.
Qed.

(* ================================================================== *)
(** ** The first occurrence of a macro *)

Section MacroFacts.

(** [match] passes over a prefix in which no match starts. *)
Lemma search_from_pass (L : string) (r : re) (s : string) :
  needs_literal L r ->
  forall pre start idx,
    (forall t1 t2, pre = t1 ++ t2 -> t2 <> EmptyString ->
                   startsWith L (t2 ++ s) = false) ->
    exists start' idx',
      search_from r start idx (pre ++ s) = search_from r start' idx' s.
Proof.
  intros Hr pre. induction pre as [|c pre IH]; intros start idx H.
  - exists start, idx. reflexivity.
  - cbn [append search_from]. unfold match_here. rewrite Hr.
    + apply IH. intros t1 t2 E Hne. apply (H (String c t1) t2); [|exact Hne].
      cbn [append]. rewrite E. reflexivity.
    + cbn [rest]. apply (H EmptyString (String c pre) eq_refl). discriminate.
Qed.

Lemma search_from_here (r : re) (start : bool) (idx : nat) (s : string)
  (st' : mstate) :
  match_here r start s = Some st' ->
  search_from r start idx s = Some (mk_match idx s st').
Proof. intros H. destruct s; cbn [search_from]; rewrite H; reflexivity. Qed.

Lemma braced_shape (macro v post : string) :
  braced macro v ++ post = macro ++ ("{" ++ (v ++ String "}" post)).
Proof.
  unfold braced. repeat rewrite append_assoc_s. reflexivity.
Qed.

(** The pattern [\macro\{([^}]+)\}] on the macro with an argument that is
    not empty and holds no closing brace. *)
Lemma braced1_match (macro v post : string) (start : bool) :
  macro <> EmptyString ->
  v <> EmptyString ->
  includes v "}" = false ->
  match_here (braced1 macro) start (braced macro v ++ post)
  = Some (MState false post [(1, v)]).
Proof.
  intros Hm Hv Hc. rewrite braced_shape. unfold match_here, braced1.
  cbn [seqs].
  rewrite mt_seq, (mt_lit macro) by exact Hm.
  rewrite mt_seq, (mt_lit "{") by discriminate.
  rewrite mt_seq. unfold not_close.
  apply mt_grp_plus_class;
    [exact Hv | apply none_of_run, Hc | reflexivity |].
  change (String "}" post) with ("}" ++ post).
  rewrite (mt_lit "}") by discriminate. reflexivity.
Qed.

(** The first occurrence of the macro decides what [match] finds. *)
Lemma braced1_first (x lead v post : string) :
  one_of x "\" = false ->
  includes lead (String "\" x) = false ->
  v <> EmptyString ->
  includes v "}" = false ->
  exists m,
    search (braced1 (String "\" x)) (lead ++ braced (String "\" x) v ++ post)
    = Some m
    /\ group_str m 1 = v.
Proof.
  intros Hx Hlead Hv Hc.
  assert (Hneeds : needs_literal (String "\" x) (braced1 (String "\" x))).
  { unfold braced1. apply needs_literal_seqs. discriminate. }
  destruct (search_from_pass (String "\" x) _
              (braced (String "\" x) v ++ post) Hneeds lead true 0)
    as [start1 [idx1 E1]].
  { rewrite braced_shape.
    apply (no_start_before_bs x lead
             (x ++ ("{" ++ (v ++ String "}" post)))); assumption. }
  unfold search. rewrite E1.
  rewrite (search_from_here _ _ _ _ _
             (braced1_match (String "\" x) v post start1
                ltac:(discriminate) Hv Hc)).
  eexists. split; [reflexivity|]. reflexivity.
Qed.

Lemma trim_not_empty (v : string) : trim v <> EmptyString -> v <> EmptyString.
Proof. intros H E. subst v. apply H. reflexivity. Qed.

Lemma length_positive (s : string) :
  s <> EmptyString -> (0 <? String.length s) = true.
Proof. destruct s; [contradiction | reflexivity]. Qed.

Lemma lacks_one (s w : string) : lacks s [w] = true -> includes s w = false.
Proof. intros H. apply lacks_cons in H. apply H. Qed.

Lemma cventry_shape (a1 a2 a3 a4 a5 post : string) :
  cventry a1 a2 a3 a4 a5 ++ post
  = "\cventry"
    ++ ("{" ++ a1 ++ "}" ++ ("{" ++ a2 ++ "}" ++ ("{" ++ a3 ++ "}"
        ++ ("{" ++ a4 ++ "}" ++ ("{" ++ a5 ++ "}" ++ post))))).
Proof.
  unfold cventry. repeat rewrite append_assoc_s. reflexivity.
Qed.

Lemma cventry_match (a1 a2 a3 a4 a5 post : string) (start : bool) :
  includes a1 "}" = false -> includes a2 "}" = false ->
  includes a3 "}" = false -> includes a4 "}" = false ->
  includes a5 "}" = false ->
  match_here (seqs [lit "\cventry"; arg 1; arg 2; arg 3; arg 4; arg 5]) start
             (cventry a1 a2 a3 a4 a5 ++ post)
  = Some (MState false post [(5, a5); (4, a4); (3, a3); (2, a2); (1, a1)]).
Proof.
  intros H1 H2 H3 H4 H5. rewrite cventry_shape.
  unfold match_here. cbn [seqs].
  rewrite mt_seq, (mt_lit "\cventry") by discriminate.
  rewrite mt_seq. apply mt_arg; [exact H1|].
  rewrite mt_seq. apply mt_arg; [exact H2|].
  rewrite mt_seq. apply mt_arg; [exact H3|].
  rewrite mt_seq. apply mt_arg; [exact H4|].
  apply mt_arg; [exact H5|]. reflexivity.
Qed.

(** The first [\cventry] of a body heads the matches of its pattern. *)
Lemma cventry_first (lead a1 a2 a3 a4 a5 post : string) :
  includes lead "\cventry" = false ->
  includes a1 "}" = false -> includes a2 "}" = false ->
  includes a3 "}" = false -> includes a4 "}" = false ->
  includes a5 "}" = false ->
  exists idx others,
    exec_all (seqs [lit "\cventry"; arg 1; arg 2; arg 3; arg 4; arg 5])
             (lead ++ cventry a1 a2 a3 a4 a5 ++ post)
    = RMatch idx (cventry a1 a2 a3 a4 a5)
             [(5, a5); (4, a4); (3, a3); (2, a2); (1, a1)] post
      :: others.
Proof.
  intros Hlead H1 H2 H3 H4 H5.
  assert (Hneeds : needs_literal "\cventry"
                     (seqs [lit "\cventry"; arg 1; arg 2; arg 3; arg 4;
                            arg 5])).
  { apply needs_literal_seqs. discriminate. }
  destruct (exec_from_pass "\cventry" _ (cventry a1 a2 a3 a4 a5 ++ post)
              Hneeds lead true 0) as [start1 [idx1 E1]].
  { rewrite cventry_shape.
    apply (no_start_before_bs "cventry" lead
             ("cventry"
              ++ ("{" ++ a1 ++ "}" ++ ("{" ++ a2 ++ "}" ++ ("{" ++ a3 ++ "}"
                  ++ ("{" ++ a4 ++ "}" ++ ("{" ++ a5 ++ "}" ++ post)))))));
      [reflexivity | exact Hlead]. }
  pose proof (cventry_match a1 a2 a3 a4 a5 post start1 H1 H2 H3 H4 H5) as Hm.
  destruct (exec_from_match _ start1 idx1 (cventry a1 a2 a3 a4 a5) post _ _
              ltac:(discriminate) Hm) as [s' [i' E2]].
  unfold exec_all. rewrite E1, E2. eexists _, _. reflexivity.
Qed.

Lemma needs_backslash_chr_i : needs_backslash (chr_i "\").
Proof.
  intros k [a s cs] H. cbn [rest] in H. unfold chr_i. cbn [mt rest].
  destruct s as [|c s]; [reflexivity|].
  destruct (Ascii.eqb (lower_char c) (lower_char "\")) eqn:E; [|reflexivity].
  exfalso. apply (H s). f_equal. apply Ascii.eqb_eq in E.
  destruct c as [[] [] [] [] [] [] [] []]; try reflexivity;
    vm_compute in E; discriminate.
Qed.

End MacroFacts.

(** X9.  When the first [\name] of the source is the macro [\name{v}]
    with an argument that holds no closing brace and is not blank,
    [extractName] returns the argument without the white space at its
    ends, whatever else the source holds. *)
Theorem name_macro_wins (lead v post : string) :
  lacks lead ["\name"] = true ->
  lacks v ["}"] = true ->
  trim v <> EmptyString ->
  extractName (lead ++ braced "\name" v ++ post) = trim v.
Proof.
  intros Hlead Hv Hne.
  destruct (braced1_first "name" lead v post eq_refl (lacks_one _ _ Hlead)
              (trim_not_empty v Hne) (lacks_one _ _ Hv)) as [m [Hm Hg]].
  unfold extractName.
  change name_patterns with (braced1 "\name" :: tl name_patterns).
  cbn [first_nonblank]. rewrite Hm, Hg, (length_positive _ Hne).
  reflexivity.
Qed.

Lemma name_macro_wins_witness :
  extractName ("\documentclass{moderncv}\author{A. N. Other}"
               ++ braced "\name" " Jane Doe " ++ "\begin{document}\end{document}")
  = "Jane Doe".
Proof.
  apply (name_macro_wins "\documentclass{moderncv}\author{A. N. Other}"
           " Jane Doe " "\begin{document}\end{document}");
    [reflexivity | reflexivity | discriminate].
Defined.

(** X10.  When the first [\title] of the source is the macro [\title{v}]
    with an argument that holds no closing brace and is not blank,
    [extractTitle] returns the trimmed argument; a source without a
    backslash has the empty title. *)
Theorem title_macro_wins (lead v post : string) :
  (lacks lead ["\title"] = true ->
   lacks v ["}"] = true ->
   trim v <> EmptyString ->
   extractTitle (lead ++ braced "\title" v ++ post) = trim v)
  /\ (lacks lead ["\"] = true -> extractTitle lead = EmptyString).
Proof.
  split.
  - intros Hlead Hv Hne.
    destruct (braced1_first "title" lead v post eq_refl (lacks_one _ _ Hlead)
                (trim_not_empty v Hne) (lacks_one _ _ Hv)) as [m [Hm Hg]].
    unfold extractTitle.
    change title_patterns with (braced1 "\title" :: tl title_patterns).
    cbn [first_nonblank]. rewrite Hm, Hg, (length_positive _ Hne).
    reflexivity.
  - intros Hlead. apply lacks_one in Hlead.
    assert (Hnone : forall r, needs_backslash r -> search r lead = None).
    { intros r Hr. apply search_from_no_backslash; assumption. }
    unfold extractTitle, title_patterns. cbn [first_nonblank].
    rewrite !Hnone; [reflexivity| | | |];
      first [ apply needs_backslash_seqs, needs_backslash_lit
            | apply needs_backslash_seqs, needs_backslash_seq,
                needs_backslash_chr_i ].
Qed.

Lemma title_macro_wins_witness :
  extractTitle ("\name{Jane Doe}" ++ braced "\title" "Software Engineer "
                ++ "\begin{document}\end{document}")
  = "Software Engineer"
  /\ extractTitle "Jane Doe, Software Engineer" = EmptyString.
Proof.
  split.
  - apply (proj1 (title_macro_wins "\name{Jane Doe}" "Software Engineer "
                    "\begin{document}\end{document}"));
      [reflexivity | reflexivity | discriminate].
  - apply (proj2 (title_macro_wins "Jane Doe, Software Engineer"
                    EmptyString EmptyString)).
    reflexivity.
Defined.

(** X11.  [extractContact] reads the first [\email{v}], [\phone{v}] and
    [\address{v}] of the source, when the argument is not empty and holds
    no closing brace: the e-mail address and the postal address as
    written, the phone number without the white space at its ends.  A
    source with neither [\address] nor [\location] has no address. *)
Theorem contact_macros_are_read (lead v post latex : string) :
  (v <> EmptyString ->
   lacks v ["}"] = true ->
   (lacks lead ["\email"] = true ->
    email (extractContact (lead ++ braced "\email" v ++ post)) = Some v)
   /\ (lacks lead ["\phone"] = true ->
       phone (extractContact (lead ++ braced "\phone" v ++ post))
       = Some (trim v))
   /\ (lacks lead ["\address"] = true ->
       address (extractContact (lead ++ braced "\address" v ++ post))
       = Some v))
  /\ (lacks latex ["\address"; "\location"] = true ->
      address (extractContact latex) = None).
Proof.
  split.
  - intros Hne Hv. apply lacks_one in Hv.
    split; [|split]; intros Hlead; apply lacks_one in Hlead;
      unfold extractContact.
    + cbn [email].
      destruct (braced1_first "email" lead v post eq_refl Hlead Hne Hv)
        as [m [Hm Hg]].
      change emailPatterns with (braced1 "\email" :: tl emailPatterns).
      cbn [first_match]. rewrite Hm, Hg. reflexivity.
    + cbn [phone].
      destruct (braced1_first "phone" lead v post eq_refl Hlead Hne Hv)
        as [m [Hm Hg]].
      change phonePatterns with (braced1 "\phone" :: tl phonePatterns).
      cbn [first_match]. rewrite Hm, Hg. reflexivity.
    + cbn [address].
      destruct (braced1_first "address" lead v post eq_refl Hlead Hne Hv)
        as [m [Hm Hg]].
      change addressPatterns with (braced1 "\address" :: tl addressPatterns).
      cbn [first_match]. rewrite Hm, Hg. reflexivity.
  - intros H. apply lacks_cons in H. destruct H as [H1 H2].
    apply lacks_one in H2.
    unfold extractContact. cbn [address]. unfold addressPatterns.
    cbn [first_match]. unfold search.
    rewrite (search_from_no_start "\address" (braced1 "\address")
               ltac:(apply needs_literal_seqs; discriminate) latex true 0 H1).
    rewrite (search_from_no_start "\location" (braced1 "\location")
               ltac:(apply needs_literal_seqs; discriminate) latex true 0 H2).
    reflexivity.
Qed.

Lemma contact_macros_are_read_witness :
  extractContact moderncv_header
  = MkContact (Some "jane@example.org") (Some "555 0100")
              (Some "12 Main Street") None None
  /\ email (extractContact
              ("\name{Jane Doe}" ++ braced "\email" "jane@example.org"
               ++ "\begin{document}")) = Some "jane@example.org"
  /\ phone (extractContact
              ("\name{Jane Doe}" ++ braced "\phone" " 555 0100 "
               ++ "\begin{document}")) = Some "555 0100"
  /\ address (extractContact "\name{Jane Doe}") = None.
Proof.
  split; [vm_compute; reflexivity|].
  split; [|split].
  - apply (proj1 (proj1 (contact_macros_are_read "\name{Jane Doe}"
                           "jane@example.org" "\begin{document}" EmptyString)
                    ltac:(discriminate) eq_refl)).
    reflexivity.
  - apply (proj1 (proj2 (proj1 (contact_macros_are_read "\name{Jane Doe}"
                                  " 555 0100 " "\begin{document}"
                                  EmptyString)
                           ltac:(discriminate) eq_refl))).
    reflexivity.
  - apply (proj2 (contact_macros_are_read EmptyString EmptyString
                    EmptyString "\name{Jane Doe}")).
    reflexivity.
Defined.

(** X12.  The moderncv entry [\cventry{a1}{a2}{a3}{a4}{a5}], the first of
    a section body: the education parser reads it as period, degree,
    institution, location and grade; the experience parser, in a body
    without [\resumeSubheading], as period, position, company, location
    and details. *)
Theorem cventry_fields (lead a1 a2 a3 a4 a5 post : string) :
  let body := lead ++ cventry a1 a2 a3 a4 a5 ++ post in
  lacks lead ["\cventry"] = true ->
  lacks a1 ["}"] = true -> lacks a2 ["}"] = true ->
  lacks a3 ["}"] = true -> lacks a4 ["}"] = true ->
  lacks a5 ["}"] = true ->
  hd_error (parseEducationSection body)
  = Some (MkEducation a1 a2 a3 a4 a5)
  /\ (lacks body ["\resumeSubheading"] = true ->
      hd_error (parseExperienceSection body)
      = Some (MkExperience (Some a3) (Some a1) (Some a2) (Some a4)
                           (Some a5))).
Proof.
  intros body Hlead H1 H2 H3 H4 H5.
  apply lacks_one in Hlead, H1, H2, H3, H4, H5.
  destruct (cventry_first lead a1 a2 a3 a4 a5 post Hlead H1 H2 H3 H4 H5)
    as [idx [others E]].
  fold body in E. split.
  - unfold parseEducationSection, education_patterns.
    cbn [flat_map]. rewrite E. cbn [map app hd_error].
    unfold education_of_match, s_or_empty, group.
    cbn [m_caps get_cap Nat.eqb opt_or]. rewrite !or_else_empty.
    reflexivity.
  - intros Hsub. apply lacks_one in Hsub.
    unfold parseExperienceSection, experience_patterns.
    cbn [structured_experiences]. unfold exec_all at 1.
    assert (Hn : needs_literal "\resumeSubheading"
                   (seqs [lit "\resumeSubheading"; star space; arg 1;
                          star space; arg 2; star space; arg 3; star space;
                          arg 4]))
      by (apply needs_literal_seqs; discriminate).
    rewrite (exec_from_no_start _ _ Hn body true 0 Hsub).
    rewrite E. cbn [map app hd_error].
    unfold experience_of_match, field_of, group.
    cbn [m_caps get_cap Nat.eqb opt_or]. rewrite !or_else_empty.
    reflexivity.
Qed.

Lemma cventry_fields_witness :
  hd_error (parseEducationSection
              ("\begin{itemize}"
               ++ cventry "2015--2019" "B.Sc. Physics" "MIT" "Cambridge"
                          "GPA 3.9"
               ++ "\end{itemize}"))
  = Some (MkEducation "2015--2019" "B.Sc. Physics" "MIT" "Cambridge"
                      "GPA 3.9")
  /\ hd_error (parseExperienceSection
                 ("\begin{itemize}"
                  ++ cventry "2020--2022" "Engineer" "Acme Corp" "NYC"
                             "Built things"
                  ++ "\end{itemize}"))
     = Some (MkExperience (Some "Acme Corp") (Some "2020--2022")
                          (Some "Engineer") (Some "NYC")
                          (Some "Built things")).
Proof.
  split.
  - apply (proj1 (cventry_fields "\begin{itemize}" "2015--2019"
                    "B.Sc. Physics" "MIT" "Cambridge" "GPA 3.9"
                    "\end{itemize}" eq_refl eq_refl eq_refl eq_refl eq_refl
                    eq_refl)).
  - apply (proj2 (cventry_fields "\begin{itemize}" "2020--2022" "Engineer"
                    "Acme Corp" "NYC" "Built things" "\end{itemize}"
                    eq_refl eq_refl eq_refl eq_refl eq_refl eq_refl)).
    reflexivity.
Defined.

(* ================================================================== *)
(** ** Further facts on the parser *)

Section CategoryFacts.


Lemma categorize_summary (sections : Sections) (section : Section_) :
  summary (categorize sections section)
  = if classified_summary (title section) then content section
    else summary sections.
Proof.
  destruct sections as [n t c su ex ed sk pr ac raw].
  unfold categorize, classified_summary. cbv zeta.
  destruct (has (toLowerCase (title section)) "summary"
            || has (toLowerCase (title section)) "objective"
            || has (toLowerCase (title section)) "profile");
    [reflexivity|].
  repeat match goal with
         | |- context [if ?c then _ else _] => destruct c
         end; reflexivity.
Qed.

Lemma fold_categorize_summary (after : list Section_) :
  forallb (fun s => negb (classified_summary (title s))) after = true ->
  forall sections,
    summary (fold_left categorize after sections) = summary sections.
Proof.
  induction after as [|s after IH]; intros H sections; [reflexivity|].
  cbn [forallb] in H. apply andb_true_iff in H. destruct H as [Hs Hafter].
  cbn [fold_left]. rewrite (IH Hafter), categorize_summary.
  apply negb_true_iff in Hs. rewrite Hs. reflexivity.
Qed.

(** What [categorize] does to the two lists that the project parser
    fills. *)
Lemma categorize_projects (sections : Sections) (section : Section_) :
  (projects (categorize sections section) = projects sections
   \/ projects (categorize sections section)
      = parseProjectsSection (content section))
  /\ (achievements (categorize sections section) = achievements sections
      \/ achievements (categorize sections section)
         = parseProjectsSection (content section)).
Proof.
  destruct sections as [n t c su ex ed sk pr ac raw].
  unfold categorize. cbv zeta.
  repeat match goal with
         | |- context [if ?c then _ else _] => destruct c
         end; cbn [projects achievements]; auto.
Qed.

End CategoryFacts.

Section HeuristicFacts.

Lemma experience_line_invariant (st : Experience * list Experience)
  (line : string) :
  location (fst st) = None /\ details (fst st) = None
  /\ Forall heuristic_entry (snd st) ->
  location (fst (experience_line st line)) = None
  /\ details (fst (experience_line st line)) = None
  /\ Forall heuristic_entry (snd (experience_line st line)).
Proof.
  destruct st as [cur acc]. cbn [fst snd]. intros [Hl [Hd Hacc]].
  unfold experience_line.
  destruct (0 <? String.length (clean_line line)); [|cbn [fst snd]; auto].
  match goal with
  | |- context [if opt_truthy (position ?c) && opt_truthy (company ?c)
                then _ else _] =>
      assert (Hc : location c = None /\ details c = None);
      [| destruct (opt_truthy (position c)) eqn:Ep;
         destruct (opt_truthy (company c)) eqn:Ec;
         cbn [andb fst snd location details empty_experience];
         try (destruct Hc; auto; fail) ]
  end.
  - repeat match goal with
           | |- context [if ?c then _ else _] => destruct c
           end; cbn [location details]; auto.
  - split; [reflexivity|]. split; [reflexivity|].
    apply Forall_app. split; [exact Hacc|].
    constructor; [|constructor].
    unfold heuristic_entry. destruct Hc. auto.
Qed.

Lemma experience_lines_invariant (lines : list string) :
  forall st,
    location (fst st) = None /\ details (fst st) = None
    /\ Forall heuristic_entry (snd st) ->
    Forall heuristic_entry (snd (fold_left experience_line lines st)).
Proof.
  induction lines as [|line lines IH]; intros st H; cbn [fold_left].
  - apply H.
  - apply IH, experience_line_invariant, H.
Qed.

End HeuristicFacts.

Section SkillFacts.

Lemma lacks_char_app (c : ascii) (a b : string) :
  includes a (String c EmptyString) = false ->
  includes b (String c EmptyString) = false ->
  includes (a ++ b) (String c EmptyString) = false.
Proof.
  intros Ha Hb. apply none_of_lacks. rewrite forallb_app_s.
  rewrite (none_of_run c a Ha), (none_of_run c b Hb). reflexivity.
Qed.

Lemma plain_field_parts (s : string) :
  plain_field s = true ->
  includes s "\" = false /\ includes s "}" = false
  /\ includes s ":" = false /\ includes s nl = false.
Proof.
  unfold plain_field. intros H.
  apply lacks_cons in H. destruct H as [H1 H].
  apply lacks_cons in H. destruct H as [H2 H].
  apply lacks_cons in H. destruct H as [H3 H].
  apply lacks_one in H. auto.
Qed.

Lemma skill_text_lacks (c : ascii) (entry : string * string) :
  Ascii.eqb c ":" = false ->
  includes (fst entry) (String c EmptyString) = false ->
  includes (snd entry) (String c EmptyString) = false ->
  includes (skill_text entry) (String c EmptyString) = false.
Proof.
  intros Hc H1 H2. unfold skill_text.
  apply lacks_char_app; [exact H1|].
  apply (lacks_char_app c ":" (snd entry)); [|exact H2].
  cbn [includes startsWith]. rewrite Hc. reflexivity.
Qed.

Lemma join_lacks (c : ascii) (lines : list string) :
  Ascii.eqb c (ascii_of_nat 10) = false ->
  Forall (fun l => includes l (String c EmptyString) = false) lines ->
  includes (join nl lines) (String c EmptyString) = false.
Proof.
  intros Hc H. induction H as [|l ls Hl Hls IH]; [reflexivity|].
  destruct ls as [|l' ls]; [exact Hl|].
  change (join nl (l :: l' :: ls)) with (l ++ nl ++ join nl (l' :: ls)).
  apply lacks_char_app; [exact Hl|].
  apply (lacks_char_app c nl); [|exact IH].
  unfold nl. cbn [includes startsWith]. rewrite Hc. reflexivity.
Qed.

Lemma includes_mid (a : string) (x : ascii) (b : string) :
  includes (a ++ String x b) (String x EmptyString) = true.
Proof.
  induction a as [|c a IH]; cbn [append includes startsWith].
  - rewrite Ascii.eqb_refl. reflexivity.
  - rewrite IH. apply orb_true_r.
Qed.

Lemma trim_around_colon (c i : string) :
  trim (c ++ ":" ++ i) = (trimStart c ++ ":") ++ trimEnd i.
Proof.
  unfold trim. change (":" ++ i) with (String ":" i).
  rewrite trimStart_app_stop by reflexivity.
  change (String ":" i) with (":" ++ i). rewrite <- append_assoc_s.
  apply (trimEnd_after (trimStart c) ":" i). reflexivity.
Qed.

(** A plain line [category:items] gives one skill. *)
Lemma skill_line_plain (entry : string * string) :
  plain_field (fst entry) = true -> plain_field (snd entry) = true ->
  skill_line (skill_text entry)
  = [MkSkill (trim (fst entry)) (trim (snd entry))].
Proof.
  destruct entry as [c i]. cbn [fst snd]. intros Hc Hi.
  apply plain_field_parts in Hc. destruct Hc as [Hc1 [Hc2 [Hc3 _]]].
  apply plain_field_parts in Hi. destruct Hi as [Hi1 [Hi2 [Hi3 _]]].
  unfold skill_line.
  rewrite clean_line_plain
    by (apply skill_text_lacks; [reflexivity | assumption | assumption]).
  unfold skill_text. cbn [fst snd]. rewrite trim_around_colon.
  rewrite append_assoc_s.
  change (":" ++ trimEnd i) with (String ":" (trimEnd i)).
  rewrite includes_mid.
  rewrite split_at
    by (apply none_of_lacks, forallb_trimStart, none_of_run, Hc3).
  rewrite split_whole
    by (apply none_of_lacks, forallb_trimEnd, none_of_run, Hi3).
  cbn [nth nth_error]. rewrite trim_trimStart.
  destruct (trimEnd i) as [|a t] eqn:E; cbn [truthy].
  - rewrite <- (trim_trimEnd i), E. reflexivity.
  - rewrite <- E, trim_trimEnd. reflexivity.
Qed.

Lemma skill_lines_plain (entries : list (string * string)) :
  Forall (fun entry => plain_field (fst entry) = true
                       /\ plain_field (snd entry) = true) entries ->
  flat_map skill_line (map skill_text entries)
  = map (fun entry => MkSkill (trim (fst entry)) (trim (snd entry))) entries.
Proof.
  intros H. induction H as [|entry entries [H1 H2] _ IH]; [reflexivity|].
  cbn [map flat_map]. rewrite (skill_line_plain entry H1 H2), IH.
  reflexivity.
Qed.

(** No structured pattern of the skills parser matches in a text without
    a backslash. *)
Lemma no_structured_skill (content : string) :
  includes content "\" = false ->
  exec_all cvitemPattern content = []
  /\ exec_all skillPattern content = []
  /\ exec_all tabularPattern content = []
  /\ exec_all itemizePattern content = []
  /\ exec_all customPattern content = [].
Proof.
  intros H. unfold exec_all.
  assert (G : forall x rs, rs <> [] ->
              exec_from (seqs (lit (String "\" x) :: rs)) 0 true 0 content
              = []).
  { intros x rs Hrs.
    apply (exec_from_no_start (String "\" x)).
    - apply needs_literal_seqs, Hrs.
    - apply lacks_backslash_word, H. }
  repeat split; apply G; discriminate.
Qed.

End SkillFacts.

Section ProjectFacts.

Lemma take_length (n : nat) (s : string) : String.length (take n s) <= n.
Proof.
  revert s. induction n as [|n IH]; intros [|c s]; cbn [take String.length];
    try lia.
  specialize (IH s). lia.
Qed.

Lemma projects_are_short (content : string) :
  Forall short_description (parseProjectsSection content).
Proof.
  assert (H1 : Forall short_description
                 (map heading_project
                      (exec_all projectHeadingPattern content))).
  { apply Forall_map, Forall_forall. intros m _.
    unfold short_description, heading_project. cbn. lia. }
  assert (H2 : Forall short_description
                 (map item_project (exec_all itemPattern content))).
  { apply Forall_map, Forall_forall. intros m _.
    unfold short_description, item_project, substring0.
    cbn [description opt_or]. rewrite or_else_empty. apply take_length. }
  assert (H3 : Forall short_description
                 (flat_map project_line (lines_of content))).
  { apply Forall_flat_map, Forall_forall. intros line _.
    unfold project_line.
    destruct ((10 <? String.length (clean_line line))
              && negb (includes (clean_line line) "resumeItem"));
      repeat constructor.
    all: unfold short_description; cbn; lia. }
  unfold parseProjectsSection.
  destruct (map heading_project (exec_all projectHeadingPattern content));
    [|exact H1].
  destruct (map item_project (exec_all itemPattern content)); [|exact H2].
  exact H3.
Qed.

End ProjectFacts.



(** X14.  In a section body where no structured pattern matches, every
    entry of the experience parser has a position and a company that are
    not empty, and neither a location nor details: the line loop pushes an
    entry only when both are set, and sets nothing else but the period. *)
Theorem heuristic_entries_have_position_and_company (content : string) :
  structured_experiences 0 experience_patterns content = [] ->
  Forall heuristic_entry (parseExperienceSection content).
Proof.
  intros H. unfold parseExperienceSection. rewrite H.
  apply experience_lines_invariant. cbn. auto.
Qed.

Lemma heuristic_entries_have_position_and_company_witness :
  Forall heuristic_entry (parseExperienceSection (three_lines "Acme Corp")).
Proof.
  apply (heuristic_entries_have_position_and_company
           (three_lines "Acme Corp")).
  vm_compute. reflexivity.
Defined.

(** X15.  A skills section in plain text, one line [category:items] per
    skill, where neither part holds a backslash, a closing brace, a colon
    or a line feed, is parsed back into these skills, in order, each part
    without the white space at its ends. *)
Theorem skills_lines_round_trip (entries : list (string * string)) :
  Forall (fun entry => plain_field (fst entry) = true
                       /\ plain_field (snd entry) = true) entries ->
  parseSkillsSection (join nl (map skill_text entries))
  = map (fun entry => MkSkill (trim (fst entry)) (trim (snd entry))) entries.
Proof.
  intros H.
  assert (Hb : includes (join nl (map skill_text entries)) "\" = false).
  { apply join_lacks; [reflexivity|]. apply Forall_map.
    eapply Forall_impl; [|exact H]. cbn beta. intros entry [H1 H2].
    apply plain_field_parts in H1, H2.
    apply skill_text_lacks; [reflexivity | apply H1 | apply H2]. }
  unfold parseSkillsSection.
  destruct (no_structured_skill _ Hb) as [-> [-> [-> [-> ->]]]].
  cbn [map flat_map app].
  destruct entries as [|entry entries]; [reflexivity|].
  rewrite lines_of_join.
  - apply skill_lines_plain, H.
  - discriminate.
  - apply Forall_map. eapply Forall_impl; [|exact H]. cbn beta.
    intros e [H1 H2]. apply plain_field_parts in H1, H2.
    apply skill_text_lacks; [reflexivity | apply H1 | apply H2].
Qed.

Lemma skills_lines_round_trip_witness :
  parseSkillsSection
    (join nl (map skill_text [("Languages", " Rocq, OCaml");
                              (" Tools ", "git, make ")]))
  = [MkSkill "Languages" "Rocq, OCaml"; MkSkill "Tools" "git, make"].
Proof.
  apply (skills_lines_round_trip [("Languages", " Rocq, OCaml");
                                  (" Tools ", "git, make ")]).
  repeat constructor.
Defined.

(** X16.  Every entry of the projects list and of the achievements list
    that the parser returns, for every source, has a description of at
    most 200 characters. *)
Theorem project_descriptions_are_short (latex : string) :
  Forall short_description (projects (parseLatexContent latex))
  /\ Forall short_description (achievements (parseLatexContent latex)).
Proof.
  unfold parseLatexContent. cbv zeta.
  assert (G : forall l sections,
             Forall short_description (projects sections)
             /\ Forall short_description (achievements sections) ->
             Forall short_description
               (projects (fold_left categorize l sections))
             /\ Forall short_description
                  (achievements (fold_left categorize l sections))).
  { induction l as [|s l IH]; intros sections H; [exact H|].
    cbn [fold_left]. apply IH.
    destruct (categorize_projects sections s) as [[-> | ->] [-> | ->]];
      split; try apply H; apply projects_are_short. }
  apply G. cbn [projects achievements]. split; constructor.
Qed.

(** X17.  [extractAllSections] lists every [\section] of the source in
    source order and then every [\subsection].  The summary of the parser
    is the content of the last section of this list whose title holds
    summary, objective or profile, in any case of the letters and whatever
    else the title holds; it is empty when no section has such a title.
    A subsection so titled therefore wins over a section, also over one
    that stands after it in the source. *)
Theorem summary_of_last_section (latex : string)
  (before after : list Section_) (section : Section_) :
  extractAllSections latex
  = (map section_of_match (exec_all sectionPattern latex)
     ++ map section_of_match (exec_all subsectionPattern latex))%list
  /\ (extractAllSections latex = (before ++ section :: after)%list ->
      classified_summary (title section) = true ->
      forallb (fun s => negb (classified_summary (title s))) after = true ->
      summary (parseLatexContent latex) = content section)
  /\ (forallb (fun s => negb (classified_summary (title s)))
              (extractAllSections latex) = true ->
      summary (parseLatexContent latex) = EmptyString).
Proof.
  split; [reflexivity|]. split.
  - intros Hall Hclass Hafter. unfold parseLatexContent. cbv zeta.
    rewrite Hall, fold_left_app. cbn [fold_left].
    rewrite (fold_categorize_summary after Hafter), categorize_summary,
      Hclass.
    reflexivity.
  - intros H. unfold parseLatexContent. cbv zeta.
    rewrite (fold_categorize_summary _ H). reflexivity.
Qed.

Lemma summary_of_last_section_witness :
  extractAllSections profile_before_summary
  = [MkSection "Summary" "New text"; MkSection "Profile" "Old text"]
  /\ summary (parseLatexContent profile_before_summary) = "Old text"
  /\ summary (parseLatexContent two_experience_sections) = EmptyString.
Proof.
  split; [vm_compute; reflexivity|]. split.
  - apply (proj1 (proj2 (summary_of_last_section profile_before_summary
                           [MkSection "Summary" "New text"] []
                           (MkSection "Profile" "Old text"))));
      vm_compute; reflexivity.
  - apply (proj2 (proj2 (summary_of_last_section two_experience_sections
                           [] [] (MkSection EmptyString EmptyString)))).
    vm_compute. reflexivity.
Defined.

(* ================================================================== *)
(** ** The layout of the fallback document *)

Section LayoutFacts.

Context {lib : PdfLib}.

Lemma downwards_snoc (ys : list nat) (z : nat) :
  downwards ys -> Forall (fun y => y <= z) ys -> downwards (ys ++ [z]).
Proof.
  induction ys as [|y ys IH]; intros Hd Hz; [exact I|].
  inversion Hz as [|? ? Hy Hys]; subst.
  destruct ys as [|y' ys].
  - cbn. split; [exact Hy | exact I].
  - cbn [app downwards] in *. destruct Hd as [H1 H2].
    split; [exact H1 | apply IH; assumption].
Qed.

Lemma tidy_skip : keeps_tidy (fun p => p).
Proof. intros p H. exact H. Qed.

Lemma tidy_setFontSize (n : nat) :
  In n page_sizes -> keeps_tidy (setFontSize n).
Proof.
  intros Hn p [H1 [H2 [H3 [H4 [H5 H6]]]]]. unfold tidy, setFontSize.
  cbn [ops yPos fontSize fontStyle]. auto 10.
Qed.

Lemma tidy_setFont (style : string) :
  In style page_styles -> keeps_tidy (setFont style).
Proof.
  intros Hn p [H1 [H2 [H3 [H4 [H5 H6]]]]]. unfold tidy, setFont.
  cbn [ops yPos fontSize fontStyle]. auto 10.
Qed.

Lemma tidy_down (n : nat) : keeps_tidy (down n).
Proof.
  intros p [H1 [H2 [H3 [H4 [H5 H6]]]]]. unfold tidy, down.
  cbn [ops yPos fontSize fontStyle].
  split; [exact H1|]. split.
  - eapply Forall_impl; [|exact H2]. cbn beta. intros op Hop. lia.
  - split; [exact H3|]. split; [lia|]. auto.
Qed.

Lemma tidy_text (s : string) : keeps_tidy (text s).
Proof.
  intros p [H1 [H2 [H3 [H4 [H5 H6]]]]]. unfold tidy, text.
  cbn [ops yPos fontSize fontStyle].
  split.
  - rewrite map_app. cbn [map op_y]. apply downwards_snoc; [exact H1|].
    apply Forall_map. exact H2.
  - split.
    + apply Forall_app. split; [exact H2|]. constructor; [|constructor].
      cbn [op_y]. lia.
    + split; [|auto].
      apply Forall_app. split; [exact H3|]. constructor; [|constructor].
      unfold on_page. cbn [op_x op_y op_size op_style]. auto.
Qed.

Lemma tidy_steps (ss : list step) :
  Forall keeps_tidy ss -> keeps_tidy (steps ss).
Proof.
  intros H. unfold steps. induction H as [|s ss Hs Hss IH]; intros p Hp;
    [exact Hp|].
  cbn [fold_left]. apply IH, Hs, Hp.
Qed.

Lemma tidy_when (b : bool) (s : step) : keeps_tidy s -> keeps_tidy (when b s).
Proof. intros H. destruct b; [exact H | apply tidy_skip]. Qed.

Lemma tidy_each {A : Type} (xs : list A) (f : A -> step) :
  (forall x, keeps_tidy (f x)) -> keeps_tidy (each xs f).
Proof.
  intros H. unfold each. apply tidy_steps.
  induction xs as [|x xs IH]; constructor; [apply H | exact IH].
Qed.

Lemma tidy_wrapped (s : string) (f : list string -> step) :
  (forall ls, keeps_tidy (f ls)) -> keeps_tidy (wrapped s f).
Proof. intros H p. unfold wrapped. apply H. Qed.

Lemma tidy_if (b : Pen -> bool) (s1 s2 : step) :
  keeps_tidy s1 -> keeps_tidy s2 ->
  keeps_tidy (fun p => if b p then s1 p else s2 p).
Proof. intros H1 H2 p. destruct (b p); [apply H1 | apply H2]. Qed.

End LayoutFacts.

Ltac tidy_steps_tac :=
  repeat first
    [ apply tidy_setFontSize; cbn; tauto
    | apply tidy_setFont; cbn; tauto
    | apply tidy_down | apply tidy_text | apply tidy_skip
    | apply tidy_when | apply tidy_wrapped; intros ?
    | apply tidy_each; intros ?
    | apply tidy_steps
    | apply Forall_cons | apply Forall_nil ].

Ltac only_appends :=
  repeat first
    [ apply appends_setFontSize | apply appends_setFont | apply appends_down
    | apply appends_text | apply appends_skip
    | apply appends_when | apply appends_wrapped; intros ?
    | apply appends_each; intros ?
    | apply appends_steps
    | apply Forall_cons | apply Forall_nil ].

Section RawSectionFacts.

Context {lib : PdfLib}.

Lemma tidy_render_raw (section : Section_) : keeps_tidy (render_raw section).
Proof.
  unfold render_raw. cbv zeta.
  match goal with |- keeps_tidy (if ?c then _ else _) => destruct c end.
  - apply tidy_skip.
  - apply (tidy_if (fun p => 250 <? yPos p)); [apply tidy_skip|].
    tidy_steps_tac.
Qed.

Lemma non_empty_firstn {A : Type} (n : nat) (xs : list A) :
  non_empty (firstn (S n) xs) = non_empty xs.
Proof. destruct xs; reflexivity. Qed.

Lemma firstn_twice {A : Type} (n : nat) (xs : list A) :
  firstn n (firstn n xs) = firstn n xs.
Proof. rewrite firstn_firstn, Nat.min_id. reflexivity. Qed.

Lemma appends_nth (s : step) :
  appends s ->
  forall p i op,
    nth_error (ops p) i = Some op -> nth_error (ops (s p)) i = Some op.
Proof.
  intros H p i op Hi. destruct (H p) as [l ->].
  rewrite nth_error_app1; [exact Hi|].
  apply nth_error_Some. rewrite Hi. discriminate.
Qed.

(** The lines of the error notice, from a pen in 12 point normal type. *)
Lemma notice_lines_drawn (lines : list string) :
  forall p,
    fontSize p = 12 -> fontStyle p = "normal" ->
    each lines (fun line => steps [text line; down 8]) p
    = MkPen (ops p ++ notice_lines (yPos p) lines) 12 "normal"
            (yPos p + 8 * List.length lines).
Proof.
  unfold each. induction lines as [|line lines IH]; intros p Hs Hf.
  - cbn [map steps fold_left notice_lines List.length].
    rewrite app_nil_r, Nat.mul_0_r, Nat.add_0_r, <- Hs, <- Hf.
    destruct p; reflexivity.
  - cbn [map]. rewrite steps_cons. rewrite IH.
    + unfold steps, text, down.
      cbn [fold_left ops yPos fontSize fontStyle notice_lines List.length].
      rewrite Hs, Hf, <- app_assoc. cbn [app]. f_equal. lia.
    + unfold steps, text, down. cbn. exact Hs.
    + unfold steps, text, down. cbn. exact Hf.
Qed.

Lemma categorize_keeps_raw (sections : Sections) (section : Section_) :
  rawSections (categorize sections section) = rawSections sections.
Proof.
  destruct sections as [n t c su ex ed sk pr ac raw].
  unfold categorize. cbv zeta.
  repeat match goal with
         | |- context [if ?c then _ else _] => destruct c
         end; reflexivity.
Qed.

Lemma parse_raw (latex : string) :
  rawSections (parseLatexContent latex) = extractAllSections latex.
Proof.
  assert (G : forall l s,
             rawSections (fold_left categorize l s) = rawSections s).
  { induction l as [|x l IH]; intros s; cbn [fold_left]; [reflexivity|].
    rewrite IH. apply categorize_keeps_raw. }
  unfold parseLatexContent. cbv zeta. rewrite G. reflexivity.
Qed.

Lemma categorize_unclassified (sections : Sections) (section : Section_) :
  classified (title section) = false ->
  categorize sections section = sections.
Proof.
  intros H. destruct sections as [n t c su ex ed sk pr ac raw].
  unfold categorize, classified in *. cbv zeta in *.
  repeat (apply orb_false_iff in H; destruct H as [H ?]).
  repeat match goal with
         | E : ?b = false |- _ => rewrite E; clear E
         end.
  reflexivity.
Qed.

End RawSectionFacts.

Section FixedPoints.

(** [s.replace(pat, by)] passes over a prefix in which [pat] does not
    start. *)
Lemma replaceFirst_pass (pat by_ s : string) :
  forall pre,
    (forall t1 t2, pre = t1 ++ t2 -> t2 <> EmptyString ->
                   startsWith pat (t2 ++ s) = false) ->
    replaceFirst pat by_ (pre ++ s) = pre ++ replaceFirst pat by_ s.
Proof.
  induction pre as [|c pre IH]; intros H; [reflexivity|].
  cbn [append]. 
  assert (E : startsWith pat (String c (pre ++ s)) = false).
  { apply (H EmptyString (String c pre) eq_refl). discriminate. }
  destruct pat as [|a pat]; [discriminate|].
  cbn [replaceFirst]. rewrite E. f_equal. apply IH.
  intros t1 t2 E2 Hne. apply (H (String c t1) t2); [|exact Hne].
  cbn [append]. rewrite E2. reflexivity.
Qed.

Lemma startsWith_self (p s : string) : startsWith p (p ++ s) = true.
Proof.
  induction p as [|c p IH]; [reflexivity|].
  cbn [append startsWith]. rewrite Ascii.eqb_refl, IH. reflexivity.
Qed.

Lemma drop_app_length (p s : string) : drop (String.length p) (p ++ s) = s.
Proof. induction p as [|c p IH]; [destruct s; reflexivity | exact IH]. Qed.

Lemma replaceFirst_here (pat by_ s : string) :
  replaceFirst pat by_ (pat ++ s) = by_ ++ s.
Proof.
  destruct pat as [|c pat].
  - cbn [append]. destruct s; reflexivity.
  - cbn [replaceFirst append]. 
    change (String c (pat ++ s)) with (String c pat ++ s).
    rewrite startsWith_self.
    rewrite (drop_app_length (String c pat) s). reflexivity.
Qed.

End FixedPoints.

(** X18.  In the document that the fallback renderer draws, for every
    parse result and every line breaking of jsPDF, no text is drawn above
    an earlier one; every text is at the left margin [x = 20], not above
    [y = 20], in 9, 10, 12, 14 or 20 point type, bold or normal. *)
Theorem fallback_document_layout (lib : PdfLib) (sections : Sections) :
  let page := ops (draw sections new_doc) in
  downwards (map op_y page) /\ Forall on_page page.
Proof.
  cbv zeta.
  assert (H : tidy (draw sections new_doc)).
  { unfold draw. rewrite steps_cons.
    match goal with
    | |- tidy (steps ?ss ?p) =>
        assert (K : keeps_tidy (steps ss)); [|apply K]
    end.
    - apply tidy_steps.
      repeat (apply Forall_cons || apply Forall_nil).
      all: try (tidy_steps_tac; fail).
      all: try (apply tidy_when;
                apply (tidy_if (fun p => yPos p <? 250));
                tidy_steps_tac; fail).
      apply tidy_each. intros section. apply tidy_render_raw.
    - unfold tidy, setFontSize, new_doc.
      cbn [ops yPos fontSize fontStyle map downwards page_sizes page_styles].
      split; [exact I|]. split; [constructor|]. split; [constructor|].
      split; [lia|]. split; cbn; tauto. }
  destruct H as [H1 [_ [H3 _]]]. split; assumption.
Qed.

(** X19.  The renderer draws the first three experience entries, the
    first two education entries, the first three projects and the first
    three achievements: the entries after them do not change the
    document.  Skills are not capped. *)
Theorem only_first_entries_are_drawn
  (lib : PdfLib) (sections : Sections) (p : Pen) :
  draw sections p = draw (shown sections) p.
Proof.
  unfold draw, shown.
  cbn [sec_name sec_title contact summary experience education skills
       projects achievements rawSections].
  rewrite !firstn_twice, !non_empty_firstn. reflexivity.
Qed.

(** X20.  The contact block sets the font size and not the style: the
    e-mail line is drawn in 10 point type in the style that the block
    before it left, bold after the name when there is no title, normal
    after a title. *)
Theorem contact_lines_inherit_style
  (lib : PdfLib) (sections : Sections) (mail : string) :
  email (contact sections) = Some mail ->
  mail <> EmptyString ->
  let page := ops (draw sections new_doc) in
  (sec_title sections = EmptyString ->
   nth_error page 1 = Some (MkTextOp ("Email: " ++ mail) 20 35 10 "bold"))
  /\ (sec_title sections <> EmptyString ->
      nth_error page 2
      = Some (MkTextOp ("Email: " ++ mail) 20 47 10 "normal")).
Proof.
  intros He Hne. cbv zeta.
  assert (Ht : opt_truthy (email (contact sections)) = true).
  { rewrite He. destruct mail; [contradiction | reflexivity]. }
  assert (Ho : opt_or (email (contact sections)) "" = mail).
  { rewrite He. cbn [opt_or]. unfold or_else.
    destruct mail; [contradiction | reflexivity]. }
  unfold draw. do 7 rewrite steps_cons. rewrite Ht, Ho.
  match goal with
  | |- context [steps ?ss ?p] =>
      assert (K : appends (steps ss))
  end.
  { apply appends_steps.
    repeat (apply Forall_cons || apply Forall_nil).
    all: try (only_appends; fail).
    all: try (apply appends_when;
              apply (appends_if (fun p => yPos p <? 250));
              only_appends; fail).
    apply appends_each. intros section. apply appends_render_raw. }
  split; intros Htitle; apply (appends_nth _ K).
  - rewrite Htitle. reflexivity.
  - destruct (sec_title sections) as [|c t]; [contradiction|]. reflexivity.
Qed.

Lemma contact_lines_inherit_style_witness :
  nth_error (ops (@draw plain_pdf
                    (MkSections "Jane Doe" EmptyString
                       (MkContact (Some "jane@example.org") None None None
                                  None)
                       EmptyString [] [] [] [] [] [])
                    new_doc)) 1
  = Some (MkTextOp "Email: jane@example.org" 20 35 10 "bold")
  /\ nth_error (ops (@draw plain_pdf (parseLatexContent moderncv_header)
                       new_doc)) 2
     = Some (MkTextOp "Email: jane@example.org" 20 47 10 "normal").
Proof.
  split.
  - apply (proj1 (contact_lines_inherit_style plain_pdf
                    (MkSections "Jane Doe" EmptyString
                       (MkContact (Some "jane@example.org") None None None
                                  None)
                       EmptyString [] [] [] [] [] [])
                    "jane@example.org" eq_refl ltac:(discriminate))).
    reflexivity.
  - apply (proj2 (contact_lines_inherit_style plain_pdf
                    (parseLatexContent moderncv_header)
                    "jane@example.org" ltac:(vm_compute; reflexivity)
                    ltac:(discriminate))).
    vm_compute. discriminate.
Defined.

(** X21.  The error notice of [route.ts]: the heading in 16 point bold
    type at [y = 30], the lines that jsPDF breaks the message into in
    12 point normal type from [y = 50] on, 8 units apart, and the closing
    hint in 10 point type 20 units below the line after the last. *)
Theorem error_notice_layout (lib : PdfLib) (errorMessage : string) :
  RouteTs.createErrorPDF errorMessage
  = output (notice_ops (splitTextToSize 12 "normal" errorMessage 170)).
Proof.
  unfold RouteTs.createErrorPDF, notice_ops. cbv zeta. f_equal.
  do 6 rewrite steps_cons.
  match goal with
  | |- context [wrapped _ _ ?p] =>
      change p with (MkPen [MkTextOp "LaTeX Compilation Error" 20 30 16
                                     "bold"] 12 "normal" 50)
  end.
  unfold wrapped. cbn [fontSize fontStyle].
  rewrite notice_lines_drawn by reflexivity.
  unfold steps, setFontSize.
  cbn [fold_left ops fontSize fontStyle yPos app].
  do 4 f_equal. lia.
Qed.

(** X22.  When no response is acceptable, each being a rejection, a
    status out of the 2xx range or a body of at most 1000 bytes, [compile]
    on a source that passes the checks still reports [success: true]: with
    the parsed resume drawn by jsPDF, and in [route.ts] with the error
    notice as the document. *)
Theorem compile_without_acceptable_response
  (e : env) (lib : PdfLib) (content : string) :
  (forall l rq, accept_alt (respond e l rq) = None) ->
  validate content = None ->
  fst (compile e content)
  = compiled (generatePDFWithPDFKit (parseLatexContent content))
  /\ fst (RouteTs.compile e content)
     = compiled (RouteTs.createErrorPDF failure_notice).
Proof.
  intros Hnet Hv.
  assert (N1 : forall ms s l, fst (race e ms (tryLatexOnline e s) l) = None).
  { intros ms s l. unfold race.
    pose proof (proj1 (client_null_when_nothing_passes e Hnet s l)) as H.
    destruct (tryLatexOnline e s l) as [r l']. cbn [fst] in H. subst r.
    destruct (timer_first e ms l); reflexivity. }
  assert (N2 : forall ms s l,
             fst (race e ms (RouteTs.tryLatexOnline e s) l) = None).
  { intros ms s l. unfold race.
    pose proof (proj2 (client_null_when_nothing_passes e Hnet s l)) as H.
    destruct (RouteTs.tryLatexOnline e s l) as [r l']. cbn [fst] in H.
    subst r. destruct (timer_first e ms l); reflexivity. }
  split.
  - rewrite (proj1 (compile_valid e content Hv)). unfold compiled.
    do 2 f_equal. unfold generateSamplePDF, bind, ret.
    pose proof (compileLatexToPDF_null e content [] N1) as H.
    destruct (compileLatexToPDF e content []) as [r l]. cbn [fst] in H.
    subst r. reflexivity.
  - rewrite (route_compile_returns_error_notice e content Hv N2).
    reflexivity.
Qed.

Lemma compile_without_acceptable_response_witness :
  fst (@compile offline plain_pdf minimal_source)
  = compiled (@generatePDFWithPDFKit plain_pdf
                (parseLatexContent minimal_source))
  /\ fst (@RouteTs.compile offline plain_pdf minimal_source)
     = compiled (@RouteTs.createErrorPDF plain_pdf failure_notice).
Proof.
  apply (compile_without_acceptable_response offline plain_pdf
           minimal_source); reflexivity.
Defined.

(** X23.  No section is lost between the parser and the renderer.  Every
    title at which the renderer skips a raw section is a title that the
    parser classified; a section that the parser does not classify leaves
    the parse result as it is; and a raw section that the renderer does
    not skip is drawn, while the cursor is not below 250, under its title
    in capitals in 12 point bold type.  The capitals are those of
    [toUpperCase], where the sharp s becomes SS; the statement is for the
    titles without a micro sign and without a y with diaeresis, whose
    capitals are no 8-bit characters.  Below 250 nothing is drawn. *)
Theorem unclassified_section_is_drawn
  (lib : PdfLib) (sections : Sections) (section : Section_) (p : Pen) :
  (skipped_by_renderer (title section) = true ->
   classified (title section) = true)
  /\ (classified (title section) = false ->
      categorize sections section = sections)
  /\ (capitals_in_alphabet (title section) = true ->
      skipped_by_renderer (title section) = false ->
      yPos p <= 250 ->
      exists others,
        ops (render_raw section p)
        = (ops p
           ++ MkTextOp (toUpperCase (title section)) 20 (yPos p) 12 "bold"
              :: others)%list)
  /\ (250 < yPos p -> render_raw section p = p).
Proof.
  split; [|split; [|split]].
  - unfold skipped_by_renderer, classified. cbv zeta. intros H.
    repeat (apply orb_true_iff in H; destruct H as [H | H]);
      rewrite H; repeat rewrite orb_true_r; reflexivity.
  - apply categorize_unclassified.
  - intros _ Hskip Hy. unfold render_raw. cbv zeta.
    unfold skipped_by_renderer in Hskip. cbv zeta in Hskip. rewrite Hskip.
    assert (Hroom : (250 <? yPos p) = false) by (apply Nat.ltb_ge; lia).
    rewrite Hroom. rewrite steps_cons.
    match goal with
    | |- context [steps ?ss ?q] =>
        assert (K : appends (steps ss)); [|destruct (K q) as [l Hl]]
    end.
    + only_appends.
    + rewrite Hl. unfold heading, steps, setFontSize, setFont, text, down.
      cbn [fold_left ops fontSize fontStyle yPos].
      rewrite <- app_assoc. cbn [app]. eexists. reflexivity.
  - intros Hy. unfold render_raw. cbv zeta.
    assert (Hfull : (250 <? yPos p) = true) by (apply Nat.ltb_lt; exact Hy).
    match goal with |- (if ?c then _ else _) _ = _ => destruct c end;
      [reflexivity|].
    cbn beta. rewrite Hfull. reflexivity.
Qed.

Lemma unclassified_section_is_drawn_witness :
  (exists others,
      ops (@render_raw plain_pdf (MkSection "Publications" "Two papers.")
             new_doc)
      = MkTextOp "PUBLICATIONS" 20 20 12 "bold" :: others)
  /\ classified "Objective" = true
  /\ (exists others,
         ops (@render_raw plain_pdf (MkSection "Objective" "A new role.")
                new_doc)
         = MkTextOp "OBJECTIVE" 20 20 12 "bold" :: others).
Proof.
  split; [|split; [reflexivity|]].
  - apply (proj1 (proj2 (proj2 (unclassified_section_is_drawn plain_pdf
                                  (header_only EmptyString)
                                  (MkSection "Publications" "Two papers.")
                                  new_doc))));
      [reflexivity | reflexivity | cbn; lia].
  - apply (proj1 (proj2 (proj2 (unclassified_section_is_drawn plain_pdf
                                  (header_only EmptyString)
                                  (MkSection "Objective" "A new role.")
                                  new_doc))));
      [reflexivity | reflexivity | cbn; lia].
Defined.

(** X24.  The first text of the fallback document is the name of the
    parse result, or the placeholder when that name is empty, in 20 point
    bold type at (20, 20); for a parsed source the name is the one that
    [extractName] returns; the text is never empty. *)
Theorem header_is_never_empty
  (lib : PdfLib) (sections : Sections) (latex : string) :
  hd_error (ops (draw sections new_doc))
  = Some (header_op (sec_name sections))
  /\ hd_error (ops (draw (parseLatexContent latex) new_doc))
     = Some (header_op (extractName latex))
  /\ op_text (header_op (sec_name sections)) <> EmptyString.
Proof.
  split; [|split].
  - destruct (draw_starts_with_header sections) as [l ->]. reflexivity.
  - destruct (draw_starts_with_header (parseLatexContent latex)) as [l ->].
    rewrite parse_name. reflexivity.
  - apply header_text_not_empty.
Qed.

(** X25.  A document with one section, [\section{title}] or
    [\section*{title}], between a text without section macros and the end
    marker: [extractAllSections] returns this one section, with its title
    and with its body without the white space at its ends, and the parser
    keeps it as its list of raw sections. *)
Theorem single_section_is_extracted
  (pre mark heading body trailer : string) :
  mark = EmptyString \/ mark = "*" ->
  lacks pre ["\section"; "\subsection"] = true ->
  heading <> EmptyString ->
  lacks heading ["}"; "\subsection"] = true ->
  lacks body ["\section"; "\subsection"; "\end{document}"] = true ->
  lacks trailer ["\section"; "\subsection"] = true ->
  extractAllSections (section_document pre mark heading body trailer)
  = [MkSection heading (trim body)]
  /\ rawSections (parseLatexContent
                    (section_document pre mark heading body trailer))
     = [MkSection heading (trim body)].
Proof.
  intros Hmark Hpre Hne Hhead Hbody Htrailer.
  assert (E : extractAllSections
                (section_document pre mark heading body trailer)
              = [MkSection heading (trim body)])
    by (apply sections_of_document; assumption).
  split; [exact E|]. rewrite parse_raw. exact E.
Qed.

Lemma single_section_is_extracted_witness :
  extractAllSections
    (section_document "\documentclass{article}\begin{document}" "*"
       "Publications" " Two papers. " "")
  = [MkSection "Publications" "Two papers."].
Proof.
  apply (proj1 (single_section_is_extracted
                  "\documentclass{article}\begin{document}" "*"
                  "Publications" " Two papers. " ""
                  (or_intror eq_refl) eq_refl ltac:(discriminate)
                  eq_refl eq_refl eq_refl)).
Defined.

(** X26.  The last step of the simplifier: in a source in which no rule
    matches and [\usepackage{geometry}] does not occur, the margin package
    is inserted on a line of its own after the first
    [\documentclass[letterpaper,11pt]{article}], and nothing else
    changes. *)
Theorem geometry_package_is_inserted (pre post : string) :
  let source := pre ++ article_class ++ post in
  rule_free simplify_rules source = true ->
  lacks source ["\usepackage{geometry}"] = true ->
  lacks pre [article_class] = true ->
  simplifyLatexForOnlineServices source
  = pre ++ article_class ++ nl ++ geometry_line ++ post.
Proof.
  intros source Hfree Hgeo Hpre.
  apply lacks_one in Hgeo, Hpre.
  unfold simplifyLatexForOnlineServices.
  rewrite (apply_rules_fixed _ _ Hfree).
  unfold ensure_geometry. rewrite Hgeo. cbn [negb]. subst source.
  rewrite replaceFirst_pass.
  - rewrite replaceFirst_here. rewrite !append_assoc_s. reflexivity.
  - apply (no_start_before_bs "documentclass[letterpaper,11pt]{article}"
             pre ("documentclass[letterpaper,11pt]{article}" ++ post));
      [reflexivity | exact Hpre].
Qed.

Lemma geometry_package_is_inserted_witness :
  simplifyLatexForOnlineServices
    ("% resume" ++ nl ++ article_class
     ++ "\begin{document}Hello\end{document}")
  = "% resume" ++ nl ++ article_class ++ nl ++ geometry_line
    ++ "\begin{document}Hello\end{document}".
Proof.
  apply (geometry_package_is_inserted ("% resume" ++ nl)
           "\begin{document}Hello\end{document}");
    vm_compute; reflexivity.
Defined.

Section PlainLineFacts.

Lemma plain_line_parts (s : string) :
  plain_line s = true ->
  includes s "\" = false /\ includes s "}" = false /\ includes s nl = false.
Proof.
  unfold plain_line. intros H.
  apply lacks_cons in H. destruct H as [H1 H].
  apply lacks_cons in H. destruct H as [H2 H].
  apply lacks_one in H. auto.
Qed.

Lemma plain_lines_join (lines : list string) :
  Forall (fun l => plain_line l = true) lines ->
  includes (join nl lines) "\" = false
  /\ (lines <> [] -> lines_of (join nl lines) = lines).
Proof.
  intros H. split.
  - apply join_lacks; [reflexivity|].
    eapply Forall_impl; [|exact H]. cbn beta. intros l Hl.
    apply plain_line_parts in Hl. apply Hl.
  - intros Hne. apply lines_of_join; [exact Hne|].
    eapply Forall_impl; [|exact H]. cbn beta. intros l Hl.
    apply plain_line_parts in Hl. apply Hl.
Qed.

Lemma flat_map_filter {A B : Type} (keep : A -> bool) (f : A -> B)
  (g : A -> list B) (xs : list A) :
  Forall (fun x => g x = if keep x then [f x] else []) xs ->
  flat_map g xs = map f (filter keep xs).
Proof.
  intros H. induction H as [|x xs Hx _ IH]; [reflexivity|].
  cbn [flat_map filter]. rewrite Hx, IH. destruct (keep x); reflexivity.
Qed.

Lemma no_backslash_no_exec (content x : string) (rs : list re) :
  includes content "\" = false -> rs <> [] ->
  exec_all (seqs (lit (String "\" x) :: rs)) content = [].
Proof.
  intros H Hrs. unfold exec_all.
  apply (exec_from_no_start (String "\" x)).
  - apply needs_literal_seqs, Hrs.
  - apply lacks_backslash_word, H.
Qed.

End PlainLineFacts.

(** X27.  Every document that the five-method client returns is the body
    of a response to one of its five requests, with a 2xx status and more
    than 1000 bytes; the response declared a PDF content type unless the
    request was the one to the alternative service. *)
Theorem only_alternative_service_skips_type
  (e : env) (s : string) (log : list request) (pdf : bytes) :
  fst (tryLatexOnline e s log) = Some pdf ->
  exists l rq r,
    respond e l rq = Resolved r
    /\ ok r = true /\ above_floor (body r) = true /\ body r = pdf
    /\ In rq (methods s)
    /\ (says_pdf r = true \/ rq = alt_request s).
Proof.
  assert (Hp : forall l rq b,
             In rq (methods s) ->
             accept_pdf (respond e l rq) = Some b ->
             exists l rq r,
               respond e l rq = Resolved r
               /\ ok r = true /\ above_floor (body r) = true /\ body r = b
               /\ In rq (methods s)
               /\ (says_pdf r = true \/ rq = alt_request s)).
  { intros l rq b Hin H. apply accept_pdf_some in H.
    destruct H as [r [Hr [H1 [H2 [H3 H4]]]]].
    exists l, rq, r. auto 10. }
  unfold tryLatexOnline, encodeURIComponent, bind, fetch, ret. cbn [fst].
  destruct (accept_pdf (respond e log (direct_request s))) as [b|] eqn:E1;
    cbn [fst].
  { intros H. injection H as H. subst b.
    eapply Hp; [|exact E1]. cbn. auto. }
  destruct (respond e (log ++ [direct_request s])%list
              (post_request s "pdflatex")) as [|r2] eqn:R2;
    cbn [fst]; [discriminate|].
  destruct (accept_pdf (Resolved r2)) as [b|] eqn:E2; cbn [fst].
  { intros H. injection H as H. subst b. rewrite <- R2 in E2.
    eapply Hp; [|exact E2]. cbn. auto. }
  match goal with
  | |- context [accept_pdf (respond e ?l ?rq)] =>
      destruct (accept_pdf (respond e l rq)) as [b|] eqn:E3; cbn [fst]
  end.
  { intros H. injection H as H. subst b.
    eapply Hp; [|exact E3]. cbn. auto. }
  match goal with
  | |- context [accept_alt (respond e ?l ?rq)] =>
      destruct (accept_alt (respond e l rq)) as [b|] eqn:E4; cbn [fst]
  end.
  { intros H. injection H as H. subst b. apply accept_alt_some in E4.
    destruct E4 as [r [Hr [H1 [H3 H4]]]].
    eexists _, (alt_request s), r. split; [exact Hr|].
    repeat split; auto. cbn. auto. }
  intros H. eapply Hp; [|exact H]. cbn. auto 10.
Qed.

Lemma only_alternative_service_skips_type_witness :
  exists l rq r,
    respond alt_html l rq = Resolved r
    /\ ok r = true /\ above_floor (body r) = true /\ body r = big_body
    /\ In rq (methods minimal_source)
    /\ (says_pdf r = true \/ rq = alt_request minimal_source).
Proof.
  apply (only_alternative_service_skips_type alt_html minimal_source []
           big_body).
  vm_compute. reflexivity.
Defined.

(** X28.  An education section in plain text, whose lines hold no
    backslash and no closing brace: the parser returns one entry for each
    line that, once trimmed, holds one of the words Bachelor, Master, PhD,
    Degree, University, College in any case of the letters, in order; the
    entry has the trimmed line as its degree and nothing else. *)
Theorem education_lines_in_plain_text (lines : list string) :
  Forall (fun l => plain_line l = true) lines ->
  parseEducationSection (join nl lines)
  = map degree_entry (filter (fun l => test degree_word (trim l)) lines).
Proof.
  intros H. destruct lines as [|l0 ls]; [vm_compute; reflexivity|].
  assert (Hne : l0 :: ls <> []) by discriminate.
  destruct (plain_lines_join _ H) as [Hb Hl].
  unfold parseEducationSection, education_patterns. cbn [flat_map].
  rewrite !no_backslash_no_exec by (exact Hb || discriminate).
  cbn [map app]. rewrite (Hl Hne).
  apply flat_map_filter.
  eapply Forall_impl; [|exact H]. cbn beta. intros l Hp.
  apply plain_line_parts in Hp. destruct Hp as [H1 [H2 _]].
  unfold education_line. rewrite (clean_nostar_plain l H1 H2).
  reflexivity.
Qed.

Lemma education_lines_in_plain_text_witness :
  parseEducationSection
    (join nl ["B.Sc. Physics, MIT"; " Master of Science, 2019 "; "Thesis"])
  = [degree_entry " Master of Science, 2019 "].
Proof.
  apply (education_lines_in_plain_text
           ["B.Sc. Physics, MIT"; " Master of Science, 2019 "; "Thesis"]).
  repeat constructor.
Defined.

(** X29.  A projects or achievements section in plain text, whose lines
    hold no backslash and no closing brace: the parser returns one entry
    for each line that has more than ten characters once trimmed and does
    not hold [resumeItem], in order; the entry has the trimmed line as its
    name and an empty description. *)
Theorem project_lines_in_plain_text (lines : list string) :
  Forall (fun l => plain_line l = true) lines ->
  parseProjectsSection (join nl lines)
  = map project_entry (filter long_line lines).
Proof.
  intros H. destruct lines as [|l0 ls]; [vm_compute; reflexivity|].
  assert (Hne : l0 :: ls <> []) by discriminate.
  destruct (plain_lines_join _ H) as [Hb Hl].
  unfold parseProjectsSection, projectHeadingPattern, itemPattern.
  rewrite !no_backslash_no_exec by (exact Hb || discriminate).
  cbn [map]. rewrite (Hl Hne).
  apply flat_map_filter.
  eapply Forall_impl; [|exact H]. cbn beta. intros l Hp.
  apply plain_line_parts in Hp. destruct Hp as [H1 [H2 _]].
  unfold project_line, long_line. rewrite (clean_line_plain l H1 H2).
  reflexivity.
Qed.

Lemma project_lines_in_plain_text_witness :
  parseProjectsSection
    (join nl ["Projects"; " Proof checker for resumes "; "resumeItem list"])
  = [project_entry " Proof checker for resumes "].
Proof.
  apply (project_lines_in_plain_text
           ["Projects"; " Proof checker for resumes "; "resumeItem list"]).
  repeat constructor.
Defined.

Section NameFacts.

Lemma lacks_second_backslash (s : string) (c : ascii) (x : string) :
  includes s "\" = false -> includes s (String c (String "\" x)) = false.
Proof.
  induction s as [|a s IH]; intros H; [reflexivity|].
  apply includes_cons_false in H. destruct H as [H1 H2].
  cbn [includes]. rewrite (IH H2), orb_false_r.
  cbn [startsWith]. destruct s as [|b s]; [apply andb_false_r|].
  apply includes_cons_false in H2. destruct H2 as [H3 _].
  cbn [startsWith] in H3. rewrite andb_true_r in H3.
  rewrite H3. cbn [andb]. apply andb_false_r.
Qed.

(** A source without a backslash: only the last resort of [extractName]
    applies. *)
Lemma name_last_resort (latex : string) :
  includes latex "\" = false ->
  extractName latex
  = match name_from_lines (firstn 15 (lines_of latex)) with
    | Some name => name
    | None => placeholder_name
    end.
Proof.
  intros H.
  assert (Hnone : forall r, needs_backslash r -> search r latex = None).
  { intros r Hr. apply search_from_no_backslash; assumption. }
  assert (H3 : search (seqs [lit "{\LARGE\textbf{"; Grp 1 (plus not_close);
                             lit "}}"]) latex = None).
  { apply (search_from_no_start "{\LARGE\textbf{").
    - apply needs_literal_seqs. discriminate.
    - apply lacks_second_backslash, H. }
  unfold extractName, name_patterns. cbn [first_nonblank].
  rewrite H3.
  rewrite !Hnone; [reflexivity|..];
    first [ apply needs_backslash_seqs, needs_backslash_lit
          | apply needs_backslash_seqs, needs_backslash_seq,
              needs_backslash_chr_i ].
Qed.

Lemma split_head (sep : ascii) (s : string) :
  exists l ls, split sep s = l :: ls.
Proof.
  induction s as [|a s [l [ls E]]]; cbn [split]; [eauto|].
  rewrite E. destruct (Ascii.eqb a sep); eauto.
Qed.

Lemma split_lacks (sep c : ascii) (s : string) :
  includes s (String c EmptyString) = false ->
  Forall (fun l => includes l (String c EmptyString) = false) (split sep s).
Proof.
  induction s as [|a s IH]; intros H.
  - repeat constructor.
  - apply includes_cons_false in H. destruct H as [H1 H2].
    specialize (IH H2). cbn [split].
    destruct (split_head sep s) as [l [ls E]]. rewrite E in *.
    cbn [startsWith] in H1. rewrite andb_true_r in H1.
    inversion IH as [|? ? Hl Hls]. subst.
    destruct (Ascii.eqb a sep).
    + constructor; [reflexivity | exact IH].
    + constructor; [|exact Hls].
      cbn [includes startsWith]. rewrite andb_true_r, H1, Hl. reflexivity.
Qed.

Lemma letter_not_space (c : ascii) :
  is_alpha c = true -> none_of " " c = true.
Proof.
  destruct c as [[] [] [] [] [] [] [] []]; vm_compute; congruence.
Qed.

Lemma letters_lack_space (w : string) :
  forallb is_alpha (list_ascii_of_string w) = true ->
  includes w " " = false.
Proof.
  intros H. apply none_of_lacks.
  induction w as [|c w IH]; [reflexivity|].
  cbn [list_ascii_of_string forallb] in H |- *.
  apply andb_true_iff in H. destruct H as [Hc Hw].
  rewrite (letter_not_space c Hc), (IH Hw). reflexivity.
Qed.

Lemma capitalised_lacks_space (w : string) :
  capitalised w = true -> includes w " " = false.
Proof.
  intros H. apply letters_lack_space.
  destruct w as [|c [|d cs]]; try discriminate.
  cbn [capitalised] in H.
  apply andb_true_iff in H. destruct H as [H Hcs].
  apply andb_true_iff in H. destruct H as [Hc Hd].
  cbn [list_ascii_of_string forallb]. unfold is_alpha at 1 2.
  rewrite Hc, Hd, orb_true_r. cbn [orb andb].
  induction cs as [|x cs IH]; [reflexivity|].
  cbn [list_ascii_of_string forallb] in Hcs |- *.
  apply andb_true_iff in Hcs. destruct Hcs as [Hx Hcs].
  unfold is_alpha at 1. rewrite Hx, orb_true_r. exact (IH Hcs).
Qed.

Lemma append_empty_r (s : string) : s ++ EmptyString = s.
Proof. induction s as [|c s IH]; cbn [append]; [|rewrite IH]; reflexivity. Qed.

Lemma mt_bol (k : mstate -> option mstate) (s : string)
  (cs : list (nat * string)) :
  mt Bol k (MState true s cs) = k (MState true s cs).
Proof. reflexivity. Qed.

(** A greedy star whose continuation accepts everywhere accepts. *)
Lemma star_accepts (p : ascii -> bool) (st : mstate) :
  exists x, mt (star (Chr p)) Some st = Some x.
Proof.
  unfold star. cbn [mt].
  destruct (String.length (rest st)); cbn [star_loop]; [eauto|].
  match goal with |- context [match ?m with _ => _ end] => destruct m end;
    eauto.
Qed.

(** The pattern of the last resort accepts a line that starts with a
    capitalised word, a space and a capital and a small letter. *)
Lemma two_capitalised_accepts (first second tail : string) :
  capitalised first = true ->
  begins_capitalised second = true ->
  test two_capitalised (first ++ " " ++ second ++ tail) = true.
Proof.
  intros Hf Hs.
  destruct first as [|u1 [|l1 cs1]]; try discriminate.
  destruct second as [|u2 [|l2 more]]; try discriminate.
  cbn [capitalised] in Hf. cbn [begins_capitalised] in Hs.
  apply andb_true_iff in Hf. destruct Hf as [Hf Hcs].
  apply andb_true_iff in Hf. destruct Hf as [Hu1 Hl1].
  apply andb_true_iff in Hs. destruct Hs as [Hu2 Hl2].
  assert (Hin : exists x,
             mt (seqs [lit " "; upper; plus lower]) Some
                (MState false
                   (String " " (String u2 (String l2 (more ++ tail)))) [])
             = Some x).
  { cbn [seqs]. rewrite mt_seq.
    change (String " " (String u2 (String l2 (more ++ tail))))
      with (" " ++ String u2 (String l2 (more ++ tail))).
    rewrite (mt_lit " ") by discriminate.
    rewrite mt_seq. unfold upper. rewrite mt_chr, Hu2.
    unfold plus, lower. rewrite mt_seq, mt_chr, Hl2.
    apply star_accepts. }
  destruct Hin as [x Hx].
  assert (Hm : match_here two_capitalised true
                 (String u1 (String l1 cs1) ++ " "
                  ++ String u2 (String l2 more) ++ tail) = Some x).
  { unfold match_here, two_capitalised. cbn [seqs].
    rewrite mt_seq, mt_bol. cbn [append].
    rewrite mt_seq. unfold upper at 1. rewrite mt_chr, Hu1.
    rewrite mt_seq. unfold plus at 1, lower at 1.
    rewrite mt_seq, mt_chr, Hl1.
    apply mt_star_class; [reflexivity | exact Hcs | exact Hx]. }
  unfold test, search. rewrite (search_from_here _ _ _ _ _ Hm). reflexivity.
Qed.

(** The first two words of a line whose first two words hold no space. *)
Lemma first_two_words (first second : string) (more : list string) :
  includes first " " = false ->
  includes second " " = false ->
  join " " (firstn 2 (split " " (join " " (first :: second :: more))))
  = first ++ " " ++ second.
Proof.
  intros Hf Hs. cbn [join].
  change (first ++ " " ++ match more with
                          | [] => second
                          | _ :: _ => second ++ " " ++ join " " more
                          end)
    with (first ++ String " " match more with
                              | [] => second
                              | _ :: _ => second ++ " " ++ join " " more
                              end).
  rewrite (split_at " " first _ Hf).
  destruct more as [|w more].
  - rewrite (split_whole " " second Hs). reflexivity.
  - change (second ++ " " ++ join " " (w :: more))
      with (second ++ String " " (join " " (w :: more))).
    rewrite (split_at " " second _ Hs).
    reflexivity.
Qed.

End NameFacts.

(** X30.  A source in plain text, without backslash and closing brace,
    whose first line, once trimmed, is a capitalised word, a space, a word
    that begins with a capital and a small letter, and any further words:
    [extractName] returns the first two words of that line, with whatever
    follows the second word up to the next space. *)
Theorem name_of_plain_text
  (latex first second : string) (more : list string) :
  lacks latex ["\"; "}"] = true ->
  capitalised first = true ->
  begins_capitalised second = true ->
  includes second " " = false ->
  trim (hd EmptyString (lines_of latex))
  = join " " (first :: second :: more) ->
  extractName latex = first ++ " " ++ second.
Proof.
  intros Hl Hf Hs Hsp Hline.
  apply lacks_cons in Hl. destruct Hl as [Hb Hc]. apply lacks_one in Hc.
  rewrite (name_last_resort latex Hb).
  pose proof (split_lacks (ascii_of_nat 10) "\" latex Hb) as Fb.
  pose proof (split_lacks (ascii_of_nat 10) "}" latex Hc) as Fc.
  unfold lines_of in *.
  destruct (split_head (ascii_of_nat 10) latex) as [l [ls E]].
  rewrite E in *. cbn [hd] in Hline.
  inversion Fb as [|? ? Hlb _]. inversion Fc as [|? ? Hlc _]. subst.
  cbn [firstn name_from_lines]. cbv zeta.
  rewrite (clean_line_plain l Hlb Hlc), Hline.
  assert (Ht : test two_capitalised (join " " (first :: second :: more))
               = true).
  { cbn [join]. destruct more as [|w more].
    - rewrite <- (append_empty_r second).
      apply (two_capitalised_accepts first second EmptyString Hf Hs).
    - apply (two_capitalised_accepts first second
               (" " ++ join " " (w :: more)) Hf Hs). }
  rewrite Ht.
  apply first_two_words; [apply capitalised_lacks_space, Hf | exact Hsp].
Qed.

Lemma name_of_plain_text_witness :
  extractName ("  Jane Doe, Software Engineer" ++ nl ++ "jane@example.org")
  = "Jane Doe,".
Proof.
  apply (name_of_plain_text
           ("  Jane Doe, Software Engineer" ++ nl ++ "jane@example.org")
           "Jane" "Doe," ["Software"; "Engineer"]);
    reflexivity.
Defined.
